(** * PulseGuardian: the broker management client and the web handlers

    A shallow embedding of [management.py] (the RabbitMQ management client)
    and of the request handlers of [pulseguardian/web.py], with the
    properties of the ownership and authorization model, of the ordering
    between broker and local store, and of the client's path construction
    and error reporting. *)

From Stdlib Require Import Ascii String ZArith Lia.
From stdpp Require Import gmap strings list sorting pretty.

#[local] Set Warnings "-register-all,-clear-no-such-hyp".

(** ** Python values and exceptions *)

(** The values that travel through JSON bodies, the session and the
    template contexts.  A [dict] is kept as an association list: the code
    only tests keys for membership and reads single keys.  A [tuple] is
    what [flash] stores in the session. *)
Inductive pyval : Type :=
| PyNone
| PyBool (b : bool)
| PyInt (z : Z)
| PyStr (s : string)
| PyList (l : list pyval)
| PyTuple (l : list pyval)
| PyDict (d : list (string * pyval)).

(** The exception classes the modelled code raises or lets through;
    [ConnectionError] is the one of [requests], for a server out of
    reach. *)
Inductive exn : Type :=
| PulseManagementException (msg : string)
| KeyError (key : string)
| TypeError
| ValueError
| AttributeError
| NoResultFound
| DatabaseError
| ConnectionError
| HTTPException (code : nat).

Inductive outcome (A : Type) : Type :=
| Returned (a : A)
| Raised (e : exn).

Arguments Returned {A} a.
Arguments Raised {A} e.

(** [', '.join(l)] and friends. *)
Fixpoint str_join (sep : string) (l : list string) : string :=
  match l with
  | [] => ""
  | [x] => x
  | x :: rest => x +:+ sep +:+ str_join sep rest
  end.

(** [x in s] on strings: [s] has [x] as a contiguous part. *)
Definition is_infix (x s : string) : Prop :=
  exists pre post, s = pre +:+ x +:+ post.

(** [s.split(sep)] for a one-character separator. *)
Fixpoint split_on (sep : ascii) (s : string) : list string :=
  match s with
  | EmptyString => [EmptyString]
  | String c rest =>
      if Ascii.eqb c sep then EmptyString :: split_on sep rest
      else match split_on sep rest with
           | [] => [String c EmptyString]
           | piece :: pieces => String c piece :: pieces
           end
  end.

Fixpoint string_existsb (p : ascii -> bool) (s : string) : bool :=
  match s with
  | EmptyString => false
  | String c rest => p c || string_existsb p rest
  end.

Definition is_upper (c : ascii) : bool :=
  (65 <=? nat_of_ascii c)%nat && (nat_of_ascii c <=? 90)%nat.
Definition is_lower (c : ascii) : bool :=
  (97 <=? nat_of_ascii c)%nat && (nat_of_ascii c <=? 122)%nat.
Definition is_alpha (c : ascii) : bool := is_upper c || is_lower c.
Definition is_digit (c : ascii) : bool :=
  (48 <=? nat_of_ascii c)%nat && (nat_of_ascii c <=? 57)%nat.

(** [sep in s] *)
Definition has_char (sep : ascii) (s : string) : bool :=
  string_existsb (fun c => Ascii.eqb c sep) s.

(** ** [urllib.quote] and [urllib.unquote] (Python 2) on byte strings *)

Module Urllib.

(** [always_safe]: the letters, the digits and [_.-]. *)
Definition always_safe (c : ascii) : bool :=
  is_alpha c || is_digit c ||
  Ascii.eqb c "_" || Ascii.eqb c "." || Ascii.eqb c "-".

Definition hex_digit (n : nat) : ascii :=
  match n with
  | 0 => "0" | 1 => "1" | 2 => "2" | 3 => "3" | 4 => "4" | 5 => "5"
  | 6 => "6" | 7 => "7" | 8 => "8" | 9 => "9" | 10 => "A" | 11 => "B"
  | 12 => "C" | 13 => "D" | 14 => "E" | _ => "F"
  end%char.

(** ['%{:02X}'.format(ord(c))] *)
Definition percent (c : ascii) : string :=
  String "%" (String (hex_digit (nat_of_ascii c / 16))
             (String (hex_digit (nat_of_ascii c mod 16)) EmptyString)).

(** One entry of the quoter table: a character of [always_safe] or of
    [safe] stands for itself, every other byte becomes [%XX]. *)
Definition quoter (safe : string) (c : ascii) : string :=
  if always_safe c || string_existsb (Ascii.eqb c) safe
  then String c EmptyString
  else percent c.

(** [quote(s, safe)]: [''.join(map(quoter, s))]. *)
Fixpoint quote (s : string) (safe : string) : string :=
  match s with
  | EmptyString => EmptyString
  | String c rest => quoter safe c +:+ quote rest safe
  end.

Definition hex_value (c : ascii) : option nat :=
  let n := nat_of_ascii c in
  if is_digit c then Some (n - 48)
  else if (65 <=? n)%nat && (n <=? 70)%nat then Some (n - 55)
  else if (97 <=? n)%nat && (n <=? 102)%nat then Some (n - 87)
  else None.

(** [unquote(s)]: every [%XX] with two hexadecimal digits is replaced by
    the byte it names; a [%] not followed by two such digits stays. *)
Fixpoint unquote (s : string) : string :=
  match s with
  | EmptyString => EmptyString
  | String c rest =>
      if Ascii.eqb c "%" then
        match rest with
        | String h1 (String h2 rest') =>
            match hex_value h1, hex_value h2 with
            | Some a, Some b =>
                String (ascii_of_nat (16 * a + b)) (unquote rest')
            | _, _ => String c (unquote rest)
            end
        | _ => String c (unquote rest)
        end
      else String c (unquote rest)
  end.

End Urllib.

(** ** The broker management client ([management.py]) *)

Module Management.

(** The request as [requests.Request(...).prepare()] leaves it. *)
Record PreparedRequest : Type := {
  req_method : string;
  req_url : string;
  req_auth : string * string;
  req_body : string;
  req_headers : list (string * string)
}.

(** What the client reads of a response: [response.content], and
    [response.json()], which is [None] here when the body does not parse
    (the [ValueError] of the source). *)
Record Response : Type := {
  content : string;
  json : option pyval
}.

(** The instance attributes set by [__init__]. *)
Record PulseManagementAPI : Type := {
  host : string;
  management_port : N;
  vhost : string;
  management_user : string;
  management_password : string
}.

Definition DEFAULT_RABBIT_HOST : string := "localhost".
Definition DEFAULT_RABBIT_PORT : N := 5672.
Definition DEFAULT_RABBIT_MANAGEMENT_PORT : N := 15672.
Definition DEFAULT_RABBIT_VHOST : string := "/".
Definition DEFAULT_RABBIT_USER : string := "guest".
Definition DEFAULT_RABBIT_PASSWORD : string := "guest".

Definition default_api : PulseManagementAPI :=
  {| host := DEFAULT_RABBIT_HOST;
     management_port := DEFAULT_RABBIT_MANAGEMENT_PORT;
     vhost := DEFAULT_RABBIT_VHOST;
     management_user := DEFAULT_RABBIT_USER;
     management_password := DEFAULT_RABBIT_PASSWORD |}.

(** The client's effects: the requests sent so far, oldest first.  A call
    returns a value or raises, and extends the list. *)
Definition M (A : Type) : Type :=
  list PreparedRequest -> outcome A * list PreparedRequest.

Definition ret {A} (a : A) : M A := fun sent => (Returned a, sent).
Definition raise {A} (e : exn) : M A := fun sent => (Raised e, sent).
Definition bind {A B} (m : M A) (k : A -> M B) : M B :=
  fun sent =>
    match m sent with
    | (Returned a, sent') => k a sent'
    | (Raised e, sent') => (Raised e, sent')
    end.

Declare Scope client_scope.
Delimit Scope client_scope with client.
Notation "x <- m ;; k" := (bind m (fun x => k))
  (at level 100, m at next level, right associativity) : client_scope.
Notation "m ;;; k" := (bind m (fun _ => k))
  (at level 100, right associativity) : client_scope.

Section Client.

(** The broker behind [session.send]: its answer to a request, given
    the requests it has already served. *)
Variable session_send : list PreparedRequest -> PreparedRequest -> Response.
(** [json.dumps] and [str] on the payload. *)
Variable json_dumps : pyval -> string.
Variable py_str : pyval -> string.

Variable self : PulseManagementAPI.

Definition api_url (path : string) : string :=
  "http://" +:+ host self +:+ ":" +:+ pretty (management_port self)
    +:+ "/api/" +:+ path.

Definition prepare (path method : string) (data : pyval) : PreparedRequest :=
  {| req_method := method;
     req_url := api_url path;
     req_auth := (management_user self, management_password self);
     req_body := json_dumps data;
     req_headers := [("Content-type", "application/json")] |}.

Definition api_error_message (path method : string) (data : pyval)
    (received : string) : string :=
  "Error when calling '" +:+ method +:+ " " +:+ path +:+ "' with data="
    +:+ py_str data +:+ ". Received : " +:+ received.

Definition _api_request (path method : string) (data : pyval) : M pyval :=
  fun sent =>
    let request := prepare path method data in
    let response := session_send sent request in
    let sent' := sent ++ [request] in
    if decide (content response = "") then (Returned PyNone, sent')
    else match json response with
         | Some v => (Returned v, sent')
         | None =>
             (Raised (PulseManagementException
                        (api_error_message path method data
                           (content response))), sent')
         end.

(** *** Queues *)

Definition queues (vhost : option string) : M pyval :=
  match vhost with
  | Some v =>
      if decide (v = "") then _api_request "queues" "GET" PyNone
      else let v := Urllib.quote v "" in
           _api_request ("queues/" +:+ v) "GET" PyNone
  | None => _api_request "queues" "GET" PyNone
  end.

Definition queue (vhost queue : string) : M pyval :=
  let vhost := Urllib.quote vhost "" in
  let queue := Urllib.quote queue "" in
  _api_request ("queues/" +:+ vhost +:+ "/" +:+ queue) "GET" PyNone.

Definition delete_queue (vhost queue : string) : M unit :=
  let vhost := Urllib.quote vhost "" in
  let queue := Urllib.quote queue "" in
  (_ <- _api_request ("queues/" +:+ vhost +:+ "/" +:+ queue)
                     "DELETE" PyNone ;;
   ret tt)%client.

(** *** Users *)

Definition user (username : string) : M pyval :=
  let username := Urllib.quote username "" in
  _api_request ("users/" +:+ username) "GET" PyNone.

Definition create_user (username password tags : string) : M unit :=
  let username := Urllib.quote username "" in
  let data := PyDict [("password", PyStr password); ("tags", PyStr tags)] in
  (_ <- _api_request ("users/" +:+ username) "PUT" data ;;
   ret tt)%client.

Definition delete_user (username : string) : M unit :=
  let username := Urllib.quote username "" in
  (_ <- _api_request ("users/" +:+ username) "DELETE" PyNone ;;
   ret tt)%client.

(** *** Channels *)

Definition channels : M pyval := _api_request "channels" "GET" PyNone.

Definition channel (channel : string) : M pyval :=
  let channel := Urllib.quote channel "" in
  _api_request ("channels/" +:+ channel) "GET" PyNone.

(** *** What a call sends *)

(** A call sends exactly one request, for the given path. *)
Definition sends_path {A} (m : M A) (path : string) : Prop :=
  forall sent, exists r,
    (m sent).2 = (sent ++ [r])%list /\ req_url r = api_url path.

End Client.

End Management.

(** ** The web application ([pulseguardian/web.py]) *)

Module Web.

(** *** The local store *)

(** Modelled from the spec: the model classes [User], [PulseUser] and
    [Queue] of [pulseguardian.model], which [web.py] imports.  The rows
    follow the persisted schema, [users(email, admin)],
    [pulse_users(username, password_hash)] with the association
    [pulse_user_owners], and [queues(name, owner)]; each table is keyed by
    its primary key, and an object read from a table carries that key. *)

Record User : Type := { email : string; admin : bool }.

Record PulseUser : Type := {
  username : string;
  password_hash : string;
  owners : gset string          (* the emails of the owning users *)
}.

Record Queue : Type := {
  name : string;
  owner : option string         (* the username of the owning pulse user *)
}.

Record store : Type := {
  tbl_users : gmap string bool;
  tbl_pulse_users : gmap string (string * gset string);
  tbl_queues : gmap string (option string)
}.

Definition get_user (db : store) (e : string) : option User :=
  (fun a => {| email := e; admin := a |}) <$> tbl_users db !! e.

Definition get_pulse_user (db : store) (u : string) : option PulseUser :=
  (fun row => {| username := u; password_hash := row.1; owners := row.2 |})
    <$> tbl_pulse_users db !! u.

Definition get_queue (db : store) (n : string) : option Queue :=
  (fun o => {| name := n; owner := o |}) <$> tbl_queues db !! n.

(** [queue.owner]: the pulse user the foreign key points to, if any. *)
Definition queue_owner (db : store) (q : Queue) : option PulseUser :=
  owner q ≫= get_pulse_user db.

(** [user.pulse_users]: the pulse users that list the user as an owner. *)
Definition pulse_users_of (db : store) (u : User) : list PulseUser :=
  (fun kv => {| username := kv.1; password_hash := kv.2.1; owners := kv.2.2 |})
    <$> map_to_list (filter (fun kv => email u ∈ kv.2.2) (tbl_pulse_users db)).

Definition all_users (db : store) : list User :=
  (fun kv => {| email := kv.1; admin := kv.2 |}) <$> map_to_list (tbl_users db).

(** [Queue.query.filter(Queue.owner == None)] *)
Definition no_owner_queues_of (db : store) : list Queue :=
  (fun kv => {| name := kv.1; owner := kv.2 |})
    <$> map_to_list (filter (fun kv => kv.2 = None) (tbl_queues db)).

(** [User.query.filter(User.email.in_(emails))] *)
Definition users_with_email_in (db : store) (emails : gset string) : list User :=
  (fun kv => {| email := kv.1; admin := kv.2 |})
    <$> map_to_list (filter (fun kv => kv.1 ∈ emails) (tbl_users db)).

Definition store_delete_queue (n : string) (db : store) : store :=
  {| tbl_users := tbl_users db;
     tbl_pulse_users := tbl_pulse_users db;
     tbl_queues := delete n (tbl_queues db) |}.

Definition store_delete_pulse_user (u : string) (db : store) : store :=
  {| tbl_users := tbl_users db;
     tbl_pulse_users := delete u (tbl_pulse_users db);
     tbl_queues := tbl_queues db |}.

Definition store_set_owners (u : string) (os : gset string) (db : store) : store :=
  {| tbl_users := tbl_users db;
     tbl_pulse_users := alter (fun row => (row.1, os)) u (tbl_pulse_users db);
     tbl_queues := tbl_queues db |}.

Definition store_set_password (u : string) (h : string) (db : store) : store :=
  {| tbl_users := tbl_users db;
     tbl_pulse_users := alter (fun row => (h, row.2)) u (tbl_pulse_users db);
     tbl_queues := tbl_queues db |}.

Definition store_add_user (e : string) (db : store) : store :=
  {| tbl_users := <[e := false]> (tbl_users db);
     tbl_pulse_users := tbl_pulse_users db;
     tbl_queues := tbl_queues db |}.

Definition store_add_pulse_user (u h : string) (os : gset string) (db : store)
    : store :=
  {| tbl_users := tbl_users db;
     tbl_pulse_users := <[u := (h, os)]> (tbl_pulse_users db);
     tbl_queues := tbl_queues db |}.

(** *** Responses, broker calls and the request's world *)

Inductive response : Type :=
| redirect (location : string)
| jsonify (body : list (string * pyval))
| render_profile (users : list User) (no_owner_queues : list Queue)
    (error : option string) (messages : option (list string))
| render_register (email : pyval) (error : option string)
    (signup_errors : option (list string)).

(** The calls the handlers make on [pulse_management]. *)
Inductive broker_call : Type :=
| call_delete_queue (vhost queue : string)
| call_delete_user (username : string)
| call_queue_bindings (vhost queue : string)
| call_user (username : string)
| call_create_user (username password : string)
| call_change_password (username password : string).

Inductive level : Type := INFO | WARNING | ERROR.

Record world : Type := {
  db : store;                       (* the rows as [db_session] sees them *)
  committed : store;                (* the rows as last committed *)
  session : gmap string pyval;      (* [flask.session] *)
  g_user : option User;             (* [flask.g.user] *)
  flashes : list string;            (* the messages [flash] has signalled *)
  logs : list (level * string);     (* the [logging] records, oldest first *)
  broker : list broker_call         (* the broker calls made, oldest first *)
}.

Definition H (A : Type) : Type := world -> outcome A * world.

Definition ret {A} (a : A) : H A := fun w => (Returned a, w).
Definition raise {A} (e : exn) : H A := fun w => (Raised e, w).
Definition bind {A B} (m : H A) (k : A -> H B) : H B :=
  fun w =>
    match m w with
    | (Returned a, w') => k a w'
    | (Raised e, w') => (Raised e, w')
    end.

(** [try: m  except PulseManagementException as e: handler(e)] *)
Definition try_except {A} (m : H A) (handler : string -> H A) : H A :=
  fun w =>
    match m w with
    | (Raised (PulseManagementException msg), w') => handler msg w'
    | r => r
    end.

Declare Scope handler_scope.
Delimit Scope handler_scope with handler.
Notation "x <- m ;; k" := (bind m (fun x => k))
  (at level 100, m at next level, right associativity) : handler_scope.
Notation "m ;;; k" := (bind m (fun _ => k))
  (at level 100, right associativity) : handler_scope.

Definition get_world : H world := fun w => (Returned w, w).

Definition with_db (f : store -> store) : H unit :=
  fun w => (Returned tt,
            {| db := f (db w); committed := committed w; session := session w;
               g_user := g_user w; flashes := flashes w; logs := logs w;
               broker := broker w |}).

(** [db_session.commit()] *)
Definition db_commit : H unit :=
  fun w => (Returned tt,
            {| db := db w; committed := db w; session := session w;
               g_user := g_user w; flashes := flashes w; logs := logs w;
               broker := broker w |}).

Definition session_set (k : string) (v : pyval) : H unit :=
  fun w => (Returned tt,
            {| db := db w; committed := committed w;
               session := <[k := v]> (session w);
               g_user := g_user w; flashes := flashes w; logs := logs w;
               broker := broker w |}).

Definition set_g_user (u : option User) : H unit :=
  fun w => (Returned tt,
            {| db := db w; committed := committed w; session := session w;
               g_user := u; flashes := flashes w; logs := logs w;
               broker := broker w |}).

(** [flash(message)] of Flask, with its default category: the pair of
    the category and the message is appended to the list the session
    holds under [_flashes] (an empty list when the key is missing; a value
    that is no list has no [append]), the list is stored back in the
    session, and the message is signalled, which [flashes] records. *)
Definition flash (msg : string) : H unit :=
  fun w =>
    match default (PyList []) (session w !! "_flashes") with
    | PyList l =>
        (Returned tt,
         {| db := db w; committed := committed w;
            session :=
              <["_flashes" := PyList (l ++ [PyTuple [PyStr "message"; PyStr msg]])]>
                (session w);
            g_user := g_user w; flashes := flashes w ++ [msg];
            logs := logs w; broker := broker w |})
    | _ => (Raised AttributeError, w)
    end.

Definition logging (l : level) (msg : string) : H unit :=
  fun w => (Returned tt,
            {| db := db w; committed := committed w; session := session w;
               g_user := g_user w; flashes := flashes w;
               logs := logs w ++ [(l, msg)]; broker := broker w |}).

(** [session.get(k)]: a missing key reads as [None]. *)
Definition session_get (w : world) (k : string) : pyval :=
  default PyNone (session w !! k).

(** Python truth of a value. *)
Definition truthy (v : pyval) : bool :=
  match v with
  | PyNone => false
  | PyBool b => b
  | PyInt z => negb (z =? 0)%Z
  | PyStr s => negb (String.eqb s "")
  | PyList l => match l with [] => false | _ => true end
  | PyTuple l => match l with [] => false | _ => true end
  | PyDict d => match d with [] => false | _ => true end
  end.

Definition is_none (v : pyval) : bool :=
  match v with PyNone => true | _ => false end.

(** [v[k]] for a string key. *)
Definition py_getitem (v : pyval) (k : string) : outcome pyval :=
  match v with
  | PyDict d =>
      match list_find (fun kv => kv.1 = k) d with
      | Some (_, kv) => Returned kv.2
      | None => Raised (KeyError k)
      end
  | _ => Raised TypeError
  end.

Fixpoint prefixb (x s : string) : bool :=
  match x, s with
  | EmptyString, _ => true
  | String a x', String b s' => Ascii.eqb a b && prefixb x' s'
  | String _ _, EmptyString => false
  end.

Fixpoint infixb (x s : string) : bool :=
  prefixb x s ||
  match s with
  | EmptyString => false
  | String _ s' => infixb x s'
  end.

Definition is_str (k : string) (v : pyval) : bool :=
  match v with PyStr s => String.eqb s k | _ => false end.

(** [k in v] for a string [k]: a key of a dict, an element of a list or
    of a tuple, a part of a string; the other values are not iterable. *)
Definition py_contains (k : string) (v : pyval) : outcome bool :=
  match v with
  | PyDict d => Returned (existsb (fun kv => String.eqb kv.1 k) d)
  | PyList l => Returned (existsb (is_str k) l)
  | PyTuple l => Returned (existsb (is_str k) l)
  | PyStr s => Returned (infixb k s)
  | _ => Raised TypeError
  end.

Definition dquote : string := String (ascii_of_nat 34) EmptyString.

(** *** Cleaning the owners string *)

(** The values of [request.form] are text, and [strip()] on text removes
    the white space of Unicode.  A character of a form value stands for
    the code point of its number, so the texts of the model are those
    whose code points are below 256; of these, the white space is
    U+0009 to U+000D, U+001C to U+0020, U+0085 and U+00A0. *)
Definition is_whitespace (c : ascii) : bool :=
  let n := nat_of_ascii c in
  ((9 <=? n)%nat && (n <=? 13)%nat) || ((28 <=? n)%nat && (n <=? 32)%nat)
  || (n =? 133)%nat || (n =? 160)%nat.

Fixpoint lstrip (s : string) : string :=
  match s with
  | EmptyString => EmptyString
  | String c rest => if is_whitespace c then lstrip rest else s
  end.

Definition rstrip (s : string) : string := String.rev (lstrip (String.rev s)).

(** [s.strip()] *)
Definition strip (s : string) : string := rstrip (lstrip s).

(** [{owner.strip() for owner in owners_str.split(",") if owner}] *)
Definition _clean_owners_str (owners_str : string) : gset string :=
  list_to_set
    (strip <$> filter (fun owner => owner ≠ "") (split_on "," owners_str)).

(** [sorted(s)] on a set of strings. *)
Definition str_le (a b : string) : Prop := String.leb a b = true.

#[global] Instance str_le_dec a b : Decision (str_le a b).
Proof. unfold str_le. apply _. Defined.

Definition sorted (s : gset string) : list string :=
  merge_sort str_le (elements s).

(** *** Password and username rules *)

(** Modelled from the spec: [PulseUser.strong_password], declared with
    the model classes; a password is strong when it has at least 6
    characters, at least one letter and at least one digit. *)
Definition strong_password (password : string) : bool :=
  (6 <=? String.length password)%nat
  && string_existsb is_alpha password
  && string_existsb is_digit password.

Definition username_char (c : ascii) : bool :=
  is_alpha c || is_digit c ||
  Ascii.eqb c "." || Ascii.eqb c "_" || Ascii.eqb c "-".

(** The rest of [^[a-zA-Z][a-zA-Z0-9._-]*$]: characters of the class up to
    the end, where [$] also matches before one final newline. *)
Fixpoint username_tail (s : string) : bool :=
  match s with
  | EmptyString => true
  | String c rest =>
      if username_char c then username_tail rest
      else Ascii.eqb c (ascii_of_nat 10) && String.eqb rest ""
  end.

(** [re.match('^[a-zA-Z][a-zA-Z0-9._-]*$', username)] *)
Definition username_match (username : string) : bool :=
  match username with
  | EmptyString => false
  | String c rest => is_alpha c && username_tail rest
  end.

(** *** Configuration and the outside world *)

Record Config : Type := {
  auth0_domain : string;
  auth0_client_id : string;
  auth0_client_secret : string;
  auth0_callback_url : string;
  fake_account : option string;
  reserved_users_regex : option (string -> bool);
  reserved_users_message : string
}.

(** What the callback reads of a [requests] response. *)
Record http_response : Type := {
  ok : bool;
  text : string;
  json : option pyval       (* [None]: [.json()] raises [ValueError] *)
}.

Section Handlers.

Variable config : Config.
(** [pulse_management]: the broker's answer to a call, given the calls
    made before it.  [web.py] imports the module from
    [pulseguardian.management]; here it is a parameter, and each of its
    calls returns a value or raises. *)
Variable pulse_management : list broker_call -> broker_call -> outcome pyval.
(** [requests.post(url, data=..., headers=json_header)] and
    [requests.get(url)] against the identity provider. *)
Variable requests_post : string -> string -> outcome http_response.
Variable requests_get : string -> outcome http_response.
Variable json_dumps : pyval -> string.
(** [str.format] on a value, and the hash kept for a password. *)
Variable py_str : pyval -> string.
Variable hash_password : string -> string.

Definition broker_do (c : broker_call) : H pyval :=
  fun w =>
    (pulse_management (broker w) c,
     {| db := db w; committed := committed w; session := session w;
        g_user := g_user w; flashes := flashes w; logs := logs w;
        broker := broker w ++ [c] |}).

Definition lift {A} (o : outcome A) : H A := fun w => (o, w).

(** [request.form[k]]: a missing field is a 400. *)
Definition form_get (form : gmap string string) (k : string) : H string :=
  match form !! k with
  | Some v => ret v
  | None => raise (HTTPException 400)
  end.

(** [g.user.<attr>]: [g.user] may be [None]. *)
Definition the_g_user : H User :=
  fun w =>
    match g_user w with
    | Some u => (Returned u, w)
    | None => (Raised AttributeError, w)
    end.

(** [User.query.filter(User.email == v).first()]; only a string can
    name a row of the users table. *)
Definition query_user (v : pyval) : H (option User) :=
  match v with
  | PyStr e => (w <- get_world ;; ret (get_user (db w) e))%handler
  | _ => raise DatabaseError
  end.

(** Modelled from the spec: [User.new_user], declared with the model
    classes; a user is created with the admin flag off and committed. *)
Definition new_user (v : pyval) : H User :=
  match v with
  | PyStr e =>
      (with_db (store_add_user e) ;;;
       db_commit ;;;
       ret {| email := e; admin := false |})%handler
  | _ => raise DatabaseError
  end.

(** Modelled from the spec: [PulseUser.new_user], declared with the
    model classes; the broker-side user is created first, the local row
    with the resolved owners second. *)
Definition new_pulse_user (username password : string)
    (owner_users : list User) : H unit :=
  (_ <- broker_do (call_create_user username password) ;;
   with_db (store_add_pulse_user username (hash_password password)
              (list_to_set (email <$> owner_users))) ;;;
   db_commit)%handler.

(** Modelled from the spec: [PulseUser.change_password], declared with
    the model classes; the broker-side credential is updated first, and
    a failure there prevents the local update of the hash, which has no
    commit of its own. *)
Definition change_password (pulse_user : PulseUser) (new_password : string)
    : H unit :=
  (_ <- broker_do (call_change_password (username pulse_user) new_password) ;;
   with_db (store_set_password (username pulse_user)
              (hash_password new_password)))%handler.

(** *** Decorators and request hooks *)

Definition load_fake_account (fake : string) : H unit :=
  (session_set "email" (PyStr fake) ;;;
   session_set "fake_account" (PyBool true) ;;;
   session_set "logged_in" (PyBool true) ;;;
   u <- query_user (PyStr fake) ;;
   match u with
   | Some u => set_g_user (Some u)
   | None => (u <- new_user (PyStr fake) ;; set_g_user (Some u))
   end)%handler.

Definition requires_login (f : H response) : H response :=
  fun w =>
    if is_none (session_get w "email") then (Returned (redirect "/"), w)
    else f w.

Definition requires_admin (f : H response) : H response :=
  (u <- the_g_user ;;
   if negb (admin u) then raise (HTTPException 404) else f)%handler.

Definition load_user : H unit :=
  match fake_account config with
  | Some (String c fake) => load_fake_account (String c fake)
  | _ =>
      (w <- get_world ;;
       let email := session_get w "email" in
       if negb (truthy email) then set_g_user None
       else
         u <- query_user (session_get w "email") ;;
         match u with
         | Some u => set_g_user (Some u)
         | None => (u <- new_user email ;; set_g_user (Some u))
         end)%handler
  end.

(** *** Views *)

Definition register (error : option string) : H response :=
  requires_login
    (fun w => (Returned (render_register (session_get w "email") error None), w)).

Definition profile (error : option string) (messages : option (list string))
    : H response :=
  requires_login
    (u <- the_g_user ;;
     w <- get_world ;;
     if admin u
     then ret (render_profile (all_users (db w)) (no_owner_queues_of (db w))
                 error messages)
     else ret (render_profile [] [] error messages))%handler.

(** *** API *)

(** [g.user.admin or (queue.owner and g.user in queue.owner.owners)] *)
Definition may_delete_queue (db : store) (u : User) (q : Queue) : bool :=
  admin u ||
  match queue_owner db q with
  | Some pu => bool_decide (email u ∈ owners pu)
  | None => false
  end.

Definition delete_queue (queue_name : string) : H response :=
  requires_login
    (w <- get_world ;;
     match get_queue (db w) queue_name with
     | Some queue =>
         u <- the_g_user ;;
         if may_delete_queue (db w) u queue then
           early <-
             try_except
               (_ <- broker_do (call_delete_queue "/" (name queue)) ;;
                ret None)
               (fun e =>
                  logging WARNING
                    ("Couldn't delete the queue '" +:+ queue_name
                       +:+ "' on rabbitmq: " +:+ e) ;;;
                  ret (Some (jsonify [("ok", PyBool false)]))) ;;
           match early with
           | Some r => ret r
           | None =>
               with_db (store_delete_queue (name queue)) ;;;
               db_commit ;;;
               ret (jsonify [("ok", PyBool true)])
           end
         else ret (jsonify [("ok", PyBool false)])
     | None => ret (jsonify [("ok", PyBool false)])
     end)%handler.

(** [g.user.admin or g.user in pulse_user.owners] *)
Definition may_delete_pulse_user (u : User) (pu : PulseUser) : bool :=
  admin u || bool_decide (email u ∈ owners pu).

Definition delete_pulse_user (pulse_username : string) : H response :=
  requires_login
    (logging INFO ("Request to delete Pulse user " +:+ dquote
                     +:+ pulse_username +:+ dquote +:+ ".") ;;;
     w <- get_world ;;
     match get_pulse_user (db w) pulse_username with
     | Some pulse_user =>
         u <- the_g_user ;;
         if may_delete_pulse_user u pulse_user then
           early <-
             try_except
               (_ <- broker_do (call_delete_user (username pulse_user)) ;;
                ret None)
               (fun e =>
                  logging WARNING
                    ("Couldn't delete user '" +:+ pulse_username
                       +:+ "' on rabbitmq: " +:+ e) ;;;
                  ret (Some (jsonify [("ok", PyBool false)]))) ;;
           match early with
           | Some r => ret r
           | None =>
               logging INFO ("Pulse user " +:+ dquote +:+ pulse_username
                               +:+ dquote +:+ " deleted.") ;;;
               with_db (store_delete_pulse_user (username pulse_user)) ;;;
               db_commit ;;;
               ret (jsonify [("ok", PyBool true)])
           end
         else ret (jsonify [("ok", PyBool false)])
     | None => ret (jsonify [("ok", PyBool false)])
     end)%handler.

(** *** Read-only API *)

Definition bindings_listing (queue_name : string) : H response :=
  (w <- get_world ;;
   bindings <-
     match get_queue (db w) queue_name with
     | Some queue => broker_do (call_queue_bindings "/" (name queue))
     | None => ret (PyList [])
     end ;;
   ret (jsonify [("queue_name", PyStr queue_name); ("bindings", bindings)])
  )%handler.

(** *** Authentication *)

Definition response_json (r : http_response) : H pyval :=
  match json r with
  | Some v => ret v
  | None => raise ValueError
  end.

Definition callback_handling (code : pyval) : H response :=
  (let token_url := "https://" +:+ auth0_domain config +:+ "/oauth/token" in
   let token_payload :=
     PyDict [("client_id", PyStr (auth0_client_id config));
             ("client_secret", PyStr (auth0_client_secret config));
             ("redirect_uri", PyStr (auth0_callback_url config));
             ("code", code);
             ("grant_type", PyStr "authorization_code")] in
   token_resp <- lift (requests_post token_url (json_dumps token_payload)) ;;
   token_info <- response_json token_resp ;;
   access_token <- lift (py_getitem token_info "access_token") ;;
   let user_url :=
     "https://" +:+ auth0_domain config +:+ "/userinfo?access_token="
       +:+ py_str access_token in
   resp <- lift (requests_get user_url) ;;
   if ok resp then
     user_info <- response_json resp ;;
     email <- lift (py_getitem user_info "email") ;;
     session_set "email" email ;;;
     session_set "logged_in" (PyBool true) ;;;
     found <- query_user email ;;
     user <- match found with
             | Some u => ret u
             | None => new_user email
             end ;;
     w <- get_world ;;
     match pulse_users_of (db w) user with
     | _ :: _ => ret (redirect "/")
     | [] => ret (redirect "/register")
     end
   else
     let error_msg :=
       "Error verifying with Auth0 (" +:+ auth0_domain config +:+ ")" in
     logging ERROR error_msg ;;;
     logging ERROR (text resp) ;;;
     flash error_msg ;;;
     ret (redirect "/"))%handler.

Definition logout_handler : H response :=
  (session_set "email" PyNone ;;;
   session_set "logged_in" (PyBool false) ;;;
   ret (jsonify [("ok", PyBool true); ("redirect", PyStr "/")]))%handler.

(** *** Updating a pulse user *)

(** The owners part of [update_info], from [old_owners = ...] to the
    assignment of [error] and [messages]; it returns the pair
    [(messages, error)]. *)
Definition update_owners (pulse_user : PulseUser) (new_owners : gset string)
    (messages : list string) : H (list string * option string) :=
  (w <- get_world ;;
   let old_owners : gset string := owners pulse_user in
   if bool_decide (new_owners ≠ ∅) && bool_decide (new_owners ≠ old_owners)
   then
     let new_owner_users := users_with_email_in (db w) new_owners in
     match new_owner_users with
     | _ :: _ =>
         with_db (store_set_owners (username pulse_user)
                    (list_to_set (email <$> new_owner_users))) ;;;
         db_commit ;;;
         let updated_owners : gset string :=
           list_to_set (email <$> new_owner_users) in
         let invalid_owners := sorted (new_owners ∖ updated_owners) in
         match invalid_owners with
         | _ :: _ =>
             ret (messages,
                  Some ("Some user emails not found: "
                          +:+ str_join ", " invalid_owners))
         | [] => ret (["Email list updated."], None)
         end
     | [] =>
         ret (messages,
              Some ("Invalid owners: " +:+
                    "Must be a comma-delimited list of existing user emails."))
     end
   else ret (messages, None))%handler.

Definition update_info (form : gmap string string) : H response :=
  requires_login
    (pulse_username <- form_get form "pulse-user" ;;
     new_password <- form_get form "new-password" ;;
     password_verification <- form_get form "new-password-verification" ;;
     owners_list <- form_get form "owners-list" ;;
     let new_owners := _clean_owners_str owners_list in
     w <- get_world ;;
     match get_pulse_user (db w) pulse_username with
     | None =>
         profile None
           (Some ["Pulse user " +:+ pulse_username +:+ " not found."])
     | Some pulse_user =>
         let is_owner :=
           match g_user w with
           | Some u => bool_decide (email u ∈ owners pulse_user)
           | None => false
           end in
         if negb is_owner then
           u <- the_g_user ;;
           profile None
             (Some ["Invalid user: " +:+ email u +:+ " is not an owner."])
         else
           let messages : list string := [] in
           after_password <-
             (if negb (String.eqb new_password "") then
                if negb (String.eqb new_password password_verification)
                then
                  r <- profile
                         (Some ("Password verification doesn't match the "
                                  +:+ "password.")) None ;;
                  ret (inl r : response + list string)
                else if negb (strong_password new_password)
                then
                  r <- profile
                         (Some ("Your password must contain a mix of "
                                  +:+ "letters and numerical characters and be at "
                                  +:+ "least 6 characters long.")) None ;;
                  ret (inl r : response + list string)
                else
                  change_password pulse_user new_password ;;;
                  ret (inr (messages ++
                              ["Password updated for user "
                                 +:+ pulse_username +:+ "."])
                       : response + list string)
              else ret (inr messages : response + list string)) ;;
           match after_password with
           | inl r => ret r
           | inr messages =>
               me <- update_owners pulse_user new_owners messages ;;
               let '(messages, error) := me in
               let messages :=
                 match error, messages with
                 | None, [] => ["No info updated."]
                 | _, _ => messages
                 end in
               profile error (Some messages)
           end
     end)%handler.

(** *** Registering a pulse user *)

(** The existence check of [register_handler] against the broker: the
    [try]/[except]/[else] that sets [in_rabbitmq]. *)
Definition in_rabbitmq (username : string) : H bool :=
  (looked_up <-
     try_except
       (user_response <- broker_do (call_user username) ;;
        ret (Some user_response))
       (fun _ => ret None) ;;
   match looked_up with
   | None => ret false
   | Some user_response =>
       has_error <- lift (py_contains "error" user_response) ;;
       if has_error then ret false else ret true
   end)%handler.

Definition register_handler (form : gmap string string) : H response :=
  (username <- form_get form "username" ;;
   password <- form_get form "password" ;;
   password_verification <- form_get form "password-verification" ;;
   owners_list <- form_get form "owners-list" ;;
   let owners := _clean_owners_str owners_list in
   w <- get_world ;;
   email <- match session w !! "email" with
            | Some v => ret v
            | None => raise (KeyError "email")
            end ;;
   let errors : list string := [] in
   let errors :=
     if negb (String.eqb password password_verification)
     then errors ++ ["Password verification doesn't match the password."]
     else if negb (strong_password password)
     then errors ++ ["Your password must contain a mix of letters and "
                       +:+ "numerical characters and be at least 6 characters long."]
     else errors in
   let errors :=
     if negb (username_match username)
     then errors ++ ["The submitted username must start with an "
                       +:+ "alphabetical character and contain only alphanumeric "
                       +:+ "characters, periods, underscores, and hyphens."]
     else errors in
   let errors :=
     match reserved_users_regex config with
     | Some reserved =>
         if reserved username
         then errors ++ ["The submitted username is reserved. "
                           +:+ reserved_users_message config]
         else errors
     | None => errors
     end in
   in_rabbit <- in_rabbitmq username ;;
   w <- get_world ;;
   let errors :=
     if in_rabbit || bool_decide (is_Some (get_pulse_user (db w) username))
     then errors ++ ["A user with the same username already exists."]
     else errors in
   match errors with
   | _ :: _ => ret (render_register email None (Some errors))
   | [] =>
       let owner_users := users_with_email_in (db w) owners in
       match owner_users with
       | [] =>
           register
             (Some ("Invalid owners list: " +:+
                    (if String.eqb owners_list "" then "None" else owners_list)))
       | _ :: _ =>
           new_pulse_user username password owner_users ;;;
           ret (redirect "/profile")
       end
   end)%handler.

(** *** Conditions on a request, for the statements below *)

(** The password step of [update_info] lets the request through: no new
    password, or a confirmed, strong one that the broker accepts. *)
Definition password_step_passes (w : world) (pn pw pv : string) : Prop :=
  pw = "" \/
  (pw = pv /\ strong_password pw = true /\
   exists v, pulse_management (broker w) (call_change_password pn pw)
             = Returned v).

(** The exchange of the code at the token endpoint. *)
Definition token_request (code : pyval) : outcome http_response :=
  requests_post ("https://" +:+ auth0_domain config +:+ "/oauth/token")
    (json_dumps
       (PyDict [("client_id", PyStr (auth0_client_id config));
                ("client_secret", PyStr (auth0_client_secret config));
                ("redirect_uri", PyStr (auth0_callback_url config));
                ("code", code);
                ("grant_type", PyStr "authorization_code")])).

End Handlers.

(** *** Vocabulary of the statements *)

Definition ok_false : response := jsonify [("ok", PyBool false)].
Definition ok_true : response := jsonify [("ok", PyBool true)].

Definition logged_in (w : world) : Prop :=
  is_none (session_get w "email") = false.

(** The acting user may mutate the queue: an admin, or a member of the
    owners of the queue's owner; never through a queue without owner. *)
Definition can_mutate_queue (db : store) (u : User) (q : Queue) : Prop :=
  admin u = true \/
  exists pu, queue_owner db q = Some pu /\ email u ∈ owners pu.

Definition can_mutate_pulse_user (u : User) (pu : PulseUser) : Prop :=
  admin u = true \/ email u ∈ owners pu.

Definition profile_users (w : world) (u : User) : list User :=
  if admin u then all_users (db w) else [].
Definition profile_queues (w : world) (u : User) : list Queue :=
  if admin u then no_owner_queues_of (db w) else [].

(** The form of [update_info] carries its four fields. *)
Definition update_form (form : gmap string string)
    (pulse_username new_password password_verification owners_list : string)
    : Prop :=
  form !! "pulse-user" = Some pulse_username
  /\ form !! "new-password" = Some new_password
  /\ form !! "new-password-verification" = Some password_verification
  /\ form !! "owners-list" = Some owners_list.

(** [pulse_user.owners] as the store has it. *)
Definition owners_in (db : store) (pn : string) : option (gset string) :=
  owners <$> get_pulse_user db pn.

Definition invalid_owners_message : string :=
  "Invalid owners: Must be a comma-delimited list of existing user emails.".

(** The last lines of [update_info], after the password step. *)
Definition finish_update (pu : PulseUser) (new_owners : gset string)
    (messages : list string) : H response :=
  (me <- update_owners pu new_owners messages ;;
   let '(messages, error) := me in
   let messages :=
     match error, messages with
     | None, [] => ["No info updated."]
     | _, _ => messages
     end in
   profile error (Some messages))%handler.

(** The world after the first log line of [delete_pulse_user]. *)
Definition with_request_log (n : string) (w : world) : world :=
  (logging INFO ("Request to delete Pulse user " +:+ dquote +:+ n
                   +:+ dquote +:+ ".") w).2.

Definition has_error_key (d : list (string * pyval)) : bool :=
  existsb (fun kv => String.eqb kv.1 "error") d.

End Web.

(** ** The client's methods that read into the answers ([management.py]) *)

Module ManagementMisc.

Import Management.

(** These methods index lists, so they can also raise [IndexError]. *)
Inductive error : Type :=
| Exn (e : exn)
| IndexError.

Inductive result (A : Type) : Type :=
| Ok (a : A)
| Err (e : error).

Arguments Ok {A} a.
Arguments Err {A} e.

Definition MM (A : Type) : Type :=
  list PreparedRequest -> result A * list PreparedRequest.

Definition mret {A} (a : A) : MM A := fun sent => (Ok a, sent).
Definition mbind {A B} (m : MM A) (k : A -> MM B) : MM B :=
  fun sent =>
    match m sent with
    | (Ok a, sent') => k a sent'
    | (Err e, sent') => (Err e, sent')
    end.

(** A call of the client proper, and a pure step that may raise. *)
Definition call {A} (m : M A) : MM A :=
  fun sent =>
    match m sent with
    | (Returned a, sent') => (Ok a, sent')
    | (Raised e, sent') => (Err (Exn e), sent')
    end.

Definition pure {A} (o : outcome A) : MM A :=
  fun sent =>
    match o with
    | Returned a => (Ok a, sent)
    | Raised e => (Err (Exn e), sent)
    end.

Declare Scope misc_scope.
Delimit Scope misc_scope with misc.
Notation "x <- m ;; k" := (mbind m (fun x => k))
  (at level 100, m at next level, right associativity) : misc_scope.
Notation "m ;;; k" := (mbind m (fun _ => k))
  (at level 100, right associativity) : misc_scope.

(** [quote(v, '')] on a value that need not be a string: [None] is
    refused with [TypeError], any other false value is returned as it is
    (the fast path [if not s: return s]), and a true value that is not a
    string has no [rstrip]. *)
Definition quote_value (v : pyval) : outcome pyval :=
  match v with
  | PyStr s => Returned (PyStr (Urllib.quote s ""))
  | PyNone => Raised TypeError
  | _ => if Web.truthy v then Raised AttributeError else Returned v
  end.

(** [for x in v]: the elements of a list or of a tuple, the keys of a
    dict, the characters of a string. *)
Definition py_iter (v : pyval) : outcome (list pyval) :=
  match v with
  | PyList l => Returned l
  | PyTuple l => Returned l
  | PyDict d => Returned ((fun kv => PyStr kv.1) <$> d)
  | PyStr s =>
      Returned ((fun c => PyStr (String c EmptyString)) <$> String.list_ascii_of_string s)
  | _ => Raised TypeError
  end.

(** [v[0]] *)
Definition py_first (v : pyval) : result pyval :=
  match v with
  | PyList [] => Err IndexError
  | PyList (x :: _) => Ok x
  | PyTuple [] => Err IndexError
  | PyTuple (x :: _) => Ok x
  | PyStr EmptyString => Err IndexError
  | PyStr (String c _) => Ok (PyStr (String c EmptyString))
  | PyDict _ => Err (Exn (KeyError "0"))
  | _ => Err (Exn TypeError)
  end.

(** [v < 1] as Python 2 orders values: [None] is below every number, a
    boolean counts as 0 or 1, and every other value is above the
    numbers. *)
Definition py_lt_one (v : pyval) : bool :=
  match v with
  | PyNone => true
  | PyBool b => negb b
  | PyInt z => (z <? 1)%Z
  | _ => false
  end.

Section Misc.

Variable session_send : list PreparedRequest -> PreparedRequest -> Response.
Variable json_dumps : pyval -> string.
Variable py_str : pyval -> string.
Variable self : PulseManagementAPI.

(** ['{}'.format(v)] *)
Definition format_value (v : pyval) : string :=
  match v with
  | PyStr s => s
  | _ => py_str v
  end.

(** [queue], [delete_queue] and [channel] as the methods below call them,
    with values taken out of an answer. *)
Definition queue_of (vhost queue : pyval) : MM pyval :=
  (vhost <- pure (quote_value vhost) ;;
   queue <- pure (quote_value queue) ;;
   call (_api_request session_send json_dumps py_str self
           ("queues/" +:+ format_value vhost +:+ "/" +:+ format_value queue)
           "GET" PyNone))%misc.

Definition delete_queue_of (vhost queue : pyval) : MM unit :=
  (vhost <- pure (quote_value vhost) ;;
   queue <- pure (quote_value queue) ;;
   _ <- call (_api_request session_send json_dumps py_str self
                ("queues/" +:+ format_value vhost +:+ "/" +:+ format_value queue)
                "DELETE" PyNone) ;;
   mret tt)%misc.

Definition channel_of (channel : pyval) : MM pyval :=
  (channel <- pure (quote_value channel) ;;
   call (_api_request session_send json_dumps py_str self
           ("channels/" +:+ format_value channel) "GET" PyNone))%misc.

(** The body of the loop of [delete_all_queues], over the records still to
    visit. *)
Fixpoint delete_each (records : list pyval) : MM unit :=
  match records with
  | [] => mret tt
  | queue_data :: rest =>
      (vhost <- pure (Web.py_getitem queue_data "vhost") ;;
       name <- pure (Web.py_getitem queue_data "name") ;;
       delete_queue_of vhost name ;;;
       delete_each rest)%misc
  end.

Definition delete_all_queues : MM unit :=
  (listing <- call (queues session_send json_dumps py_str self None) ;;
   records <- pure (py_iter listing) ;;
   delete_each records)%misc.

Definition queue_owner (queue_data : pyval) : MM pyval :=
  (vhost <- pure (Web.py_getitem queue_data "vhost") ;;
   name <- pure (Web.py_getitem queue_data "name") ;;
   queue <- queue_of vhost name ;;
   consumers <- pure (Web.py_getitem queue "consumers") ;;
   if py_lt_one consumers then mret PyNone
   else
     details <- pure (Web.py_getitem queue "consumer_details") ;;
     consumer <- (fun sent => (py_first details, sent)) ;;
     channel_details <- pure (Web.py_getitem consumer "channel_details") ;;
     channel_name <- pure (Web.py_getitem channel_details "name") ;;
     channel <- channel_of channel_name ;;
     pure (Web.py_getitem channel "user"))%misc.

(** The request that deletes the queue of a record. *)
Definition delete_request (vhost queue : string) : PreparedRequest :=
  prepare json_dumps self
    ("queues/" +:+ Urllib.quote vhost "" +:+ "/" +:+ Urllib.quote queue "")
    "DELETE" PyNone.

Definition listing_request : PreparedRequest :=
  prepare json_dumps self "queues" "GET" PyNone.

End Misc.

(** A queue record as the listing gives it: an object with a string
    [vhost] and a string [name]. *)
Definition queue_record (vhost name : string) (more : list (string * pyval))
    : pyval :=
  PyDict (("vhost", PyStr vhost) :: ("name", PyStr name) :: more).

(** A response whose body the client accepts: empty, or JSON. *)
Definition accepted (r : Response) : Prop :=
  content r = "" \/ is_Some (Management.json r).

(** A call that sends one request, with the given method and body, the
    credentials of the instance, the JSON content type and a URL of the
    management API. *)
Definition sends_one {A} (self : PulseManagementAPI) (m : M A)
    (method body : string) : Prop :=
  forall sent, exists r path,
    (m sent).2 = (sent ++ [r])%list
    /\ req_method r = method
    /\ req_body r = body
    /\ req_auth r = (management_user self, management_password self)
    /\ req_headers r = [("Content-type", "application/json")]
    /\ req_url r = api_url self path.

End ManagementMisc.

(** ** Vocabulary for the registration *)

(** The form of [register_handler] carries its four fields. *)
Definition register_form (form : gmap string string)
    (username password password_verification owners_list : string) : Prop :=
  form !! "username" = Some username
  /\ form !! "password" = Some password
  /\ form !! "password-verification" = Some password_verification
  /\ form !! "owners-list" = Some owners_list.

(** The errors [register_handler] has collected when it turns to the
    broker: password, shape of the username, reserved names. *)
Definition validation_errors (config : Web.Config)
    (username password password_verification : string) : list string :=
  let errors : list string := [] in
  let errors :=
    if negb (String.eqb password password_verification)
    then errors ++ ["Password verification doesn't match the password."]
    else if negb (Web.strong_password password)
    then errors ++ ["Your password must contain a mix of letters and "
                      +:+ "numerical characters and be at least 6 characters long."]
    else errors in
  let errors :=
    if negb (Web.username_match username)
    then errors ++ ["The submitted username must start with an "
                      +:+ "alphabetical character and contain only alphanumeric "
                      +:+ "characters, periods, underscores, and hyphens."]
    else errors in
  match Web.reserved_users_regex config with
  | Some reserved =>
      if reserved username
      then errors ++ ["The submitted username is reserved. "
                        +:+ Web.reserved_users_message config]
      else errors
  | None => errors
  end.

Definition username_taken_message : string :=
  "A user with the same username already exists.".

(** The line feed, which the [$] of the username pattern lets through at
    the end. *)
Definition newline : string := String (ascii_of_nat 10) EmptyString.

(** * Concrete requests, for the runs below *)

Module Examples.

Import Web.

Definition alice : User := {| email := "alice@example.com"; admin := false |}.
Definition mallory : User := {| email := "mallory@example.com"; admin := false |}.
Definition root : User := {| email := "root@example.com"; admin := true |}.

(** Three users; the pulse user [pulse1], owned by alice; the queue [q1]
    of [pulse1] and the queue [orphan] without owner. *)
Definition store0 : store :=
  {| tbl_users :=
       {[ "alice@example.com" := false; "mallory@example.com" := false;
          "root@example.com" := true ]};
     tbl_pulse_users := {[ "pulse1" := ("hash0", {[ "alice@example.com" ]}) ]};
     tbl_queues := {[ "q1" := Some "pulse1"; "orphan" := None ]} |}.

Definition pulse1 : PulseUser :=
  {| username := "pulse1"; password_hash := "hash0";
     owners := {[ "alice@example.com" ]} |}.

(** The world of a request by a logged-in user, after [load_user]. *)
Definition world_of (u : User) : world :=
  {| db := store0; committed := store0;
     session := {[ "email" := PyStr (email u); "logged_in" := PyBool true ]};
     g_user := Some u; flashes := []; logs := []; broker := [] |}.

(** The world of a request without login. *)
Definition anonymous : world :=
  {| db := store0; committed := store0; session := ∅;
     g_user := None; flashes := []; logs := []; broker := [] |}.

Definition config0 : Config :=
  {| auth0_domain := "example.auth0.com"; auth0_client_id := "client";
     auth0_client_secret := "secret";
     auth0_callback_url := "https://pulseguardian.example/auth/callback";
     fake_account := None; reserved_users_regex := None;
     reserved_users_message := "" |}.

(** A broker that accepts every call. *)
Definition broker_up (_ : list broker_call) (_ : broker_call) : outcome pyval :=
  Returned PyNone.

(** A broker client that fails on every call. *)
Definition broker_down (_ : list broker_call) (_ : broker_call) : outcome pyval :=
  Raised (PulseManagementException "connection refused").

(** A broker out of reach: the client's request does not get through, and
    [requests] raises its own error. *)
Definition broker_unreachable (_ : list broker_call) (_ : broker_call)
    : outcome pyval :=
  Raised ConnectionError.

(** A broker that knows no user. *)
Definition broker_no_user (_ : list broker_call) (c : broker_call)
    : outcome pyval :=
  match c with
  | call_user _ => Returned (PyDict [("error", PyStr "Object Not Found")])
  | _ => Returned PyNone
  end.

Definition hash0 (password : string) : string := "hash of " +:+ password.

Definition update_form0 (owners_list : string) : gmap string string :=
  {[ "pulse-user" := "pulse1"; "new-password" := "";
     "new-password-verification" := ""; "owners-list" := owners_list ]}.

(** The store without the queue [q1], and without the pulse user
    [pulse1]. *)
Definition world_without_q1 (u : User) : world :=
  {| db := store_delete_queue "q1" store0;
     committed := store_delete_queue "q1" store0;
     session := session (world_of u); g_user := Some u;
     flashes := []; logs := []; broker := [] |}.

Definition world_without_pulse1 (u : User) : world :=
  {| db := store_delete_pulse_user "pulse1" store0;
     committed := store_delete_pulse_user "pulse1" store0;
     session := session (world_of u); g_user := Some u;
     flashes := []; logs := []; broker := [] |}.

(** A broker whose user lookup fails in the client, and that accepts
    every other call. *)
Definition broker_lookup_fails (_ : list broker_call) (c : broker_call)
    : outcome pyval :=
  match c with
  | call_user _ => Raised (PulseManagementException "connection refused")
  | _ => Returned PyNone
  end.

Definition register_form0 : gmap string string :=
  {[ "username" := "newuser"; "password" := "secret123";
     "password-verification" := "secret123";
     "owners-list" := "alice@example.com" ]}.

(** The identity provider turns the code down: the token endpoint
    answers with an error object and no token. *)
Definition token_denied (_ _ : string) : outcome http_response :=
  Returned {| ok := false; text := "invalid_grant";
              json := Some (PyDict [("error", PyStr "invalid_grant")]) |}.

Definition profile_never (_ : string) : outcome http_response :=
  Returned {| ok := false; text := ""; json := None |}.

Definition dumps0 (_ : pyval) : string := "".
Definition str0 (v : pyval) : string :=
  match v with PyStr s => s | _ => "" end.

(** A broker behind the client that answers nothing, and one that answers
    with a page that is not JSON. *)
Definition silent_broker
    (_ : list Management.PreparedRequest) (_ : Management.PreparedRequest)
    : Management.Response :=
  {| Management.content := ""; Management.json := None |}.

Definition error_page_broker
    (_ : list Management.PreparedRequest) (_ : Management.PreparedRequest)
    : Management.Response :=
  {| Management.content := "<html>401 Unauthorized</html>";
     Management.json := None |}.

(** *** Brokers behind the client, for the runs on its other methods *)

(** A broker that answers every request with an error object. *)
Definition refusing_broker
    (_ : list Management.PreparedRequest) (_ : Management.PreparedRequest)
    : Management.Response :=
  {| Management.content := "{error}";
     Management.json := Some (PyDict [("error", PyStr "Object Not Found")]) |}.

Definition two_queues : list (string * string * list (string * pyval)) :=
  [("/", "q/1", []); ("/", "q2", [("consumers", PyInt 0)])].

(** A broker with two queues, whose deletions answer with an empty body. *)
Definition listing_broker
    (_ : list Management.PreparedRequest) (r : Management.PreparedRequest)
    : Management.Response :=
  if String.eqb (Management.req_method r) "GET"
  then {| Management.content := "[...]";
          Management.json :=
            Some (PyList ((fun r : string * string * list (string * pyval) =>
                             ManagementMisc.queue_record r.1.1 r.1.2 r.2)
                            <$> two_queues)) |}
  else {| Management.content := ""; Management.json := None |}.

Definition consumer_on (channel : string) : pyval :=
  PyDict [("channel_details", PyDict [("name", PyStr channel)])].

(** The answer on a queue with the given count of consumers, the first on
    the channel [chan/1], and the answer on a channel, of user [alice]. *)
Definition queue_answer (consumers : Z) : pyval :=
  PyDict [("name", PyStr "q/1"); ("consumers", PyInt consumers);
          ("consumer_details",
           PyList [consumer_on "chan/1"; consumer_on "chan2"])].

Definition channel_answer : pyval :=
  PyDict [("name", PyStr "chan/1"); ("user", PyStr "alice")].

Definition owner_broker (consumers : Z)
    (_ : list Management.PreparedRequest) (r : Management.PreparedRequest)
    : Management.Response :=
  if prefixb "http://localhost:15672/api/queues/" (Management.req_url r)
  then {| Management.content := "{queue}";
          Management.json := Some (queue_answer consumers) |}
  else {| Management.content := "{channel}";
          Management.json := Some channel_answer |}.

(** *** Requests and an identity provider, for the runs on the handlers *)

Definition config_fake : Config :=
  {| auth0_domain := "example.auth0.com"; auth0_client_id := "client";
     auth0_client_secret := "secret";
     auth0_callback_url := "https://pulseguardian.example/auth/callback";
     fake_account := Some "alice@example.com"; reserved_users_regex := None;
     reserved_users_message := "" |}.

Definition password_form (password verification : string) : gmap string string :=
  {[ "pulse-user" := "pulse1"; "new-password" := password;
     "new-password-verification" := verification;
     "owners-list" := "root@example.com" ]}.

Definition register_form_for (username owners_list : string)
    : gmap string string :=
  {[ "username" := username; "password" := "secret123";
     "password-verification" := "secret123"; "owners-list" := owners_list ]}.

(** An identity provider that accepts the code and knows alice, and one
    whose profile fetch fails. *)
Definition token_granted (_ _ : string) : outcome http_response :=
  Returned {| ok := true; text := "{token}";
              json := Some (PyDict [("access_token", PyStr "t0k3n")]) |}.

Definition profile_of_alice (_ : string) : outcome http_response :=
  Returned {| ok := true; text := "{profile}";
              json := Some (PyDict [("email", PyStr "alice@example.com")]) |}.

Definition profile_unavailable (_ : string) : outcome http_response :=
  Returned {| ok := false; text := "Service Unavailable"; json := None |}.

End Examples.

(** * Properties *)

Import Web.

(** ** Strings and percent-encoding *)

Lemma has_char_app sep a b :
  has_char sep (a +:+ b) = has_char sep a || has_char sep b.
Proof.
  unfold has_char. induction a as [|c a IH]; simpl; [done|].
  rewrite IH. by rewrite orb_assoc.
Qed.

Lemma split_on_whole sep a :
  has_char sep a = false -> split_on sep a = [a].
Proof.
  unfold has_char. induction a as [|c a IH]; simpl; [done|].
  intros [Hc Ha]%orb_false_elim. rewrite Hc, (IH Ha). done.
Qed.

Lemma split_on_sep sep a b :
  has_char sep a = false ->
  split_on sep (a +:+ String sep b) = a :: split_on sep b.
Proof.
  unfold has_char. induction a as [|c a IH]; simpl.
  - intros _. by rewrite Ascii.eqb_refl.
  - intros [Hc Ha]%orb_false_elim. rewrite Hc, (IH Ha). done.
Qed.

Lemma split_on_sep1 sep a b :
  has_char sep a = false ->
  split_on sep (a +:+ String sep EmptyString +:+ b) = a :: split_on sep b.
Proof. exact (split_on_sep sep a b). Qed.

Lemma quoter_no_slash c : has_char "/" (Urllib.quoter "" c) = false.
Proof. destruct c as [[] [] [] [] [] [] [] []]; reflexivity. Qed.

Lemma quote_no_slash s : has_char "/" (Urllib.quote s "") = false.
Proof.
  induction s as [|c s IH]; simpl; [done|].
  by rewrite has_char_app, quoter_no_slash, IH.
Qed.

Lemma unquote_quoter c rest :
  Urllib.unquote (Urllib.quoter "" c +:+ rest) = String c (Urllib.unquote rest).
Proof. destruct c as [[] [] [] [] [] [] [] []]; reflexivity. Qed.

Lemma unquote_quote s : Urllib.unquote (Urllib.quote s "") = s.
Proof.
  induction s as [|c s IH]; simpl; [done|].
  by rewrite unquote_quoter, IH.
Qed.

Lemma append_cons x a b : String x a +:+ b = String x (a +:+ b).
Proof. reflexivity. Qed.

Lemma append_assoc a b c : (a +:+ b) +:+ c = a +:+ b +:+ c.
Proof. induction a as [|x a IH]; [done|]. by rewrite !append_cons, IH. Qed.

Lemma is_infix_app_l x a b : is_infix x b -> is_infix x (a +:+ b).
Proof.
  intros (pre & post & ->). exists (a +:+ pre), post.
  by rewrite append_assoc.
Qed.

Lemma append_nil_r a : a +:+ "" = a.
Proof. induction a as [|x a IH]; [done|]. by rewrite append_cons, IH. Qed.

Lemma is_infix_refl x : is_infix x x.
Proof. exists "", "". by rewrite append_nil_r. Qed.

Lemma is_infix_head x b : is_infix x (x +:+ b).
Proof. by exists "", b. Qed.

(** ** The broker management client *)

Section ClientProperties.

Import Management.

Variable session_send : list PreparedRequest -> PreparedRequest -> Response.
Variable json_dumps : pyval -> string.
Variable py_str : pyval -> string.
Variable self : PulseManagementAPI.

Lemma api_request_sends path method data :
  sends_path self (_api_request session_send json_dumps py_str self path method data)
    path.
Proof.
  intros sent. exists (prepare json_dumps self path method data).
  unfold _api_request. case_decide; [done|]. by destruct (json _).
Qed.

Lemma bind_ret_sends {A} (m : M A) path :
  sends_path self m path -> sends_path self (bind m (fun _ => ret tt)) path.
Proof.
  intros Hm sent. destruct (Hm sent) as (r & Hr & Hu). exists r.
  unfold bind, ret. destruct (m sent) as [[a|e] sent']; simpl in *; done.
Qed.

Lemma segments2 (fixed a : string) :
  has_char "/" fixed = false ->
  split_on "/" (fixed +:+ "/" +:+ Urllib.quote a "")
  = [fixed; Urllib.quote a ""].
Proof.
  intros Hf. rewrite (split_on_sep1 "/" fixed _ Hf).
  by rewrite split_on_whole by apply quote_no_slash.
Qed.

Lemma segments3 (fixed a b : string) :
  has_char "/" fixed = false ->
  split_on "/" (fixed +:+ "/" +:+ Urllib.quote a "" +:+ "/" +:+ Urllib.quote b "")
  = [fixed; Urllib.quote a ""; Urllib.quote b ""].
Proof.
  intros Hf. rewrite (split_on_sep1 "/" fixed _ Hf).
  rewrite (split_on_sep1 "/" _ _ (quote_no_slash a)).
  by rewrite split_on_whole by apply quote_no_slash.
Qed.

(** C6: every vhost, queue name, username and channel name given to the
    client reaches the request path percent-encoded as one segment: the
    path of the request sent, cut at its slashes, has the fixed number of
    segments whatever the identifiers contain, each identifier's segment
    is its encoding, and the encoding decodes back to the identifier. *)
Theorem identifiers_are_single_path_segments
    (vhost queue username channel password tags : string) :
  (vhost <> "" ->
   exists path,
     sends_path self (queues session_send json_dumps py_str self (Some vhost)) path
     /\ split_on "/" path = ["queues"; Urllib.quote vhost ""])
  /\ (exists path,
        sends_path self (Management.queue session_send json_dumps py_str self vhost queue) path
        /\ split_on "/" path
           = ["queues"; Urllib.quote vhost ""; Urllib.quote queue ""])
  /\ (exists path,
        sends_path self (delete_queue session_send json_dumps py_str self vhost queue) path
        /\ split_on "/" path
           = ["queues"; Urllib.quote vhost ""; Urllib.quote queue ""])
  /\ (exists path,
        sends_path self (user session_send json_dumps py_str self username) path
        /\ split_on "/" path = ["users"; Urllib.quote username ""])
  /\ (exists path,
        sends_path self
          (create_user session_send json_dumps py_str self username password tags)
          path
        /\ split_on "/" path = ["users"; Urllib.quote username ""])
  /\ (exists path,
        sends_path self (delete_user session_send json_dumps py_str self username) path
        /\ split_on "/" path = ["users"; Urllib.quote username ""])
  /\ (exists path,
        sends_path self (Management.channel session_send json_dumps py_str self channel)
          path
        /\ split_on "/" path = ["channels"; Urllib.quote channel ""])
  /\ (forall id : string,
        has_char "/" (Urllib.quote id "") = false
        /\ Urllib.unquote (Urllib.quote id "") = id).
Proof.
  repeat split.
  - intros Hv. eexists. split.
    + unfold queues. case_decide; [done|]. apply api_request_sends.
    + by apply (segments2 "queues").
  - eexists. split; [apply api_request_sends|]. by apply (segments3 "queues").
  - eexists. split; [apply bind_ret_sends, api_request_sends|].
    by apply (segments3 "queues").
  - eexists. split; [apply api_request_sends|]. by apply (segments2 "users").
  - eexists. split; [apply bind_ret_sends, api_request_sends|].
    by apply (segments2 "users").
  - eexists. split; [apply bind_ret_sends, api_request_sends|].
    by apply (segments2 "users").
  - eexists. split; [apply api_request_sends|]. by apply (segments2 "channels").
  - apply quote_no_slash.
  - apply unquote_quote.
Qed.

(** C7: an empty response body makes [_api_request] return [None]; a body
    that is not empty and does not parse makes it raise
    [PulseManagementException], with a message that holds the method, the
    path, the payload and the body received; and whatever the calling
    method goes on to do with the result, the exception is what it
    raises. *)
Theorem api_request_empty_or_unparsable
    (path method : string) (data : pyval) (sent : list PreparedRequest) :
  let response := session_send sent (prepare json_dumps self path method data) in
  let request := _api_request session_send json_dumps py_str self path method data in
  (content response = "" -> (request sent).1 = Returned PyNone)
  /\ (content response <> "" -> Management.json response = None ->
      exists msg,
        (request sent).1 = Raised (PulseManagementException msg)
        /\ (forall (B : Type) (k : pyval -> M B),
              (bind request k sent).1 = Raised (PulseManagementException msg))
        /\ is_infix method msg /\ is_infix path msg
        /\ is_infix (py_str data) msg /\ is_infix (content response) msg).
Proof.
  simpl. unfold bind, _api_request. split.
  - intros He. by rewrite decide_True.
  - intros Hne Hjson. rewrite decide_False by done. rewrite Hjson.
    eexists. split; [reflexivity|]. split; [done|].
    unfold api_error_message. split_and!.
    + apply is_infix_app_l, is_infix_head.
    + do 3 apply is_infix_app_l. apply is_infix_head.
    + do 5 apply is_infix_app_l. apply is_infix_head.
    + do 7 apply is_infix_app_l. apply is_infix_refl.
Qed.

End ClientProperties.

(** ** The web handlers *)

(** Case analysis on every test a handler's run goes through. *)
Ltac run_cases :=
  repeat match goal with
  | |- context [if ?b then _ else _] => destruct b
  | |- context [match ?x with Some _ => _ | None => _ end] => destruct x
  | |- context [match ?x with Returned _ => _ | Raised _ => _ end] => destruct x
  | |- context [match ?x with PulseManagementException _ => _ | _ => _ end] =>
      destruct x
  end.

Section WebProperties.

Import Web.

Variable config : Config.
Variable pulse_management : list broker_call -> broker_call -> outcome pyval.
Variable hash_password : string -> string.

Lemma may_delete_queue_spec db u q :
  may_delete_queue db u q = true <-> can_mutate_queue db u q.
Proof.
  unfold may_delete_queue, can_mutate_queue.
  rewrite orb_true_iff. destruct (queue_owner db q) as [pu|].
  - rewrite bool_decide_eq_true. split.
    + intros [Ha|Ho]; [by left|]. right. by exists pu.
    + intros [Ha|(pu' & [= <-] & Ho)]; [by left|by right].
  - split.
    + intros [Ha|Hf]; [by left|done].
    + intros [Ha|(pu' & Hf & _)]; [by left|done].
Qed.

Lemma may_delete_pulse_user_spec u pu :
  may_delete_pulse_user u pu = true <-> can_mutate_pulse_user u pu.
Proof.
  unfold may_delete_pulse_user, can_mutate_pulse_user.
  by rewrite orb_true_iff, bool_decide_eq_true.
Qed.

Lemma get_queue_name db n q : get_queue db n = Some q -> name q = n.
Proof.
  unfold get_queue. destruct (tbl_queues db !! n); simpl; [|done].
  by intros [= <-].
Qed.

Lemma get_pulse_user_username db n pu :
  get_pulse_user db n = Some pu -> username pu = n.
Proof.
  unfold get_pulse_user. destruct (tbl_pulse_users db !! n); simpl; [|done].
  by intros [= <-].
Qed.

(** The runs of [delete_queue], case by case. *)
Lemma delete_queue_run n w :
  delete_queue pulse_management n w =
  if is_none (session_get w "email") then (Returned (redirect "/"), w)
  else match get_queue (db w) n with
       | None => (Returned ok_false, w)
       | Some q =>
           match g_user w with
           | None => (Raised AttributeError, w)
           | Some u =>
               if may_delete_queue (db w) u q then
                 let w1 :=
                   {| db := db w; committed := committed w;
                      session := session w; g_user := g_user w;
                      flashes := flashes w; logs := logs w;
                      broker := broker w ++ [call_delete_queue "/" n] |} in
                 match pulse_management (broker w) (call_delete_queue "/" n) with
                 | Returned _ =>
                     (Returned ok_true,
                      {| db := store_delete_queue n (db w);
                         committed := store_delete_queue n (db w);
                         session := session w; g_user := g_user w;
                         flashes := flashes w; logs := logs w;
                         broker := broker w ++ [call_delete_queue "/" n] |})
                 | Raised (PulseManagementException msg) =>
                     (Returned ok_false,
                      {| db := db w; committed := committed w;
                         session := session w; g_user := g_user w;
                         flashes := flashes w;
                         logs := logs w ++
                           [(WARNING, "Couldn't delete the queue '" +:+ n
                                        +:+ "' on rabbitmq: " +:+ msg)];
                         broker := broker w ++ [call_delete_queue "/" n] |})
                 | Raised e => (Raised e, w1)
                 end
               else (Returned ok_false, w)
           end
       end.
Proof.
  unfold delete_queue, requires_login.
  destruct (is_none _); [done|].
  unfold bind at 1. unfold get_world at 1.
  destruct (get_queue (db w) n) as [q|] eqn:Hq; [|done].
  apply get_queue_name in Hq. rewrite Hq.
  unfold bind at 1. unfold the_g_user at 1.
  destruct (g_user w) as [u|] eqn:Hu; [|done].
  destruct (may_delete_queue _ _ _); [|done].
  unfold bind, try_except, broker_do, ret, logging, with_db, db_commit. simpl.
  destruct (pulse_management _ _) as [v|[]]; simpl; by rewrite ?Hu.
Qed.

(** The runs of [delete_pulse_user], case by case. *)
Lemma delete_pulse_user_run n w :
  let request_log :=
    (INFO, "Request to delete Pulse user " +:+ dquote +:+ n +:+ dquote +:+ ".") in
  let w0 :=
    {| db := db w; committed := committed w; session := session w;
       g_user := g_user w; flashes := flashes w;
       logs := logs w ++ [request_log]; broker := broker w |} in
  delete_pulse_user pulse_management n w =
  if is_none (session_get w "email") then (Returned (redirect "/"), w)
  else match get_pulse_user (db w) n with
       | None => (Returned ok_false, w0)
       | Some pu =>
           match g_user w with
           | None => (Raised AttributeError, w0)
           | Some u =>
               if may_delete_pulse_user u pu then
                 match pulse_management (broker w) (call_delete_user n) with
                 | Returned _ =>
                     (Returned ok_true,
                      {| db := store_delete_pulse_user n (db w);
                         committed := store_delete_pulse_user n (db w);
                         session := session w; g_user := g_user w;
                         flashes := flashes w;
                         logs := (logs w ++ [request_log]) ++
                           [(INFO, "Pulse user " +:+ dquote +:+ n +:+ dquote
                                     +:+ " deleted.")];
                         broker := broker w ++ [call_delete_user n] |})
                 | Raised (PulseManagementException msg) =>
                     (Returned ok_false,
                      {| db := db w; committed := committed w;
                         session := session w; g_user := g_user w;
                         flashes := flashes w;
                         logs := (logs w ++ [request_log]) ++
                           [(WARNING, "Couldn't delete user '" +:+ n
                                        +:+ "' on rabbitmq: " +:+ msg)];
                         broker := broker w ++ [call_delete_user n] |})
                 | Raised e =>
                     (Raised e,
                      {| db := db w; committed := committed w;
                         session := session w; g_user := g_user w;
                         flashes := flashes w;
                         logs := logs w ++ [request_log];
                         broker := broker w ++ [call_delete_user n] |})
                 end
               else (Returned ok_false, w0)
           end
       end.
Proof.
  unfold delete_pulse_user, requires_login. simpl.
  destruct (is_none _); [done|].
  unfold bind at 1. unfold logging at 1.
  unfold bind at 1. unfold get_world at 1. simpl.
  destruct (get_pulse_user (db w) n) as [pu|] eqn:Hpu; [|done].
  apply get_pulse_user_username in Hpu. rewrite Hpu.
  unfold bind at 1. unfold the_g_user at 1. simpl.
  destruct (g_user w) as [u|] eqn:Hu; [|done].
  destruct (may_delete_pulse_user _ _); [|done].
  unfold bind, try_except, broker_do, ret, logging, with_db, db_commit. simpl.
  destruct (pulse_management _ _) as [v|[]]; simpl; by rewrite ?Hu.
Qed.

Lemma snoc_neq {A} (l : list A) (x : A) : l <> l ++ [x].
Proof.
  intros Heq. apply (f_equal length) in Heq.
  rewrite length_app in Heq. simpl in Heq. lia.
Qed.

(** C1: when the broker-side delete call raises, neither deletion touches
    the local store: the rows seen by the session and the rows committed
    stay as they were.  When the handler made the call (it is the last
    entry of the broker trace) and the call raised the client's error,
    [PulseManagementException], the one exception [management.py] raises,
    the answer is [ok=false]; when it raised an exception of another
    class, the handler does not catch it and the request ends with that
    exception.  Conversely, a deletion request that changed the store made
    the broker call, and the call returned. *)
Theorem broker_failure_keeps_local_store (n : string) (w : world) :
  (forall e,
     pulse_management (broker w) (call_delete_queue "/" n) = Raised e ->
     let (r, w') := delete_queue pulse_management n w in
     db w' = db w /\ committed w' = committed w
     /\ (broker w' = broker w ++ [call_delete_queue "/" n] ->
         (forall msg, e = PulseManagementException msg -> r = Returned ok_false)
         /\ ((forall msg, e <> PulseManagementException msg) -> r = Raised e)))
  /\ (forall e,
        pulse_management (broker w) (call_delete_user n) = Raised e ->
        let (r, w') := delete_pulse_user pulse_management n w in
        db w' = db w /\ committed w' = committed w
        /\ (broker w' = broker w ++ [call_delete_user n] ->
            (forall msg, e = PulseManagementException msg -> r = Returned ok_false)
            /\ ((forall msg, e <> PulseManagementException msg) -> r = Raised e)))
  /\ (let (r, w') := delete_queue pulse_management n w in
      db w' <> db w \/ committed w' <> committed w ->
      broker w' = broker w ++ [call_delete_queue "/" n]
      /\ exists v, pulse_management (broker w) (call_delete_queue "/" n)
                   = Returned v)
  /\ (let (r, w') := delete_pulse_user pulse_management n w in
      db w' <> db w \/ committed w' <> committed w ->
      broker w' = broker w ++ [call_delete_user n]
      /\ exists v, pulse_management (broker w) (call_delete_user n) = Returned v).
Proof.
  split_and!.
  - intros e He. rewrite delete_queue_run, He. run_cases; simpl;
      (split; [done|split; [done|]]); intros Hb;
      try (by destruct (snoc_neq _ _ Hb));
      (split; [by intros msg' Heq|intros Hother; try done]);
      by destruct (Hother msg).
  - intros e He. rewrite delete_pulse_user_run, He. simpl. run_cases; simpl;
      (split; [done|split; [done|]]); intros Hb;
      try (by destruct (snoc_neq _ _ Hb));
      (split; [by intros msg' Heq|intros Hother; try done]);
      by destruct (Hother msg).
  - rewrite delete_queue_run. run_cases; simpl; intros [?|?]; try done; eauto.
  - rewrite delete_pulse_user_run. simpl.
    run_cases; simpl; intros [?|?]; try done; eauto.
Qed.

Lemma get_queue_deleted n db : get_queue (store_delete_queue n db) n = None.
Proof. unfold get_queue, store_delete_queue. simpl. by rewrite lookup_delete_eq. Qed.

(** C4: for a logged-in user and a queue on record, the handler goes on
    to the deletion (it calls the broker, and deletes and commits the
    record when the broker call returns) exactly when the user is an
    admin or belongs to the owners of the queue's owner; otherwise it
    answers [ok=false] and changes nothing.  A queue without owner is
    denied to every user who is not an admin, and an admin is never
    denied. *)
Theorem queue_deletion_admin_or_owner
    (n : string) (w : world) (u : User) (q : Queue) :
  logged_in w -> g_user w = Some u -> get_queue (db w) n = Some q ->
  let (r, w') := delete_queue pulse_management n w in
  (broker w' = broker w ++ [call_delete_queue "/" n]
     <-> can_mutate_queue (db w) u q)
  /\ (can_mutate_queue (db w) u q ->
      forall v,
        pulse_management (broker w) (call_delete_queue "/" n) = Returned v ->
        r = Returned ok_true /\ get_queue (db w') n = None
        /\ committed w' = db w')
  /\ (~ can_mutate_queue (db w) u q -> r = Returned ok_false /\ w' = w)
  /\ (owner q = None -> admin u = false -> r = Returned ok_false /\ w' = w)
  /\ (admin u = true -> broker w' = broker w ++ [call_delete_queue "/" n]).
Proof.
  intros Hlog Hu Hq. rewrite delete_queue_run.
  unfold logged_in in Hlog. rewrite Hlog, Hq, Hu.
  assert (Hden : owner q = None -> admin u = false ->
                 ~ can_mutate_queue (db w) u q).
  { intros Ho Ha [Hadm|(pu & Hpu & _)]; [congruence|].
    unfold queue_owner in Hpu. by rewrite Ho in Hpu. }
  destruct (may_delete_queue (db w) u q) eqn:Hmay.
  - assert (Hcan : can_mutate_queue (db w) u q)
      by by apply may_delete_queue_spec.
    destruct (pulse_management _ _) as [v|e] eqn:Hpm.
    + simpl. split_and!.
      * done.
      * intros _ v' _. split_and!; [done|apply get_queue_deleted|done].
      * intros Hn. by destruct Hn.
      * intros Ho Ha. by destruct (Hden Ho Ha).
      * done.
    + destruct e; simpl; split_and!; try done;
        try (intros Hn; by destruct Hn);
        try (intros Ho Ha; by destruct (Hden Ho Ha)).
  - assert (Hcan : ~ can_mutate_queue (db w) u q).
    { intros Hc. apply may_delete_queue_spec in Hc. congruence. }
    simpl. split_and!; try done.
    + split; [|done]. intros Hb. by destruct (snoc_neq _ _ Hb).
    + intros Ha. destruct Hcan. by left.
Qed.

Lemma bindings_listing_run (n : string) (w : world) :
  (bindings_listing pulse_management n w).1
  = match get_queue (db w) n with
    | Some _ =>
        match pulse_management (broker w) (call_queue_bindings "/" n) with
        | Returned bindings =>
            Returned (jsonify [("queue_name", PyStr n); ("bindings", bindings)])
        | Raised e => Raised e
        end
    | None =>
        Returned (jsonify [("queue_name", PyStr n); ("bindings", PyList [])])
    end.
Proof.
  unfold bindings_listing, bind, get_world, ret, broker_do, get_queue. simpl.
  destruct (tbl_queues (db w) !! n) as [o|]; simpl; [|done].
  by destruct (pulse_management _ _).
Qed.

(** The request hook [load_user] leaves the queue records and the broker
    alone, whatever the session holds. *)
Lemma load_user_keeps_queues (w : world) :
  let w' := (load_user config w).2 in
  tbl_queues (db w') = tbl_queues (db w) /\ broker w' = broker w.
Proof.
  unfold load_user, load_fake_account, query_user, new_user.
  unfold bind, get_world, session_set, set_g_user, with_db, db_commit, ret,
    raise.
  destruct (fake_account config) as [[|c fake]|]; simpl;
    repeat match goal with
    | |- context [if ?b then _ else _] => destruct b; simpl
    | |- context [match ?x with Some _ => _ | None => _ end] =>
        destruct x; simpl
    | |- context [match ?x with PyStr _ => _ | _ => _ end] => destruct x; simpl
    end; done.
Qed.

(** C10: the bindings listing reads neither the session nor the acting
    user: two requests for the same queue name get the same answer as
    soon as the queue records and the broker are the same, whoever asks,
    also after the request hook has loaded (or created) the caller's user;
    the answer carries the broker's bindings when the queue is on record
    and an empty list when it is not. *)
Theorem bindings_listing_ignores_caller (n : string) (w1 w2 : world) :
  tbl_queues (db w1) = tbl_queues (db w2) -> broker w1 = broker w2 ->
  (bindings_listing pulse_management n w1).1
  = (bindings_listing pulse_management n w2).1
  /\ (bindings_listing pulse_management n (load_user config w1).2).1
     = (bindings_listing pulse_management n (load_user config w2).2).1
  /\ (bindings_listing pulse_management n w1).1
     = match get_queue (db w1) n with
       | Some _ =>
           match pulse_management (broker w1) (call_queue_bindings "/" n) with
           | Returned bindings =>
               Returned (jsonify [("queue_name", PyStr n);
                                  ("bindings", bindings)])
           | Raised e => Raised e
           end
       | None =>
           Returned (jsonify [("queue_name", PyStr n);
                              ("bindings", PyList [])])
       end.
Proof.
  intros Hq Hb.
  assert (Hsame : forall wa wb,
            tbl_queues (db wa) = tbl_queues (db wb) -> broker wa = broker wb ->
            (bindings_listing pulse_management n wa).1
            = (bindings_listing pulse_management n wb).1).
  { intros wa wb Hqa Hba. rewrite !bindings_listing_run.
    unfold get_queue. by rewrite Hqa, Hba. }
  split_and!.
  - by apply Hsame.
  - destruct (load_user_keeps_queues w1) as [Hq1 Hb1].
    destruct (load_user_keeps_queues w2) as [Hq2 Hb2].
    apply Hsame; congruence.
  - apply bindings_listing_run.
Qed.

(** *** Resolving and sorting owners *)

#[local] Instance str_le_total : Total str_le.
Proof. intros a b. apply String.leb_total. Qed.

Lemma sorted_Sorted (s : gset string) : Sorted str_le (sorted s).
Proof. apply (Sorted_merge_sort str_le). Qed.

Lemma sorted_Permutation (s : gset string) : sorted s ≡ₚ elements s.
Proof. apply merge_sort_Permutation. Qed.

Lemma sorted_nil (s : gset string) : sorted s = [] <-> s = ∅.
Proof.
  rewrite <- Permutation_nil_r, sorted_Permutation, Permutation_nil_r.
  rewrite elements_empty_iff. by unfold_leibniz.
Qed.

Lemma elem_of_users_with_email_in db emails (u : User) :
  u ∈ users_with_email_in db emails
  <-> email u ∈ emails /\ tbl_users db !! email u = Some (admin u).
Proof.
  unfold users_with_email_in. rewrite list_elem_of_fmap. split.
  - intros ([e a] & -> & Hin). simpl.
    apply elem_of_map_to_list in Hin.
    by apply map_lookup_filter_Some in Hin as [? ?].
  - intros [Hin Hl]. exists (email u, admin u). split; [by destruct u|].
    apply elem_of_map_to_list, map_lookup_filter_Some. done.
Qed.

(** The emails of the users resolved are the requested emails that name
    a user. *)
Lemma resolved_emails db emails :
  list_to_set (email <$> users_with_email_in db emails)
  =@{gset string} emails ∩ dom (tbl_users db).
Proof.
  apply set_eq. intros e.
  rewrite elem_of_list_to_set, list_elem_of_fmap, elem_of_intersection,
    elem_of_dom.
  split.
  - intros (u & -> & Hu). apply elem_of_users_with_email_in in Hu as [? ?].
    eauto.
  - intros [He [a Ha]]. exists {| email := e; admin := a |}.
    split; [done|]. by apply elem_of_users_with_email_in.
Qed.

Lemma resolved_nil db emails :
  users_with_email_in db emails = []
  <-> emails ∩ dom (tbl_users db) = ∅.
Proof.
  rewrite <- resolved_emails. split.
  - by intros ->.
  - destruct (users_with_email_in db emails) as [|u l]; [done|].
    simpl. intros He. apply (f_equal (fun s : gset string => bool_decide (email u ∈ s))) in He.
    rewrite bool_decide_eq_true_2 in He by set_solver.
    rewrite bool_decide_eq_false_2 in He by set_solver. done.
Qed.

(** *** The profile view and the update of a pulse user *)

Lemma profile_run error messages w u :
  logged_in w -> g_user w = Some u ->
  profile error messages w
  = (Returned (render_profile (profile_users w u) (profile_queues w u)
                 error messages), w).
Proof.
  intros Hlog Hu. unfold profile, requires_login. rewrite Hlog.
  unfold bind, the_g_user, get_world, profile_users, profile_queues.
  rewrite Hu. by destruct (admin u).
Qed.

Lemma update_info_not_owner
    (form : gmap string string) (w : world) (u : User) (pu : PulseUser)
    (pn pw pv ol : string) :
  logged_in w -> g_user w = Some u -> update_form form pn pw pv ol ->
  get_pulse_user (db w) pn = Some pu -> email u ∉ owners pu ->
  update_info pulse_management hash_password form w
  = (Returned
       (render_profile (profile_users w u) (profile_queues w u) None
          (Some ["Invalid user: " +:+ email u +:+ " is not an owner."])), w).
Proof.
  intros Hlog Hu (Hf1 & Hf2 & Hf3 & Hf4) Hpu Hno.
  unfold update_info, requires_login. rewrite Hlog.
  unfold bind at 1. unfold form_get at 1. rewrite Hf1. unfold ret at 1.
  unfold bind at 1. unfold form_get at 1. rewrite Hf2. unfold ret at 1.
  unfold bind at 1. unfold form_get at 1. rewrite Hf3. unfold ret at 1.
  unfold bind at 1. unfold form_get at 1. rewrite Hf4. unfold ret at 1.
  unfold bind at 1. unfold get_world at 1.
  rewrite Hpu, Hu. rewrite bool_decide_eq_false_2 by done. simpl.
  unfold bind at 1. unfold the_g_user at 1. rewrite Hu.
  by apply profile_run.
Qed.

(** C5: whoever is not among the owners of the pulse user is turned away
    by [update_info] with a message, not an exception, and nothing
    changes; being an admin makes no difference here, while the same
    admin may delete the pulse user. *)
Theorem update_info_owners_only
    (form : gmap string string) (w : world) (u : User) (pu : PulseUser)
    (pn pw pv ol : string) :
  logged_in w -> g_user w = Some u -> update_form form pn pw pv ol ->
  get_pulse_user (db w) pn = Some pu -> email u ∉ owners pu ->
  update_info pulse_management hash_password form w
  = (Returned
       (render_profile (profile_users w u) (profile_queues w u) None
          (Some ["Invalid user: " +:+ email u +:+ " is not an owner."])), w)
  /\ (admin u = true -> may_delete_pulse_user u pu = true).
Proof.
  intros Hlog Hu Hform Hpu Hno. split.
  - by apply (update_info_not_owner form w u pu pn pw pv ol).
  - intros Ha. unfold may_delete_pulse_user. by rewrite Ha.
Qed.

Lemma owners_in_lookup db pn :
  owners_in db pn = snd <$> tbl_pulse_users db !! pn.
Proof.
  unfold owners_in, get_pulse_user. by destruct (tbl_pulse_users db !! pn).
Qed.

Lemma owners_in_set_password db pn h :
  owners_in (store_set_password pn h db) pn = owners_in db pn.
Proof.
  rewrite !owners_in_lookup. unfold store_set_password. simpl.
  rewrite lookup_alter_eq. by destruct (tbl_pulse_users db !! pn).
Qed.

Lemma owners_in_set_owners db pn os :
  is_Some (owners_in db pn) ->
  owners_in (store_set_owners pn os db) pn = Some os.
Proof.
  rewrite !owners_in_lookup. unfold store_set_owners. simpl.
  rewrite lookup_alter_eq. destruct (tbl_pulse_users db !! pn); [done|].
  by intros [? ?].
Qed.

(** The owners step on a changed, non-empty request. *)
Lemma update_owners_run (pu : PulseUser) (new_owners : gset string)
    (messages : list string) (w : world) :
  new_owners <> ∅ -> new_owners <> owners pu ->
  let resolved := new_owners ∩ dom (tbl_users (db w)) in
  update_owners pu new_owners messages w =
  if decide (resolved = ∅)
  then (Returned (messages, Some invalid_owners_message), w)
  else (Returned
          match sorted (new_owners ∖ resolved) with
          | [] => (["Email list updated."], None)
          | invalid =>
              (messages,
               Some ("Some user emails not found: " +:+ str_join ", " invalid))
          end,
        {| db := store_set_owners (username pu) resolved (db w);
           committed := store_set_owners (username pu) resolved (db w);
           session := session w; g_user := g_user w; flashes := flashes w;
           logs := logs w; broker := broker w |}).
Proof.
  intros Hne Hdiff resolved. unfold update_owners.
  unfold bind at 1. unfold get_world at 1.
  rewrite !bool_decide_eq_true_2 by done. simpl.
  destruct (users_with_email_in (db w) new_owners) as [|u0 l] eqn:Hres.
  - apply resolved_nil in Hres. by rewrite decide_True.
  - assert (Hnot : resolved <> ∅).
    { intros He. apply resolved_nil in He. congruence. }
    rewrite decide_False by done.
    rewrite <- Hres, resolved_emails. fold resolved.
    unfold bind, with_db, db_commit, ret. simpl.
    by destruct (sorted (new_owners ∖ resolved)).
Qed.

Lemma update_info_reaches_owners
    (form : gmap string string) (w : world) (u : User) (pu : PulseUser)
    (pn pw pv ol : string) :
  logged_in w -> g_user w = Some u -> update_form form pn pw pv ol ->
  get_pulse_user (db w) pn = Some pu -> email u ∈ owners pu ->
  password_step_passes pulse_management w pn pw pv ->
  exists messages w1,
    update_info pulse_management hash_password form w
    = finish_update pu (_clean_owners_str ol) messages w1
    /\ session w1 = session w /\ g_user w1 = g_user w
    /\ committed w1 = committed w
    /\ tbl_users (db w1) = tbl_users (db w)
    /\ owners_in (db w1) pn = Some (owners pu)
    /\ (pw = "" -> w1 = w /\ messages = []).
Proof.
  intros Hlog Hu (Hf1 & Hf2 & Hf3 & Hf4) Hpu Hown Hpass.
  assert (Hname : username pu = pn) by by eapply get_pulse_user_username.
  assert (Hrow : owners_in (db w) pn = Some (owners pu))
    by (unfold owners_in; by rewrite Hpu).
  unfold update_info, requires_login. rewrite Hlog.
  unfold bind at 1. unfold form_get at 1. rewrite Hf1. unfold ret at 1.
  unfold bind at 1. unfold form_get at 1. rewrite Hf2. unfold ret at 1.
  unfold bind at 1. unfold form_get at 1. rewrite Hf3. unfold ret at 1.
  unfold bind at 1. unfold form_get at 1. rewrite Hf4. unfold ret at 1.
  unfold bind at 1. unfold get_world at 1.
  rewrite Hpu, Hu. rewrite bool_decide_eq_true_2 by done. simpl.
  destruct Hpass as [->|(Heq & Hstrong & v & Hv)]; [|subst pv].
  - exists [], w. simpl. unfold bind at 1. unfold ret at 1.
    by split_and!.
  - destruct (String.eqb pw "") eqn:Hempty.
    + apply String.eqb_eq in Hempty as ->. exists [], w. simpl.
      unfold bind at 1. unfold ret at 1. by split_and!.
    + simpl. rewrite String.eqb_refl, Hstrong. simpl.
      eexists _, _. split.
      * unfold bind at 1. unfold bind at 1. unfold change_password.
        unfold bind at 1. unfold broker_do at 1. rewrite Hname, Hv.
        unfold with_db at 1. unfold ret at 1. reflexivity.
      * simpl. split_and!; try done.
        -- by rewrite owners_in_set_password.
        -- intros ->. done.
Qed.

(** C3 (as amended): once [update_info] has found the pulse user, let
    the acting owner through and passed the password step, a cleaned
    owners list that is not empty and differs from the current owners is
    resolved against the users on record.  If some email resolves, the
    owners become exactly the resolved emails and the change is
    committed; the answer then is the plain [Email list updated.] when
    every email resolved, and otherwise an error that lists the
    unresolved emails in sorted order.  If no email resolves, the owners
    stay as they were, nothing is committed, and the answer is the error
    on the expected format of the list. *)
Theorem owners_update_outcomes
    (form : gmap string string) (w : world) (u : User) (pu : PulseUser)
    (pn pw pv ol : string) :
  logged_in w -> g_user w = Some u -> update_form form pn pw pv ol ->
  get_pulse_user (db w) pn = Some pu -> email u ∈ owners pu ->
  password_step_passes pulse_management w pn pw pv ->
  let new_owners := _clean_owners_str ol in
  let known : gset string := dom (tbl_users (db w)) in
  new_owners <> ∅ -> new_owners <> owners pu ->
  exists users queues error messages w',
    update_info pulse_management hash_password form w
    = (Returned (render_profile users queues error (Some messages)), w')
    /\ (new_owners ∩ known <> ∅ ->
        owners_in (db w') pn = Some (new_owners ∩ known)
        /\ committed w' = db w'
        /\ (new_owners ⊆ known ->
            error = None /\ messages = ["Email list updated."])
        /\ (~ new_owners ⊆ known ->
            exists invalid,
              error = Some ("Some user emails not found: "
                              +:+ str_join ", " invalid)
              /\ Sorted str_le invalid
              /\ invalid ≡ₚ elements (new_owners ∖ known)))
    /\ (new_owners ∩ known = ∅ ->
        owners_in (db w') pn = Some (owners pu)
        /\ committed w' = committed w
        /\ error = Some invalid_owners_message).
Proof.
  intros Hlog Hu Hform Hpu Hown Hpass new_owners known Hne Hdiff.
  destruct (update_info_reaches_owners form w u pu pn pw pv ol)
    as (msgs & w1 & -> & Hs & Hg & Hc & Htu & Hrow & _); try done.
  assert (Hname : username pu = pn) by by eapply get_pulse_user_username.
  assert (Hlog1 : forall w2, session w2 = session w1 -> logged_in w2).
  { intros w2 Hs2. unfold logged_in, session_get in *. by rewrite Hs2, Hs. }
  assert (Hminus : new_owners ∖ (new_owners ∩ known) = new_owners ∖ known)
    by set_solver.
  unfold finish_update. unfold bind at 1.
  rewrite update_owners_run by done. rewrite Htu.
  fold new_owners known. rewrite Hminus, Hname.
  destruct (decide (new_owners ∩ known = ∅)) as [Hnone|Hsome].
  - rewrite (profile_run _ _ w1 u) by (rewrite ?Hg; auto).
    eexists _, _, _, _, _. split; [reflexivity|]. split; [done|].
    intros _. by rewrite Hc.
  - destruct (sorted (new_owners ∖ known)) as [|i invalid] eqn:Hsort.
    + erewrite (profile_run _ _ _ u) by (simpl; rewrite ?Hg; auto).
      eexists _, _, _, _, _. split; [reflexivity|]. split; [|done].
      intros _. simpl. split_and!; try done.
      * apply owners_in_set_owners. by rewrite Hrow.
      * intros Hnot. apply sorted_nil in Hsort. destruct Hnot. set_solver.
    + erewrite (profile_run _ _ _ u) by (simpl; rewrite ?Hg; auto).
      eexists _, _, _, _, _. split; [reflexivity|]. split; [|done].
      intros _. simpl. split_and!.
      * apply owners_in_set_owners. by rewrite Hrow.
      * reflexivity.
      * intros Hall. assert (Hempty : new_owners ∖ known = ∅) by set_solver.
        apply sorted_nil in Hempty. congruence.
      * intros _. exists (i :: invalid). split; [reflexivity|].
        rewrite <- Hsort. split; [apply sorted_Sorted|apply sorted_Permutation].
Qed.

(** *** Denials *)

Lemma update_info_not_found
    (form : gmap string string) (w : world) (u : User) (pn pw pv ol : string) :
  logged_in w -> g_user w = Some u -> update_form form pn pw pv ol ->
  get_pulse_user (db w) pn = None ->
  update_info pulse_management hash_password form w
  = (Returned
       (render_profile (profile_users w u) (profile_queues w u) None
          (Some ["Pulse user " +:+ pn +:+ " not found."])), w).
Proof.
  intros Hlog Hu (Hf1 & Hf2 & Hf3 & Hf4) Hpu.
  unfold update_info, requires_login. rewrite Hlog.
  unfold bind at 1. unfold form_get at 1. rewrite Hf1. unfold ret at 1.
  unfold bind at 1. unfold form_get at 1. rewrite Hf2. unfold ret at 1.
  unfold bind at 1. unfold form_get at 1. rewrite Hf3. unfold ret at 1.
  unfold bind at 1. unfold form_get at 1. rewrite Hf4. unfold ret at 1.
  unfold bind at 1. unfold get_world at 1. rewrite Hpu.
  by apply profile_run.
Qed.

(** C9 (as amended): the two deletions answer a missing target and a
    target the acting user may not mutate in the same way, [ok=false],
    with the same effects (none for a queue, the one request log line for
    a pulse user); [update_info] answers the two with different
    messages. *)
Theorem deletions_hide_existence
    (n : string) (w_absent w_denied : world) (u : User) :
  logged_in w_absent -> logged_in w_denied ->
  g_user w_absent = Some u -> g_user w_denied = Some u ->
  (forall q,
     get_queue (db w_absent) n = None ->
     get_queue (db w_denied) n = Some q ->
     ~ can_mutate_queue (db w_denied) u q ->
     delete_queue pulse_management n w_absent = (Returned ok_false, w_absent)
     /\ delete_queue pulse_management n w_denied
        = (Returned ok_false, w_denied))
  /\ (forall pu,
        get_pulse_user (db w_absent) n = None ->
        get_pulse_user (db w_denied) n = Some pu ->
        ~ can_mutate_pulse_user u pu ->
        delete_pulse_user pulse_management n w_absent
        = (Returned ok_false, with_request_log n w_absent)
        /\ delete_pulse_user pulse_management n w_denied
           = (Returned ok_false, with_request_log n w_denied))
  /\ (forall form pu pw pv ol,
        update_form form n pw pv ol ->
        get_pulse_user (db w_absent) n = None ->
        get_pulse_user (db w_denied) n = Some pu ->
        email u ∉ owners pu ->
        exists users queues users' queues',
          (update_info pulse_management hash_password form w_absent).1
          = Returned (render_profile users queues None
                        (Some ["Pulse user " +:+ n +:+ " not found."]))
          /\ (update_info pulse_management hash_password form w_denied).1
             = Returned (render_profile users' queues' None
                           (Some ["Invalid user: " +:+ email u
                                    +:+ " is not an owner."]))).
Proof.
  intros Hl1 Hl2 Hu1 Hu2. split_and!.
  - intros q Hq1 Hq2 Hno. rewrite !delete_queue_run.
    unfold logged_in in *. rewrite Hl1, Hl2, Hq1, Hq2, Hu2.
    destruct (may_delete_queue _ _ _) eqn:Hmay; [|done].
    apply may_delete_queue_spec in Hmay. by destruct Hno.
  - intros pu Hp1 Hp2 Hno. rewrite !delete_pulse_user_run.
    unfold with_request_log, logging. simpl.
    unfold logged_in in *. rewrite Hl1, Hl2, Hp1, Hp2, Hu2.
    destruct (may_delete_pulse_user _ _) eqn:Hmay; [|done].
    apply may_delete_pulse_user_spec in Hmay. by destruct Hno.
  - intros form pu pw pv ol Hform Hp1 Hp2 Hno.
    eexists _, _, _, _. split.
    + by rewrite (update_info_not_found form w_absent u n pw pv ol).
    + by rewrite (update_info_not_owner form w_denied u pu n pw pv ol).
Qed.

(** *** The existence check of the registration *)

(** C2 (as amended): the existence check against the broker reads an
    answer that is an object with an [error] key as "does not exist" and
    an object without that key as "exists"; a
    [PulseManagementException] of the lookup is read as "does not exist"
    too, never as "exists" and not as a failure of its own; only an
    exception of another class ends the operation. *)
Theorem broker_existence_check (username : string) (w : world) :
  let lookup := pulse_management (broker w) (call_user username) in
  let answer := (in_rabbitmq pulse_management username w).1 in
  (forall d, lookup = Returned (PyDict d) ->
             answer = Returned (negb (has_error_key d)))
  /\ (forall msg, lookup = Raised (PulseManagementException msg) ->
                  answer = Returned false)
  /\ (forall e, lookup = Raised e ->
                (forall msg, e <> PulseManagementException msg) ->
                answer = Raised e).
Proof.
  simpl. unfold in_rabbitmq, bind, try_except, broker_do, ret, lift.
  split_and!.
  - intros d ->. simpl. fold (has_error_key d). by destruct (has_error_key d).
  - by intros msg ->.
  - intros e -> Hne. destruct e; try done. by destruct (Hne msg).
Qed.

End WebProperties.

(** ** The callback of the identity provider *)

Section CallbackProperties.

Import Web.

Variable config : Config.
Variable requests_post : string -> string -> outcome http_response.
Variable requests_get : string -> outcome http_response.
Variable json_dumps : pyval -> string.
Variable py_str : pyval -> string.

(** When the profile fetch does not succeed, the callback logs the
    failure and the body, flashes the notice with the provider's domain,
    which adds it to the flashes the session holds and changes nothing
    else of the session, and redirects to the landing page. *)
Lemma callback_profile_failure (code : pyval) (w : world)
    (token_resp resp : http_response) (token_info access_token : pyval)
    (shown : list pyval) :
  let notice := "Error verifying with Auth0 (" +:+ auth0_domain config +:+ ")" in
  token_request config requests_post json_dumps code = Returned token_resp ->
  json token_resp = Some token_info ->
  py_getitem token_info "access_token" = Returned access_token ->
  requests_get ("https://" +:+ auth0_domain config
                  +:+ "/userinfo?access_token=" +:+ py_str access_token)
  = Returned resp ->
  ok resp = false ->
  default (PyList []) (session w !! "_flashes") = PyList shown ->
  callback_handling config requests_post requests_get json_dumps py_str code w
  = (Returned (redirect "/"),
     {| db := db w; committed := committed w;
        session :=
          <["_flashes" := PyList (shown ++ [PyTuple [PyStr "message"; PyStr notice]])]>
            (session w);
        g_user := g_user w; flashes := flashes w ++ [notice];
        logs := (logs w ++ [(ERROR, notice)]) ++ [(ERROR, text resp)];
        broker := broker w |}).
Proof.
  intros notice Hpost Hjson Htoken Hget Hok Hshown.
  unfold token_request in Hpost. unfold callback_handling.
  unfold bind at 1. unfold lift at 1. rewrite Hpost.
  unfold bind at 1. unfold response_json at 1. rewrite Hjson. unfold ret at 1.
  unfold bind at 1. unfold lift at 1. rewrite Htoken.
  unfold bind at 1. unfold lift at 1. rewrite Hget.
  rewrite Hok. unfold bind, logging, flash, ret. cbn [session].
  rewrite Hshown. reflexivity.
Qed.

(** When the token endpoint answers with an object that has no
    [access_token], whatever its status, the callback raises [KeyError]
    before anything is logged, flashed or redirected. *)
Lemma callback_token_failure (code : pyval) (w : world)
    (token_resp : http_response) (d : list (string * pyval)) :
  token_request config requests_post json_dumps code = Returned token_resp ->
  json token_resp = Some (PyDict d) ->
  list_find (fun kv => kv.1 = "access_token") d = None ->
  callback_handling config requests_post requests_get json_dumps py_str code w
  = (Raised (KeyError "access_token"), w).
Proof.
  intros Hpost Hjson Hkey.
  unfold token_request in Hpost. unfold callback_handling.
  unfold bind at 1. unfold lift at 1. rewrite Hpost.
  unfold bind at 1. unfold response_json at 1. rewrite Hjson. unfold ret at 1.
  unfold bind at 1. unfold lift at 1. unfold py_getitem. by rewrite Hkey.
Qed.

End CallbackProperties.

(** ** Runs on concrete requests *)

Section Runs.

Import Examples.

Example quote_slash : Urllib.quote "/" "" = "%2F".
Proof. reflexivity. Qed.

Example quote_queue_name :
  Urllib.quote "queue/pulse user/a.b-c_d" "" = "queue%2Fpulse%20user%2Fa.b-c_d".
Proof. reflexivity. Qed.

Example unquote_queue_name :
  Urllib.unquote "queue%2Fpulse%20user%2fa.b%zz" = "queue/pulse user/a.b%zz".
Proof. reflexivity. Qed.

Example clean_owners :
  elements (_clean_owners_str " alice@example.com ,,ghost@example.com")
  ≡ₚ ["alice@example.com"; "ghost@example.com"].
Proof. vm_compute. apply Permutation_swap || reflexivity. Qed.

(** [strip()] on the text of a form also removes the separators U+001C
    to U+001F and the spaces U+0085 and U+00A0. *)
Example clean_owners_unicode_space :
  _clean_owners_str
    (String (ascii_of_nat 160) "root@example.com"
       +:+ String (ascii_of_nat 31) (String (ascii_of_nat 133) ""))
  = {[ "root@example.com" ]}.
Proof. vm_compute. reflexivity. Qed.

Example update_info_strips_unit_separator :
  let run :=
    update_info broker_up hash0
      (update_form0 ("root@example.com" +:+ String (ascii_of_nat 31) ""))
      (world_of alice) in
  owners_in (db run.2) "pulse1" = Some {[ "root@example.com" ]}
  /\ committed run.2 = db run.2.
Proof. vm_compute. done. Qed.

Example partial_reconciliation :
  let run :=
    update_info broker_up hash0
      (update_form0 "alice@example.com, ghost@example.com") (world_of alice) in
  run.1 = Returned (render_profile [] []
                      (Some "Some user emails not found: ghost@example.com")
                      (Some []))
  /\ elements <$> owners_in (committed run.2) "pulse1"
     = Some ["alice@example.com"].
Proof. vm_compute. done. Qed.

Example orphan_queue_needs_admin :
  (delete_queue broker_up "orphan" (world_of alice)).1 = Returned ok_false
  /\ (delete_queue broker_up "orphan" (world_of root)).1 = Returned ok_true.
Proof. vm_compute. done. Qed.

Example second_delete_fails :
  let first := delete_queue broker_up "q1" (world_of alice) in
  first.1 = Returned ok_true
  /\ (delete_queue broker_up "q1" first.2).1 = Returned ok_false.
Proof. vm_compute. done. Qed.

End Runs.

(** ** Where the handlers depart from the specification *)

(** C1, as stated, fails: a deletion answers [ok=false] only when the
    broker call raises [PulseManagementException].  With a broker out of
    reach the call raises the [ConnectionError] of [requests], which
    neither handler catches: alice's deletion of her queue and of her
    pulse user end with that exception, not with an answer.  The store is
    unchanged in both. *)
Lemma other_broker_error_is_not_answered :
  let w := Examples.world_of Examples.alice in
  let queue_run := Web.delete_queue Examples.broker_unreachable "q1" w in
  let user_run := Web.delete_pulse_user Examples.broker_unreachable "pulse1" w in
  Examples.broker_unreachable (Web.broker w) (Web.call_delete_queue "/" "q1")
  = Raised ConnectionError
  /\ Examples.broker_unreachable (Web.broker w) (Web.call_delete_user "pulse1")
     = Raised ConnectionError
  /\ queue_run.1 = Raised ConnectionError
  /\ queue_run.1 <> Returned ok_false
  /\ user_run.1 = Raised ConnectionError
  /\ user_run.1 <> Returned ok_false
  /\ Web.db queue_run.2 = Web.db w /\ Web.committed queue_run.2 = Web.committed w
  /\ Web.db user_run.2 = Web.db w /\ Web.committed user_run.2 = Web.committed w.
Proof. vm_compute. split_and!; done. Qed.

(** C2, as stated, fails: a client-level exception of the lookup is read as
    "does not exist".  With a broker whose lookup raises
    [PulseManagementException], the check answers [False], and the
    registration goes on exactly as with a broker that answers with an
    error body: it creates the pulse user and redirects. *)
Lemma lookup_exception_reads_as_absent :
  let w := Examples.world_of Examples.alice in
  let failing :=
    Web.register_handler Examples.config0 Examples.broker_lookup_fails
      Examples.hash0 Examples.register_form0 w in
  let absent :=
    Web.register_handler Examples.config0 Examples.broker_no_user
      Examples.hash0 Examples.register_form0 w in
  (Web.in_rabbitmq Examples.broker_lookup_fails "newuser" w).1 = Returned false
  /\ failing = absent
  /\ failing.1 = Returned (Web.redirect "/profile")
  /\ is_Some (Web.get_pulse_user (Web.committed failing.2) "newuser").
Proof. vm_compute. split_and!; try done. by eexists. Qed.

(** C3, as stated, fails on an empty owners list: the cleaned set is empty,
    so it differs from the current owners and no supplied email resolves,
    but the handler reports no rejection: it answers [No info updated.]
    and changes nothing. *)
Lemma empty_owners_list_is_not_rejected :
  let w := Examples.world_of Examples.alice in
  Web._clean_owners_str "" <> Web.owners Examples.pulse1
  /\ Web.get_pulse_user (Web.db w) "pulse1" = Some Examples.pulse1
  /\ Web.users_with_email_in (Web.db w) (Web._clean_owners_str "") = []
  /\ Web.update_info Examples.broker_up Examples.hash0
       (Examples.update_form0 "") w
     = (Returned (Web.render_profile [] [] None (Some ["No info updated."])), w).
Proof.
  split_and!.
  - intros Heq. apply (f_equal elements) in Heq. vm_compute in Heq. done.
  - vm_compute. reflexivity.
  - vm_compute. reflexivity.
  - vm_compute. reflexivity.
Qed.

(** C9, as stated, fails for [update_info]: the same user gets one message
    when the pulse user does not exist and another when it exists and is
    not theirs. *)
Lemma update_info_tells_missing_from_denied :
  let form := Examples.update_form0 "mallory@example.com" in
  let w_absent := Examples.world_without_pulse1 Examples.mallory in
  let w_denied := Examples.world_of Examples.mallory in
  Web.get_pulse_user (Web.db w_absent) "pulse1" = None
  /\ Web.get_pulse_user (Web.db w_denied) "pulse1" = Some Examples.pulse1
  /\ Web.may_delete_pulse_user Examples.mallory Examples.pulse1 = false
  /\ (Web.update_info Examples.broker_up Examples.hash0 form w_absent).1
     <> (Web.update_info Examples.broker_up Examples.hash0 form w_denied).1.
Proof. vm_compute. split_and!; try done. Qed.

(** ** The theorems at concrete requests *)

(** Alice asks to delete her queue while the broker client fails. *)
Lemma broker_failure_keeps_local_store_witness :
  let w := Examples.world_of Examples.alice in
  Examples.broker_down (Web.broker w) (Web.call_delete_queue "/" "q1")
  = Raised (PulseManagementException "connection refused")
  /\ (let (r, w') := Web.delete_queue Examples.broker_down "q1" w in
      Web.db w' = Web.db w /\ Web.committed w' = Web.committed w
      /\ (Web.broker w' = Web.broker w ++ [Web.call_delete_queue "/" "q1"] ->
          (forall msg,
             PulseManagementException "connection refused"
             = PulseManagementException msg ->
             r = Returned ok_false)
          /\ ((forall msg,
                 PulseManagementException "connection refused"
                 <> PulseManagementException msg) ->
              r = Raised (PulseManagementException "connection refused")))).
Proof.
  split; [reflexivity|].
  apply (proj1 (broker_failure_keeps_local_store Examples.broker_down "q1"
                  (Examples.world_of Examples.alice))).
  reflexivity.
Defined.

(** The lookup of a new username on a broker whose client fails. *)
Lemma broker_existence_check_witness :
  let w := Examples.world_of Examples.alice in
  Examples.broker_lookup_fails (Web.broker w) (Web.call_user "newuser")
  = Raised (PulseManagementException "connection refused")
  /\ (Web.in_rabbitmq Examples.broker_lookup_fails "newuser" w).1
     = Returned false.
Proof.
  split; [reflexivity|].
  apply (proj1 (proj2 (broker_existence_check Examples.broker_lookup_fails
                         "newuser" (Examples.world_of Examples.alice)))
           "connection refused").
  reflexivity.
Defined.

(** Alice replaces the owners of [pulse1] by herself and an unknown
    email. *)
Lemma owners_update_outcomes_witness :
  let w := Examples.world_of Examples.alice in
  let ol := "alice@example.com, ghost@example.com" in
  let new_owners := Web._clean_owners_str ol in
  let known : gset string := dom (Web.tbl_users (Web.db w)) in
  exists users queues error messages w',
    Web.update_info Examples.broker_up Examples.hash0
      (Examples.update_form0 ol) w
    = (Returned (Web.render_profile users queues error (Some messages)), w')
    /\ (new_owners ∩ known <> ∅ ->
        owners_in (Web.db w') "pulse1" = Some (new_owners ∩ known)
        /\ Web.committed w' = Web.db w'
        /\ (new_owners ⊆ known ->
            error = None /\ messages = ["Email list updated."])
        /\ (~ new_owners ⊆ known ->
            exists invalid,
              error = Some ("Some user emails not found: "
                              +:+ str_join ", " invalid)
              /\ Sorted Web.str_le invalid
              /\ invalid ≡ₚ elements (new_owners ∖ known)))
    /\ (new_owners ∩ known = ∅ ->
        owners_in (Web.db w') "pulse1" = Some (Web.owners Examples.pulse1)
        /\ Web.committed w' = Web.committed w
        /\ error = Some invalid_owners_message).
Proof.
  apply (owners_update_outcomes Examples.broker_up Examples.hash0 _
           (Examples.world_of Examples.alice) Examples.alice Examples.pulse1
           "pulse1" "" "" "alice@example.com, ghost@example.com").
  - reflexivity.
  - reflexivity.
  - repeat split; reflexivity.
  - vm_compute. reflexivity.
  - vm_compute. reflexivity.
  - left. reflexivity.
  - intros Heq. apply (f_equal elements) in Heq. vm_compute in Heq. done.
  - intros Heq. apply (f_equal elements) in Heq. vm_compute in Heq. done.
Defined.

(** Alice deletes her queue [q1]. *)
Lemma queue_deletion_admin_or_owner_witness :
  let w := Examples.world_of Examples.alice in
  let q := {| Web.name := "q1"; Web.owner := Some "pulse1" |} in
  let (r, w') := Web.delete_queue Examples.broker_up "q1" w in
  (Web.broker w' = Web.broker w ++ [Web.call_delete_queue "/" "q1"]
     <-> can_mutate_queue (Web.db w) Examples.alice q)
  /\ (can_mutate_queue (Web.db w) Examples.alice q ->
      forall v,
        Examples.broker_up (Web.broker w) (Web.call_delete_queue "/" "q1")
        = Returned v ->
        r = Returned ok_true /\ Web.get_queue (Web.db w') "q1" = None
        /\ Web.committed w' = Web.db w')
  /\ (~ can_mutate_queue (Web.db w) Examples.alice q ->
      r = Returned ok_false /\ w' = w)
  /\ (Web.owner q = None -> Web.admin Examples.alice = false ->
      r = Returned ok_false /\ w' = w)
  /\ (Web.admin Examples.alice = true ->
      Web.broker w' = Web.broker w ++ [Web.call_delete_queue "/" "q1"]).
Proof.
  apply (queue_deletion_admin_or_owner Examples.broker_up "q1"
           (Examples.world_of Examples.alice) Examples.alice
           {| Web.name := "q1"; Web.owner := Some "pulse1" |}).
  - reflexivity.
  - reflexivity.
  - vm_compute. reflexivity.
Defined.

(** The admin root, who is not an owner of [pulse1], asks for an update. *)
Lemma update_info_owners_only_witness :
  let w := Examples.world_of Examples.root in
  Web.admin Examples.root = true
  /\ (Web.email Examples.root ∉ Web.owners Examples.pulse1)
  /\ Web.update_info Examples.broker_up Examples.hash0
       (Examples.update_form0 "root@example.com") w
     = (Returned
          (Web.render_profile (profile_users w Examples.root)
             (profile_queues w Examples.root) None
             (Some ["Invalid user: root@example.com is not an owner."])), w).
Proof.
  assert (Hno : Web.email Examples.root ∉ Web.owners Examples.pulse1).
  { vm_compute. discriminate. }
  split; [reflexivity|]. split; [exact Hno|].
  apply (proj1 (update_info_owners_only Examples.broker_up Examples.hash0
                  (Examples.update_form0 "root@example.com")
                  (Examples.world_of Examples.root) Examples.root
                  Examples.pulse1 "pulse1" "" "" "root@example.com"
                  eq_refl eq_refl (conj eq_refl (conj eq_refl (conj eq_refl eq_refl)))
                  eq_refl Hno)).
Defined.

(** The default vhost, [/], in the path of the queue listing. *)
Lemma identifiers_are_single_path_segments_witness :
  "/" <> ""
  /\ exists path,
       Management.sends_path Management.default_api
         (Management.queues Examples.silent_broker Examples.dumps0 Examples.str0
            Management.default_api (Some "/")) path
       /\ split_on "/" path = ["queues"; Urllib.quote "/" ""].
Proof.
  split; [discriminate|].
  apply (proj1 (identifiers_are_single_path_segments Examples.silent_broker
                  Examples.dumps0 Examples.str0 Management.default_api
                  "/" "a/b" "user/1" "channel/1" "secret" "monitoring")).
  discriminate.
Defined.

(** A delete answered by an empty body, and a lookup answered by an error
    page. *)
Lemma api_request_empty_or_unparsable_witness :
  (Management._api_request Examples.silent_broker Examples.dumps0 Examples.str0
     Management.default_api "users/u" "DELETE" PyNone []).1
  = Returned PyNone
  /\ exists msg,
       (Management._api_request Examples.error_page_broker Examples.dumps0 Examples.str0
          Management.default_api "users/u" "GET" PyNone []).1
       = Raised (PulseManagementException msg)
       /\ (forall (B : Type) (k : pyval -> Management.M B),
             (Management.bind
                (Management._api_request Examples.error_page_broker
                   Examples.dumps0 Examples.str0 Management.default_api
                   "users/u" "GET" PyNone) k []).1
             = Raised (PulseManagementException msg))
       /\ is_infix "GET" msg /\ is_infix "users/u" msg
       /\ is_infix (Examples.str0 PyNone) msg
       /\ is_infix "<html>401 Unauthorized</html>" msg.
Proof.
  split.
  - apply (proj1 (api_request_empty_or_unparsable Examples.silent_broker Examples.dumps0
                    Examples.str0 Management.default_api "users/u" "DELETE"
                    PyNone [])).
    reflexivity.
  - apply (proj2 (api_request_empty_or_unparsable Examples.error_page_broker
                    Examples.dumps0 Examples.str0 Management.default_api
                    "users/u" "GET" PyNone [])).
    + discriminate.
    + reflexivity.
Defined.

(** Mallory asks to delete a queue that is not on record, and the queue of
    alice. *)
Lemma deletions_hide_existence_witness :
  let w_absent := Examples.world_without_q1 Examples.mallory in
  let w_denied := Examples.world_of Examples.mallory in
  let q := {| Web.name := "q1"; Web.owner := Some "pulse1" |} in
  Web.get_queue (Web.db w_absent) "q1" = None
  /\ Web.get_queue (Web.db w_denied) "q1" = Some q
  /\ ~ can_mutate_queue (Web.db w_denied) Examples.mallory q
  /\ Web.delete_queue Examples.broker_up "q1" w_absent
     = (Returned ok_false, w_absent)
  /\ Web.delete_queue Examples.broker_up "q1" w_denied
     = (Returned ok_false, w_denied).
Proof.
  assert (Hno : ~ can_mutate_queue (Web.db (Examples.world_of Examples.mallory))
                    Examples.mallory
                    {| Web.name := "q1"; Web.owner := Some "pulse1" |}).
  { intros Hcan. apply may_delete_queue_spec in Hcan.
    vm_compute in Hcan. discriminate Hcan. }
  split; [vm_compute; reflexivity|].
  split; [vm_compute; reflexivity|].
  split; [exact Hno|].
  apply (proj1 (deletions_hide_existence Examples.broker_up Examples.hash0 "q1"
                  (Examples.world_without_q1 Examples.mallory)
                  (Examples.world_of Examples.mallory) Examples.mallory
                  eq_refl eq_refl eq_refl eq_refl)
           {| Web.name := "q1"; Web.owner := Some "pulse1" |}).
  - vm_compute. reflexivity.
  - vm_compute. reflexivity.
  - exact Hno.
Defined.

(** The admin root and a visitor without session ask for the bindings of
    [q1]. *)
Lemma bindings_listing_ignores_caller_witness :
  let w1 := Examples.world_of Examples.root in
  let w2 := Examples.anonymous in
  Web.session w1 <> Web.session w2
  /\ (Web.bindings_listing Examples.broker_up "q1" w1).1
     = (Web.bindings_listing Examples.broker_up "q1" w2).1.
Proof.
  split.
  - intros Heq. apply (f_equal (fun s => s !! "email")) in Heq.
    vm_compute in Heq. discriminate Heq.
  - apply (proj1 (bindings_listing_ignores_caller Examples.config0
                    Examples.broker_up "q1"
                    (Examples.world_of Examples.root) Examples.anonymous
                    eq_refl eq_refl)).
Defined.

(** ** The callback on a refused code *)

(** C8: the token endpoint refuses the code and answers, without success,
    with an error object that has no [access_token]; the callback then
    raises [KeyError] on [token_info['access_token']]: the session is not
    logged in, but no failure is logged, no notice is flashed and the
    visitor is not redirected to the landing page, which the callback does
    when the profile fetch fails. *)
Theorem callback_token_refusal_raises :
  Web.callback_handling Examples.config0 Examples.token_denied
    Examples.profile_never Examples.dumps0 Examples.str0 (PyStr "bad code")
    Examples.anonymous
  = (Raised (KeyError "access_token"), Examples.anonymous).
Proof.
  apply (callback_token_failure Examples.config0 Examples.token_denied
           Examples.profile_never Examples.dumps0 Examples.str0
           (PyStr "bad code") Examples.anonymous
           {| Web.ok := false; Web.text := "invalid_grant";
              Web.json := Some (PyDict [("error", PyStr "invalid_grant")]) |}
           [("error", PyStr "invalid_grant")]);
    reflexivity.
Qed.

(** * Further properties of the client *)

Section ClientMore.

Import Management ManagementMisc.

Variable session_send : list PreparedRequest -> PreparedRequest -> Response.
Variable json_dumps : pyval -> string.
Variable py_str : pyval -> string.
Variable self : PulseManagementAPI.

#[local] Abbreviation request := (_api_request session_send json_dumps py_str self).

Lemma api_request_trace path method data sent :
  (request path method data sent).2
  = (sent ++ [prepare json_dumps self path method data])%list.
Proof. unfold _api_request. case_decide; [done|]. by destruct (json _). Qed.

Lemma api_request_result path method data sent :
  let response := session_send sent (prepare json_dumps self path method data) in
  (request path method data sent).1
  = if decide (content response = "") then Returned PyNone
    else match Management.json response with
         | Some v => Returned v
         | None =>
             Raised (PulseManagementException
                       (api_error_message py_str path method data
                          (content response)))
         end.
Proof. simpl. unfold _api_request. case_decide; [done|]. by destruct (json _). Qed.

Lemma sends_one_request path method data :
  sends_one self (request path method data) method (json_dumps data).
Proof.
  intros sent. exists (prepare json_dumps self path method data), path.
  by rewrite api_request_trace.
Qed.

Lemma sends_one_bind {A} (m : M A) method body :
  sends_one self m method body ->
  sends_one self (bind m (fun _ => ret tt)) method body.
Proof.
  intros Hm sent. destruct (Hm sent) as (r & path & Hr & Hrest).
  exists r, path. split; [|done].
  unfold bind, ret. by destruct (m sent) as [[a|e] sent'].
Qed.

(** X1: every method of the client sends exactly one request per call,
    with the credentials of the instance, the JSON content type and a URL
    of the management API; the reads are [GET]s with the payload [null],
    the deletions are [DELETE]s, and [create_user] is a [PUT] whose payload
    is the password and the tags. *)
Theorem every_call_carries_credentials
    (vhost : option string) (v queue username password tags channel : string) :
  sends_one self (queues session_send json_dumps py_str self vhost)
    "GET" (json_dumps PyNone)
  /\ sends_one self (Management.queue session_send json_dumps py_str self v queue)
       "GET" (json_dumps PyNone)
  /\ sends_one self (delete_queue session_send json_dumps py_str self v queue)
       "DELETE" (json_dumps PyNone)
  /\ sends_one self (user session_send json_dumps py_str self username)
       "GET" (json_dumps PyNone)
  /\ sends_one self
       (create_user session_send json_dumps py_str self username password tags)
       "PUT"
       (json_dumps (PyDict [("password", PyStr password); ("tags", PyStr tags)]))
  /\ sends_one self (delete_user session_send json_dumps py_str self username)
       "DELETE" (json_dumps PyNone)
  /\ sends_one self (channels session_send json_dumps py_str self)
       "GET" (json_dumps PyNone)
  /\ sends_one self (Management.channel session_send json_dumps py_str self channel)
       "GET" (json_dumps PyNone).
Proof.
  split_and!; try apply sends_one_request;
    try (apply sends_one_bind, sends_one_request).
  unfold queues. destruct vhost as [x|]; [case_decide|]; apply sends_one_request.
Qed.

(** X2: the deletions and [create_user] never read the status or the
    content of an answer they can parse: they return exactly when the body
    is empty or is JSON, an error object included, and raise
    [PulseManagementException] otherwise. *)
Theorem writes_succeed_on_any_parsable_body
    (v queue username password tags : string) (sent : list PreparedRequest) :
  let outcome_of (m : M unit) (path method : string) (data : pyval) :=
    let response := session_send sent (prepare json_dumps self path method data) in
    (accepted response -> (m sent).1 = Returned tt)
    /\ (~ accepted response ->
        (m sent).1
        = Raised (PulseManagementException
                    (api_error_message py_str path method data
                       (content response)))) in
  outcome_of (delete_queue session_send json_dumps py_str self v queue)
    ("queues/" +:+ Urllib.quote v "" +:+ "/" +:+ Urllib.quote queue "")
    "DELETE" PyNone
  /\ outcome_of (delete_user session_send json_dumps py_str self username)
       ("users/" +:+ Urllib.quote username "") "DELETE" PyNone
  /\ outcome_of
       (create_user session_send json_dumps py_str self username password tags)
       ("users/" +:+ Urllib.quote username "") "PUT"
       (PyDict [("password", PyStr password); ("tags", PyStr tags)]).
Proof.
  assert (Hgen : forall path method data,
            let response :=
              session_send sent (prepare json_dumps self path method data) in
            (accepted response ->
             (bind (request path method data) (fun _ => ret tt) sent).1
             = Returned tt)
            /\ (~ accepted response ->
                (bind (request path method data) (fun _ => ret tt) sent).1
                = Raised (PulseManagementException
                            (api_error_message py_str path method data
                               (content response))))).
  { intros path method data. simpl. unfold bind, ret, accepted.
    pose proof (api_request_result path method data sent) as Hres.
    simpl in Hres.
    destruct (request path method data sent) as [o sent'] eqn:Hrun.
    simpl in Hres. subst o. split.
    - intros [Hc|[x Hx]].
      + by rewrite decide_True.
      + case_decide; [done|]. by rewrite Hx.
    - intros Hno. rewrite decide_False by (intros Hc; apply Hno; by left).
      destruct (Management.json _) as [x|] eqn:Hj; [|done].
      destruct Hno. right. by exists x. }
  simpl. split_and!; apply Hgen.
Qed.

(** *** [delete_all_queues] *)

#[local] Abbreviation record_value :=
  (fun r : string * string * list (string * pyval) =>
     queue_record r.1.1 r.1.2 r.2).
#[local] Abbreviation record_request :=
  (fun r : string * string * list (string * pyval) =>
     delete_request json_dumps self r.1.1 r.1.2).

Lemma delete_queue_of_strings (v n : string) (sent : list PreparedRequest) :
  delete_queue_of session_send json_dumps py_str self (PyStr v) (PyStr n) sent
  = (match (request ("queues/" +:+ Urllib.quote v "" +:+ "/" +:+ Urllib.quote n "")
              "DELETE" PyNone sent).1 with
     | Returned _ => Ok tt
     | Raised e => Err (Exn e)
     end,
     (sent ++ [delete_request json_dumps self v n])%list).
Proof.
  unfold delete_queue_of, mbind, pure, call, mret. simpl.
  pose proof (api_request_trace
                ("queues/" +:+ Urllib.quote v "" +:+ "/" +:+ Urllib.quote n "")
                "DELETE" PyNone sent) as Ht.
  destruct (request _ _ _ sent) as [[a|e] sent']; simpl in *; by subst.
Qed.

Lemma delete_each_cons (v n : string) (more : list (string * pyval))
    (rest : list pyval) (sent : list PreparedRequest) :
  delete_each session_send json_dumps py_str self
    (queue_record v n more :: rest) sent
  = match (request ("queues/" +:+ Urllib.quote v "" +:+ "/" +:+ Urllib.quote n "")
             "DELETE" PyNone sent).1 with
    | Returned _ =>
        delete_each session_send json_dumps py_str self rest
          (sent ++ [delete_request json_dumps self v n])%list
    | Raised e =>
        (Err (Exn e), (sent ++ [delete_request json_dumps self v n])%list)
    end.
Proof.
  cbn [delete_each]. unfold queue_record. simpl Web.py_getitem.
  unfold mbind at 1. unfold pure at 1.
  unfold mbind at 1. unfold pure at 1.
  unfold mbind at 1. rewrite delete_queue_of_strings.
  by destruct (request _ _ _ sent).1.
Qed.

Lemma delete_each_prefix
    (recs : list (string * string * list (string * pyval)))
    (sent : list PreparedRequest) :
  let run :=
    delete_each session_send json_dumps py_str self (record_value <$> recs) sent in
  exists k,
    k <= length recs
    /\ run.2 = (sent ++ (record_request <$> take k recs))%list
    /\ ((run.1 = Ok tt /\ k = length recs)
        \/ ((exists msg, run.1 = Err (Exn (PulseManagementException msg)))
            /\ 0 < k)).
Proof.
  cbv zeta. revert sent. induction recs as [|[[v n] more] recs IH]; intros sent.
  - exists 0. simpl. rewrite app_nil_r. split_and!; [lia|done|by left].
  - rewrite fmap_cons.
    change (record_value (v, n, more)) with (queue_record v n more).
    rewrite delete_each_cons.
    pose proof (api_request_result
                  ("queues/" +:+ Urllib.quote v "" +:+ "/" +:+ Urllib.quote n "")
                  "DELETE" PyNone sent) as Hres. cbv zeta in Hres.
    destruct (request _ _ _ sent).1 as [a|e] eqn:Hrun.
    + destruct (IH (sent ++ [delete_request json_dumps self v n])%list)
        as (k & Hk & Htrace & Hend).
      exists (S k). cbn beta iota. cbn [fst snd]. split_and!.
      * simpl. lia.
      * rewrite Htrace. by rewrite <- app_assoc.
      * destruct Hend as [[Hok ->]|[Hmsg Hpos]]; [left|right]; split;
          try done; lia.
    + exists 1. cbn beta iota. cbn [fst snd]. split_and!.
      * simpl. lia.
      * simpl. rewrite ?take_0. done.
      * right. split; [|lia].
        case_decide; [done|]. destruct (Management.json _); [done|].
        injection Hres as ->. by eexists.
Qed.

Lemma delete_all_queues_run (sent : list PreparedRequest) :
  delete_all_queues session_send json_dumps py_str self sent
  = match (request "queues" "GET" PyNone sent).1 with
    | Returned listing =>
        match py_iter listing with
        | Returned records =>
            delete_each session_send json_dumps py_str self records
              (sent ++ [listing_request json_dumps self])%list
        | Raised e =>
            (Err (Exn e), (sent ++ [listing_request json_dumps self])%list)
        end
    | Raised e => (Err (Exn e), (sent ++ [listing_request json_dumps self])%list)
    end.
Proof.
  cbv zeta. unfold delete_all_queues, queues, listing_request.
  unfold mbind at 1. unfold call at 1.
  pose proof (api_request_trace "queues" "GET" PyNone sent) as Htr.
  destruct (request "queues" "GET" PyNone sent) as [[listing|e] sent'];
    simpl in *; subst sent'; [|done].
  unfold mbind, pure. by destruct (py_iter listing).
Qed.

(** X3: [delete_all_queues] sends the listing request and then one
    [DELETE] for each queue of a prefix of the listing, in the order of the
    listing, each for the percent-encoded vhost and name of its record.  It
    returns only after the whole listing; when it raises, it does so with
    the [PulseManagementException] of the deletion sent last, and the
    queues after that one are left alone. *)
Theorem delete_all_queues_deletes_a_prefix
    (recs : list (string * string * list (string * pyval)))
    (sent : list PreparedRequest) :
  let answer := session_send sent (listing_request json_dumps self) in
  content answer <> "" ->
  Management.json answer = Some (PyList (record_value <$> recs)) ->
  let run := delete_all_queues session_send json_dumps py_str self sent in
  exists k,
    k <= length recs
    /\ run.2 = (sent ++ listing_request json_dumps self
                   :: (record_request <$> take k recs))%list
    /\ ((run.1 = Ok tt /\ k = length recs)
        \/ ((exists msg, run.1 = Err (Exn (PulseManagementException msg)))
            /\ 0 < k)).
Proof.
  cbv zeta. intros Hne Hjson. rewrite delete_all_queues_run.
  pose proof (api_request_result "queues" "GET" PyNone sent) as Hres.
  cbv zeta in Hres. unfold listing_request in Hne, Hjson.
  rewrite decide_False, Hjson in Hres by done. rewrite Hres. cbn [py_iter].
  destruct (delete_each_prefix recs (sent ++ [listing_request json_dumps self])%list)
    as (k & Hk & Htrace & Hend).
  exists k. split_and!; [done| |done].
  rewrite Htrace. by rewrite <- app_assoc.
Qed.

(** X4: when the listing cannot be walked, [delete_all_queues] stops after
    the listing request and deletes nothing: an empty body reads as [None]
    and the loop raises [TypeError]; a body that does not parse raises the
    [PulseManagementException] of the listing; and an empty list is a
    listing with nothing to delete. *)
Theorem delete_all_queues_without_queues (sent : list PreparedRequest) :
  let answer := session_send sent (listing_request json_dumps self) in
  let run := delete_all_queues session_send json_dumps py_str self sent in
  let only_listed := (sent ++ [listing_request json_dumps self])%list in
  (content answer = "" -> run = (Err (Exn TypeError), only_listed))
  /\ (content answer <> "" -> Management.json answer = None ->
      exists msg, run = (Err (Exn (PulseManagementException msg)), only_listed))
  /\ (content answer <> "" -> Management.json answer = Some (PyList []) ->
      run = (Ok tt, only_listed)).
Proof.
  cbv zeta. rewrite delete_all_queues_run.
  pose proof (api_request_result "queues" "GET" PyNone sent) as Hres.
  cbv zeta in Hres. unfold listing_request. rewrite Hres. split_and!.
  - intros He. by rewrite decide_True.
  - intros Hne Hj. rewrite decide_False, Hj by done. by eexists.
  - intros Hne Hj. by rewrite decide_False, Hj by done.
Qed.

(** *** [queue_owner] *)

#[local] Abbreviation queue_request :=
  (fun v n : string =>
     prepare json_dumps self
       ("queues/" +:+ Urllib.quote v "" +:+ "/" +:+ Urllib.quote n "")
       "GET" PyNone).
#[local] Abbreviation channel_request :=
  (fun ch : string =>
     prepare json_dumps self ("channels/" +:+ Urllib.quote ch "") "GET" PyNone).

Lemma queue_of_strings (v n : string) (sent : list PreparedRequest) :
  queue_of session_send json_dumps py_str self (PyStr v) (PyStr n) sent
  = (match (request ("queues/" +:+ Urllib.quote v "" +:+ "/" +:+ Urllib.quote n "")
              "GET" PyNone sent).1 with
     | Returned q => Ok q
     | Raised e => Err (Exn e)
     end,
     (sent ++ [queue_request v n])%list).
Proof.
  unfold queue_of, mbind, pure, call. simpl.
  pose proof (api_request_trace
                ("queues/" +:+ Urllib.quote v "" +:+ "/" +:+ Urllib.quote n "")
                "GET" PyNone sent) as Ht.
  destruct (request _ _ _ sent) as [[a|e] sent']; simpl in *; by subst.
Qed.

Lemma channel_of_string (ch : string) (sent : list PreparedRequest) :
  channel_of session_send json_dumps py_str self (PyStr ch) sent
  = (match (request ("channels/" +:+ Urllib.quote ch "") "GET" PyNone sent).1 with
     | Returned c => Ok c
     | Raised e => Err (Exn e)
     end,
     (sent ++ [channel_request ch])%list).
Proof.
  unfold channel_of, mbind, pure, call. simpl.
  pose proof (api_request_trace ("channels/" +:+ Urllib.quote ch "")
                "GET" PyNone sent) as Ht.
  destruct (request _ _ _ sent) as [[a|e] sent']; simpl in *; by subst.
Qed.

(** The run of [queue_owner] on a record, up to the answer on the queue. *)
Lemma queue_owner_on_record (v n : string) (more : list (string * pyval))
    (sent : list PreparedRequest) :
  queue_owner session_send json_dumps py_str self (queue_record v n more) sent
  = match (request ("queues/" +:+ Urllib.quote v "" +:+ "/" +:+ Urllib.quote n "")
             "GET" PyNone sent).1 with
    | Raised e => (Err (Exn e), (sent ++ [queue_request v n])%list)
    | Returned queue =>
        let sent1 := (sent ++ [queue_request v n])%list in
        match Web.py_getitem queue "consumers" with
        | Raised e => (Err (Exn e), sent1)
        | Returned consumers =>
            if py_lt_one consumers then (Ok PyNone, sent1)
            else
              match Web.py_getitem queue "consumer_details" with
              | Raised e => (Err (Exn e), sent1)
              | Returned details =>
                  match py_first details with
                  | Err e => (Err e, sent1)
                  | Ok consumer =>
                      match Web.py_getitem consumer "channel_details" with
                      | Raised e => (Err (Exn e), sent1)
                      | Returned channel_details =>
                          match Web.py_getitem channel_details "name" with
                          | Raised e => (Err (Exn e), sent1)
                          | Returned channel_name =>
                              mbind
                                (channel_of session_send json_dumps py_str self
                                   channel_name)
                                (fun channel =>
                                   pure (Web.py_getitem channel "user"))
                                sent1
                          end
                      end
                  end
              end
        end
    end.
Proof.
  unfold queue_owner, queue_record. simpl Web.py_getitem.
  unfold mbind at 1. unfold pure at 1.
  unfold mbind at 1. unfold pure at 1.
  unfold mbind at 1. rewrite queue_of_strings.
  destruct (request _ _ _ sent).1 as [queue|e]; [|done]. cbv zeta.
  unfold mbind at 1. unfold pure at 1.
  destruct (Web.py_getitem queue "consumers") as [consumers|e]; [|done].
  destruct (py_lt_one consumers); [done|].
  unfold mbind at 1. unfold pure at 1.
  destruct (Web.py_getitem queue "consumer_details") as [details|e]; [|done].
  unfold mbind at 1.
  destruct (py_first details) as [consumer|e]; [|done].
  unfold mbind at 1. unfold pure at 1.
  destruct (Web.py_getitem consumer "channel_details") as [cd|e]; [|done].
  unfold mbind at 1. unfold pure at 1.
  destruct (Web.py_getitem cd "name") as [ch|e]; done.
Qed.

(** X5: for a queue that reports no consumer ([consumers] below 1),
    [queue_owner] answers [None] after the one request on the queue: it
    asks for no channel, and it does not raise. *)
Theorem queue_owner_without_consumers
    (v n : string) (more : list (string * pyval)) (sent : list PreparedRequest)
    (queue consumers : pyval) :
  let answer := session_send sent (queue_request v n) in
  content answer <> "" -> Management.json answer = Some queue ->
  Web.py_getitem queue "consumers" = Returned consumers ->
  py_lt_one consumers = true ->
  queue_owner session_send json_dumps py_str self (queue_record v n more) sent
  = (Ok PyNone, (sent ++ [queue_request v n])%list).
Proof.
  cbv zeta. intros Hne Hjson Hc Hlt. rewrite queue_owner_on_record.
  pose proof (api_request_result
                ("queues/" +:+ Urllib.quote v "" +:+ "/" +:+ Urllib.quote n "")
                "GET" PyNone sent) as Hres.
  cbv zeta in Hres. rewrite decide_False, Hjson in Hres by done.
  rewrite Hres. cbv zeta. by rewrite Hc, Hlt.
Qed.

(** X6: for a queue with consumers, [queue_owner] asks for the channel of
    the first consumer, by its percent-encoded name, and answers with the
    [user] of that channel; the consumers after the first play no part. *)
Theorem queue_owner_reads_first_consumer
    (v n : string) (more : list (string * pyval)) (sent : list PreparedRequest)
    (queue consumers consumer channel_details : pyval) (others : list pyval)
    (channel_name : string) :
  let answer := session_send sent (queue_request v n) in
  let sent1 := (sent ++ [queue_request v n])%list in
  let channel_answer := session_send sent1 (channel_request channel_name) in
  let run :=
    queue_owner session_send json_dumps py_str self (queue_record v n more) sent in
  content answer <> "" -> Management.json answer = Some queue ->
  Web.py_getitem queue "consumers" = Returned consumers ->
  py_lt_one consumers = false ->
  Web.py_getitem queue "consumer_details" = Returned (PyList (consumer :: others)) ->
  Web.py_getitem consumer "channel_details" = Returned channel_details ->
  Web.py_getitem channel_details "name" = Returned (PyStr channel_name) ->
  run.2 = (sent ++ [queue_request v n; channel_request channel_name])%list
  /\ (forall channel,
        content channel_answer <> "" ->
        Management.json channel_answer = Some channel ->
        run.1 = match Web.py_getitem channel "user" with
                | Returned user => Ok user
                | Raised e => Err (Exn e)
                end)
  /\ (content channel_answer <> "" -> Management.json channel_answer = None ->
      exists msg, run.1 = Err (Exn (PulseManagementException msg))).
Proof.
  cbv zeta. intros Hne Hjson Hc Hlt Hd Hcd Hname. rewrite queue_owner_on_record.
  pose proof (api_request_result
                ("queues/" +:+ Urllib.quote v "" +:+ "/" +:+ Urllib.quote n "")
                "GET" PyNone sent) as Hres.
  cbv zeta in Hres. rewrite decide_False, Hjson in Hres by done.
  rewrite Hres. cbv zeta. rewrite Hc, Hlt, Hd. cbn [py_first].
  rewrite Hcd, Hname. unfold mbind. rewrite channel_of_string.
  pose proof (api_request_result ("channels/" +:+ Urllib.quote channel_name "")
                "GET" PyNone (sent ++ [queue_request v n])%list) as Hch.
  cbv zeta in Hch. rewrite Hch. split_and!.
  - unfold pure. rewrite <- app_assoc.
    by repeat case_match.
  - intros channel Hne2 Hj2. rewrite decide_False, Hj2 by done.
    unfold pure. by destruct (Web.py_getitem channel "user").
  - intros Hne2 Hj2. rewrite decide_False, Hj2 by done. by eexists.
Qed.

(** X7: [queue_owner] raises on an answer it cannot read, and then asks for
    no channel: a record without [vhost] raises the [KeyError] (or
    [TypeError]) of the lookup before any request; an empty body on the
    queue reads as [None] and raises [TypeError]; a queue that counts
    consumers and lists none raises [IndexError]. *)
Theorem queue_owner_unreadable_answers
    (v n : string) (more : list (string * pyval)) (sent : list PreparedRequest) :
  let answer := session_send sent (queue_request v n) in
  let sent1 := (sent ++ [queue_request v n])%list in
  let run :=
    queue_owner session_send json_dumps py_str self (queue_record v n more) sent in
  (forall queue_data e,
     Web.py_getitem queue_data "vhost" = Raised e ->
     queue_owner session_send json_dumps py_str self queue_data sent
     = (Err (Exn e), sent))
  /\ (content answer = "" -> run = (Err (Exn TypeError), sent1))
  /\ (forall queue consumers,
        content answer <> "" -> Management.json answer = Some queue ->
        Web.py_getitem queue "consumers" = Returned consumers ->
        py_lt_one consumers = false ->
        Web.py_getitem queue "consumer_details" = Returned (PyList []) ->
        run = (Err IndexError, sent1)).
Proof.
  cbv zeta. split_and!.
  - intros queue_data e He. unfold queue_owner, mbind, pure. by rewrite He.
  - intros He. rewrite queue_owner_on_record.
    pose proof (api_request_result
                  ("queues/" +:+ Urllib.quote v "" +:+ "/" +:+ Urllib.quote n "")
                  "GET" PyNone sent) as Hres.
    cbv zeta in Hres. rewrite decide_True in Hres by done. by rewrite Hres.
  - intros queue consumers Hne Hjson Hc Hlt Hd. rewrite queue_owner_on_record.
    pose proof (api_request_result
                  ("queues/" +:+ Urllib.quote v "" +:+ "/" +:+ Urllib.quote n "")
                  "GET" PyNone sent) as Hres.
    cbv zeta in Hres. rewrite decide_False, Hjson in Hres by done.
    rewrite Hres. cbv zeta. by rewrite Hc, Hlt, Hd.
Qed.

End ClientMore.

(** * Further properties of the web handlers *)

Section WebMore.

Import Web.

Variable config : Config.
Variable pulse_management : list broker_call -> broker_call -> outcome pyval.
Variable hash_password : string -> string.

(** X8: without an email in the session, every handler behind
    [requires_login] answers with the redirect to the landing page and does
    nothing else: no broker call, no log line, no change of the store, and
    the form is not even read. *)
Theorem anonymous_requests_are_redirected
    (w : world) (n : string) (form : gmap string string)
    (error : option string) (messages : option (list string)) :
  is_none (session_get w "email") = true ->
  delete_queue pulse_management n w = (Returned (redirect "/"), w)
  /\ delete_pulse_user pulse_management n w = (Returned (redirect "/"), w)
  /\ update_info pulse_management hash_password form w
     = (Returned (redirect "/"), w)
  /\ profile error messages w = (Returned (redirect "/"), w)
  /\ register error w = (Returned (redirect "/"), w).
Proof.
  intros Hanon.
  unfold delete_queue, delete_pulse_user, update_info, profile, register,
    requires_login.
  by rewrite Hanon.
Qed.

(** X9: [logout_handler] leaves the store alone and clears the session's
    email, so that on the next request every handler behind
    [requires_login] redirects to the landing page, and, unless a fake
    account is configured, [load_user] finds no user. *)
Theorem logout_ends_the_login (w : world) (f : H response) :
  let w' := (logout_handler w).2 in
  (logout_handler w).1
  = Returned (jsonify [("ok", PyBool true); ("redirect", PyStr "/")])
  /\ session w' !! "email" = Some PyNone
  /\ session w' !! "logged_in" = Some (PyBool false)
  /\ db w' = db w /\ committed w' = committed w /\ broker w' = broker w
  /\ requires_login f w' = (Returned (redirect "/"), w')
  /\ (fake_account config = None ->
      g_user (load_user config w').2 = None
      /\ (load_user config w').1 = Returned tt).
Proof.
  cbv zeta. unfold logout_handler, bind, session_set, ret. simpl.
  assert (Hemail : forall (x y : pyval) (m : gmap string pyval),
            <["logged_in" := x]> (<["email" := y]> m) !! "email" = Some y).
  { intros. by rewrite lookup_insert_ne, lookup_insert_eq by done. }
  split_and!; try done.
  - by rewrite lookup_insert_eq.
  - unfold requires_login, session_get. simpl. by rewrite Hemail.
  - intros Hfake. unfold load_user. rewrite Hfake.
    unfold bind, get_world, session_get. simpl. by rewrite Hemail.
Qed.

(** X10: without a fake account, [load_user] makes [g.user] the user whose
    email the session holds, with the admin flag the store has for it, and
    changes nothing else; a session without email (missing, [None] or
    empty) gives no user. *)
Theorem load_user_follows_the_session (w : world) :
  fake_account config = None ->
  (truthy (session_get w "email") = false ->
   load_user config w = (Returned tt, (set_g_user None w).2))
  /\ (forall e u,
        session_get w "email" = PyStr e -> e <> "" ->
        get_user (db w) e = Some u ->
        load_user config w = (Returned tt, (set_g_user (Some u) w).2)
        /\ email u = e /\ tbl_users (db w) !! e = Some (admin u)).
Proof.
  intros Hfake. unfold load_user. rewrite Hfake. split.
  - intros Hfalse. unfold bind, get_world. by rewrite Hfalse.
  - intros e u He Hne Hu. split_and!.
    + unfold bind, get_world. rewrite He. simpl.
      assert (String.eqb e "" = false) as -> by by apply String.eqb_neq.
      simpl. by rewrite Hu.
    + unfold get_user in Hu. destruct (tbl_users (db w) !! e); [|done].
      by injection Hu as <-.
    + unfold get_user in Hu. destruct (tbl_users (db w) !! e); [|done].
      by injection Hu as <-.
Qed.

(** X11: with a fake account configured, [load_user] logs every request in
    as that account, whatever the session held: the session gets its
    email and the logged-in flag, so [requires_login] lets the request
    through; when the account's user is on record it becomes [g.user] and
    the store is unchanged. *)
Theorem fake_account_logs_everyone_in (w : world) (fake : string) :
  fake_account config = Some fake -> fake <> "" ->
  let w' := (load_user config w).2 in
  session w' !! "email" = Some (PyStr fake)
  /\ session w' !! "logged_in" = Some (PyBool true)
  /\ session w' !! "fake_account" = Some (PyBool true)
  /\ is_none (session_get w' "email") = false
  /\ (forall u, get_user (db w) fake = Some u ->
                g_user w' = Some u /\ db w' = db w /\ committed w' = committed w).
Proof.
  intros Hfake Hne. cbv zeta. unfold load_user. rewrite Hfake.
  destruct fake as [|c fake]; [done|].
  unfold load_fake_account, query_user, new_user.
  unfold bind, get_world, session_set, set_g_user, with_db, db_commit, ret.
  simpl.
  assert (Hs : forall x y z (m : gmap string pyval),
            <["logged_in" := x]> (<["fake_account" := y]> (<["email" := z]> m))
            !! "email" = Some z).
  { intros. by rewrite !lookup_insert_ne, lookup_insert_eq by done. }
  destruct (get_user (db w) (String c fake)) as [u|] eqn:Hu; simpl;
    split_and!; try done;
    try (by rewrite Hs);
    try (by rewrite lookup_insert_eq);
    try (by rewrite lookup_insert_ne, lookup_insert_eq by done);
    try (unfold session_get; simpl; by rewrite Hs).
Qed.

(** X12: the profile view lists users and ownerless queues for admins
    only: anyone else gets two empty lists; an admin gets every user on
    record and exactly the queues whose owner is not set. *)
Theorem profile_lists_for_admins_only
    (w : world) (u : User) (error : option string)
    (messages : option (list string)) :
  logged_in w -> g_user w = Some u ->
  exists users queues,
    profile error messages w
    = (Returned (render_profile users queues error messages), w)
    /\ (admin u = false -> users = [] /\ queues = [])
    /\ (admin u = true ->
        (forall x, x ∈ users <-> tbl_users (db w) !! email x = Some (admin x))
        /\ (forall q, q ∈ queues
                      <-> owner q = None
                          /\ tbl_queues (db w) !! name q = Some None)).
Proof.
  intros Hlog Hu. exists (profile_users w u), (profile_queues w u).
  split; [by apply profile_run|].
  unfold profile_users, profile_queues. split.
  - by intros ->.
  - intros ->. split.
    + intros x. unfold all_users. rewrite list_elem_of_fmap. split.
      * intros ([e a] & -> & Hin). simpl. by apply elem_of_map_to_list in Hin.
      * intros Hx. exists (email x, admin x). split; [by destruct x|].
        by apply elem_of_map_to_list.
    + intros q. unfold no_owner_queues_of. rewrite list_elem_of_fmap. split.
      * intros ([n o] & -> & Hin). simpl.
        apply elem_of_map_to_list, map_lookup_filter_Some in Hin as [Hl Ho].
        simpl in Ho. by subst o.
      * intros [Ho Hl]. exists (name q, None). split.
        -- destruct q as [n o]. simpl in *. by subst o.
        -- by apply elem_of_map_to_list, map_lookup_filter_Some.
Qed.

(** X13: a view behind [requires_login] and [requires_admin] (in that
    order, as on [all_users] and [set_user_admin]) runs for admins only: a
    visitor without login is redirected, a logged-in user who is not an
    admin gets the 404 and the view does not run. *)
Theorem admin_views_need_login_and_admin (f : H response) (w : world) :
  (is_none (session_get w "email") = true ->
   requires_login (requires_admin f) w = (Returned (redirect "/"), w))
  /\ (forall u, logged_in w -> g_user w = Some u -> admin u = false ->
                requires_login (requires_admin f) w
                = (Raised (HTTPException 404), w))
  /\ (forall u, logged_in w -> g_user w = Some u -> admin u = true ->
                requires_login (requires_admin f) w = f w).
Proof.
  unfold requires_login, requires_admin, logged_in. split_and!.
  - by intros ->.
  - intros u -> Hu Ha. unfold bind, the_g_user. by rewrite Hu, Ha.
  - intros u -> Hu Ha. unfold bind, the_g_user. by rewrite Hu, Ha.
Qed.

(** X14: a deletion of a queue that answers [ok=true] has called the
    broker once, for that queue on the default vhost, and committed a store
    in which the queue is no longer found, with the session as it was;
    asked again, the handler answers [ok=false] and does not call the
    broker. *)
Theorem delete_queue_removes_the_record (n : string) (w w' : world) :
  delete_queue pulse_management n w = (Returned ok_true, w') ->
  get_queue (db w') n = None
  /\ committed w' = db w'
  /\ session w' = session w
  /\ broker w' = broker w ++ [call_delete_queue "/" n]
  /\ delete_queue pulse_management n w' = (Returned ok_false, w').
Proof.
  rewrite delete_queue_run. intros Hrun.
  destruct (is_none (session_get w "email")) eqn:Hlog; [done|].
  destruct (get_queue (db w) n) as [q|]; [|done].
  destruct (g_user w) as [u|] eqn:Hu; [|done].
  destruct (may_delete_queue (db w) u q); [|done].
  destruct (pulse_management (broker w) (call_delete_queue "/" n)) as [v|e];
    [|by destruct e].
  injection Hrun as <-. simpl. split_and!; try done.
  - apply get_queue_deleted.
  - rewrite delete_queue_run. unfold session_get in *. simpl.
    by rewrite Hlog, get_queue_deleted.
Qed.

(** X15: a deletion of a pulse user that answers [ok=true] has called the
    broker once, for that user, and committed a store in which the pulse
    user is no longer found; asked again, the handler answers [ok=false]
    and does not call the broker. *)
Theorem delete_pulse_user_removes_the_record (n : string) (w w' : world) :
  delete_pulse_user pulse_management n w = (Returned ok_true, w') ->
  get_pulse_user (db w') n = None
  /\ committed w' = db w'
  /\ session w' = session w
  /\ broker w' = broker w ++ [call_delete_user n]
  /\ delete_pulse_user pulse_management n w'
     = (Returned ok_false, with_request_log n w').
Proof.
  rewrite delete_pulse_user_run. cbv zeta. intros Hrun.
  destruct (is_none (session_get w "email")) eqn:Hlog; [done|].
  destruct (get_pulse_user (db w) n) as [pu|]; [|done].
  destruct (g_user w) as [u|] eqn:Hu; [|done].
  destruct (may_delete_pulse_user u pu); [|done].
  destruct (pulse_management (broker w) (call_delete_user n)) as [v|e];
    [|by destruct e].
  injection Hrun as <-. simpl. split_and!; try done.
  - unfold get_pulse_user. simpl. by rewrite lookup_delete_eq.
  - rewrite delete_pulse_user_run. cbv zeta.
    unfold session_get, get_pulse_user, with_request_log, logging in *. simpl.
    by rewrite Hlog, lookup_delete_eq.
Qed.

(** *** [update_info], the password first *)

Lemma bind_inl_ret (m : H response) (k : list string -> H response) (w : world) :
  bind (bind m (fun r => ret (inl r : response + list string)))
    (fun a => match a with inl r => ret r | inr messages => k messages end) w
  = m w.
Proof. unfold bind, ret. by destruct (m w) as [[r|e] w']. Qed.

Lemma bind_inr_ret (m : H unit) (messages : list string)
    (k : list string -> H response) (w : world) :
  bind (bind m (fun _ => ret (inr messages : response + list string)))
    (fun a => match a with inl r => ret r | inr messages => k messages end) w
  = bind m (fun _ => k messages) w.
Proof. unfold bind, ret. by destruct (m w) as [[[]|e] w']. Qed.

(** [update_info] once it has let an owner through. *)
Lemma update_info_as_owner
    (form : gmap string string) (w : world) (u : User) (pu : PulseUser)
    (pn pw pv ol : string) :
  logged_in w -> g_user w = Some u -> update_form form pn pw pv ol ->
  get_pulse_user (db w) pn = Some pu -> email u ∈ owners pu ->
  update_info pulse_management hash_password form w
  = if String.eqb pw "" then finish_update pu (_clean_owners_str ol) [] w
    else if negb (String.eqb pw pv)
    then profile (Some "Password verification doesn't match the password.")
           None w
    else if negb (strong_password pw)
    then profile
           (Some ("Your password must contain a mix of letters and numerical "
                    +:+ "characters and be at least 6 characters long."))
           None w
    else bind (change_password pulse_management hash_password pu pw)
           (fun _ => finish_update pu (_clean_owners_str ol)
                       ["Password updated for user " +:+ pn +:+ "."]) w.
Proof.
  intros Hlog Hu (Hf1 & Hf2 & Hf3 & Hf4) Hpu Hown.
  unfold update_info, requires_login. rewrite Hlog.
  unfold bind at 1. unfold form_get at 1. rewrite Hf1. unfold ret at 1.
  unfold bind at 1. unfold form_get at 1. rewrite Hf2. unfold ret at 1.
  unfold bind at 1. unfold form_get at 1. rewrite Hf3. unfold ret at 1.
  unfold bind at 1. unfold form_get at 1. rewrite Hf4. unfold ret at 1.
  unfold bind at 1. unfold get_world at 1.
  rewrite Hpu, Hu. rewrite bool_decide_eq_true_2 by done. cbn [negb].
  destruct (String.eqb pw "") eqn:Hempty; cbn [negb].
  - unfold finish_update. unfold bind at 1. unfold ret at 1. done.
  - destruct (negb (String.eqb pw pv)); [by rewrite bind_inl_ret|].
    destruct (negb (strong_password pw)); [by rewrite bind_inl_ret|].
    by rewrite bind_inr_ret.
Qed.

(** X16: [update_info] looks at the new password before the owners: a
    password whose verification differs, or a confirmed password that is
    not strong, ends the request with the matching error, and then nothing
    is changed and the broker is not called, whatever owners list came
    with it. *)
Theorem update_info_checks_password_first
    (form : gmap string string) (w : world) (u : User) (pu : PulseUser)
    (pn pw pv ol : string) :
  logged_in w -> g_user w = Some u -> update_form form pn pw pv ol ->
  get_pulse_user (db w) pn = Some pu -> email u ∈ owners pu ->
  pw <> "" ->
  (pw <> pv ->
   update_info pulse_management hash_password form w
   = (Returned
        (render_profile (profile_users w u) (profile_queues w u)
           (Some "Password verification doesn't match the password.") None),
      w))
  /\ (pw = pv -> strong_password pw = false ->
      update_info pulse_management hash_password form w
      = (Returned
           (render_profile (profile_users w u) (profile_queues w u)
              (Some ("Your password must contain a mix of letters and "
                       +:+ "numerical characters and be at least 6 "
                       +:+ "characters long."))
              None),
         w)).
Proof.
  intros Hlog Hu Hform Hpu Hown Hne.
  rewrite (update_info_as_owner form w u pu pn pw pv ol) by done.
  assert (String.eqb pw "" = false) as -> by by apply String.eqb_neq.
  split.
  - intros Hdiff.
    assert (String.eqb pw pv = false) as -> by by apply String.eqb_neq.
    cbn [negb]. by apply profile_run.
  - intros <- Hweak. rewrite String.eqb_refl, Hweak. cbn [negb].
    by rewrite (profile_run _ _ w u).
Qed.

(** X17: [update_info] without a new password and with an owners list
    that, once cleaned, is empty or names exactly the current owners
    answers [No info updated.] and changes nothing. *)
Theorem update_info_without_changes
    (form : gmap string string) (w : world) (u : User) (pu : PulseUser)
    (pn pv ol : string) :
  logged_in w -> g_user w = Some u -> update_form form pn "" pv ol ->
  get_pulse_user (db w) pn = Some pu -> email u ∈ owners pu ->
  _clean_owners_str ol = ∅ \/ _clean_owners_str ol = owners pu ->
  update_info pulse_management hash_password form w
  = (Returned
       (render_profile (profile_users w u) (profile_queues w u) None
          (Some ["No info updated."])), w).
Proof.
  intros Hlog Hu Hform Hpu Hown Hsame.
  rewrite (update_info_as_owner form w u pu pn "" pv ol) by done.
  cbn [String.eqb]. unfold finish_update, update_owners.
  unfold bind at 1. unfold bind at 1. unfold get_world at 1.
  assert (bool_decide (_clean_owners_str ol ≠ ∅)
          && bool_decide (_clean_owners_str ol ≠ owners pu) = false) as ->.
  { destruct Hsame as [He|He]; rewrite He.
    - by rewrite bool_decide_eq_false_2 by (intros Hx; by apply Hx).
    - rewrite andb_comm.
      by rewrite bool_decide_eq_false_2 by (intros Hx; by apply Hx). }
  unfold ret at 1. by apply profile_run.
Qed.

(** *** [register_handler] *)

(** The existence check calls the broker once and touches nothing else. *)
Lemma in_rabbitmq_world (username : string) (w : world) :
  (in_rabbitmq pulse_management username w).2
  = (broker_do pulse_management (call_user username) w).2.
Proof.
  unfold in_rabbitmq, bind, try_except, broker_do, ret, lift. simpl.
  destruct (pulse_management (broker w) (call_user username)) as [v|[]]; simpl;
    try done.
  by destruct (py_contains "error" v) as [[]|e].
Qed.

Lemma register_handler_run
    (form : gmap string string) (w : world)
    (username password pv ol : string) (em : pyval) :
  register_form form username password pv ol ->
  session w !! "email" = Some em ->
  register_handler config pulse_management hash_password form w
  = match in_rabbitmq pulse_management username w with
    | (Raised e, w1) => (Raised e, w1)
    | (Returned in_rabbit, w1) =>
        let errors :=
          validation_errors config username password pv
          ++ (if in_rabbit
                 || bool_decide (is_Some (get_pulse_user (db w1) username))
              then [username_taken_message] else []) in
        match errors with
        | _ :: _ => (Returned (render_register em None (Some errors)), w1)
        | [] =>
            match users_with_email_in (db w1) (_clean_owners_str ol) with
            | [] =>
                register
                  (Some ("Invalid owners list: " +:+
                         (if String.eqb ol "" then "None" else ol))) w1
            | owner_users =>
                bind (new_pulse_user pulse_management hash_password
                        username password owner_users)
                  (fun _ => ret (redirect "/profile")) w1
            end
        end
    end.
Proof.
  intros (Hf1 & Hf2 & Hf3 & Hf4) Hs. unfold register_handler.
  unfold bind at 1. unfold form_get at 1. rewrite Hf1. unfold ret at 1.
  unfold bind at 1. unfold form_get at 1. rewrite Hf2. unfold ret at 1.
  unfold bind at 1. unfold form_get at 1. rewrite Hf3. unfold ret at 1.
  unfold bind at 1. unfold form_get at 1. rewrite Hf4. unfold ret at 1.
  unfold bind at 1. unfold get_world at 1.
  unfold bind at 1. rewrite Hs. unfold ret at 1.
  unfold bind at 1.
  destruct (in_rabbitmq pulse_management username w) as [[in_rabbit|e] w1];
    [|done].
  unfold bind at 1. unfold get_world at 1. cbv zeta.
  fold (validation_errors config username password pv).
  unfold username_taken_message.
  destruct (in_rabbit || bool_decide (is_Some (get_pulse_user (db w1) username))).
  - destruct (validation_errors config username password pv); done.
  - rewrite app_nil_r.
    destruct (validation_errors config username password pv); [|done].
    by destruct (users_with_email_in (db w1) (_clean_owners_str ol)).
Qed.

Lemma validation_errors_nil (username password pv : string) :
  validation_errors config username password pv = []
  <-> password = pv /\ strong_password password = true
      /\ username_match username = true
      /\ (forall reserved, reserved_users_regex config = Some reserved ->
                           reserved username = false).
Proof.
  unfold validation_errors. cbn [app].
  destruct (String.eqb password pv) eqn:Heq; cbn [negb].
  - apply String.eqb_eq in Heq as ->.
    destruct (strong_password pv), (username_match username); cbn [negb app];
      destruct (reserved_users_regex config) as [reserved|];
      try destruct (reserved username) eqn:Hr; cbn [app];
      split; try done; try (intros (_ & ? & ? & ?); done);
      try (by intros (_ & _ & _ & Hres); specialize (Hres _ eq_refl); congruence).
    + intros _. split_and!; try done. by intros r [= <-].
  - apply String.eqb_neq in Heq.
    destruct (username_match username); cbn [negb app];
      destruct (reserved_users_regex config) as [reserved|];
      try destruct (reserved username); cbn [app];
      split; try done; by intros [? _].
Qed.

(** X18: [register_handler] answers with the redirect to the profile only
    for a request that passed every check: the password equals its
    verification and is strong, the username has the required shape and is
    not reserved, the broker lookup said the user does not exist, no pulse
    user of that name is on record, and at least one requested owner is a
    user on record. *)
Theorem registration_succeeds_only_when_valid
    (form : gmap string string) (w w' : world)
    (username password pv ol : string) :
  register_form form username password pv ol ->
  register_handler config pulse_management hash_password form w
  = (Returned (redirect "/profile"), w') ->
  password = pv /\ strong_password password = true
  /\ username_match username = true
  /\ (forall reserved, reserved_users_regex config = Some reserved ->
                       reserved username = false)
  /\ (in_rabbitmq pulse_management username w).1 = Returned false
  /\ get_pulse_user (db w) username = None
  /\ users_with_email_in (db w) (_clean_owners_str ol) <> [].
Proof.
  intros Hform Hrun.
  destruct (session w !! "email") as [em|] eqn:Hs.
  - rewrite (register_handler_run form w username password pv ol em) in Hrun
      by done.
    pose proof (in_rabbitmq_world username w) as Hw.
    destruct (in_rabbitmq pulse_management username w) as [[in_rabbit|e] w1];
      [|done].
    simpl in Hw. subst w1. cbv zeta in Hrun. simpl db in Hrun.
    destruct (validation_errors config username password pv) as [|x l] eqn:Herr;
      [|done].
    apply validation_errors_nil in Herr as (-> & Hstrong & Hshape & Hres).
    destruct in_rabbit; [done|]. cbn [orb app] in Hrun.
    destruct (bool_decide (is_Some (get_pulse_user (db w) username))) eqn:Hloc;
      [done|].
    apply bool_decide_eq_false in Hloc.
    destruct (users_with_email_in (db w) (_clean_owners_str ol)) as [|o os] eqn:Ho.
    + unfold register, requires_login in Hrun.
      by destruct (is_none _).
    + split_and!; try done.
      destruct (get_pulse_user (db w) username) eqn:Hg; [|done].
      destruct Hloc. by eexists.
  - destruct Hform as (Hf1 & Hf2 & Hf3 & Hf4). unfold register_handler in Hrun.
    unfold bind at 1 in Hrun. unfold form_get at 1 in Hrun.
    rewrite Hf1 in Hrun. unfold ret at 1 in Hrun.
    unfold bind at 1 in Hrun. unfold form_get at 1 in Hrun.
    rewrite Hf2 in Hrun. unfold ret at 1 in Hrun.
    unfold bind at 1 in Hrun. unfold form_get at 1 in Hrun.
    rewrite Hf3 in Hrun. unfold ret at 1 in Hrun.
    unfold bind at 1 in Hrun. unfold form_get at 1 in Hrun.
    rewrite Hf4 in Hrun. unfold ret at 1 in Hrun.
    unfold bind at 1 in Hrun. unfold get_world at 1 in Hrun.
    unfold bind at 1 in Hrun. by rewrite Hs in Hrun.
Qed.

(** X19: a username that the broker reports as existing, or that names a
    pulse user on record, is turned down: the registration page comes back
    with the message on the existing user among its errors, the store is
    unchanged, and the only broker call made is the lookup. *)
Theorem registration_rejects_taken_username
    (form : gmap string string) (w : world)
    (username password pv ol : string) (em : pyval) (in_rabbit : bool) :
  register_form form username password pv ol ->
  session w !! "email" = Some em ->
  (in_rabbitmq pulse_management username w).1 = Returned in_rabbit ->
  in_rabbit = true \/ is_Some (get_pulse_user (db w) username) ->
  exists errors w1,
    register_handler config pulse_management hash_password form w
    = (Returned (render_register em None (Some errors)), w1)
    /\ username_taken_message ∈ errors
    /\ db w1 = db w /\ committed w1 = committed w
    /\ broker w1 = broker w ++ [call_user username].
Proof.
  intros Hform Hs Hin Htaken.
  rewrite (register_handler_run form w username password pv ol em) by done.
  pose proof (in_rabbitmq_world username w) as Hw.
  destruct (in_rabbitmq pulse_management username w) as [o w1].
  simpl in Hin, Hw. subst o w1. cbv zeta. simpl db.
  assert (in_rabbit || bool_decide (is_Some (get_pulse_user (db w) username))
          = true) as ->.
  { destruct Htaken as [->|Hloc]; [done|].
    rewrite (bool_decide_eq_true_2 _ Hloc). by rewrite orb_true_r. }
  destruct (validation_errors config username password pv) as [|x l];
    cbn [app]; eexists _, _; (split; [reflexivity|]); split_and!; try done.
  - by apply list_elem_of_singleton.
  - apply elem_of_cons. right. apply elem_of_app. right.
    by apply list_elem_of_singleton.
Qed.

(** X20: a request that passed the checks but names no owner on record
    creates nothing: no pulse user is added, the broker is only asked
    whether the user exists, and the registration page comes back with the
    owners list as it was typed, or [None] when it was empty. *)
Theorem registration_echoes_unknown_owners
    (form : gmap string string) (w : world)
    (username password ol : string) (em : pyval) :
  register_form form username password password ol ->
  session w !! "email" = Some em -> is_none em = false ->
  strong_password password = true -> username_match username = true ->
  (forall reserved, reserved_users_regex config = Some reserved ->
                    reserved username = false) ->
  (in_rabbitmq pulse_management username w).1 = Returned false ->
  get_pulse_user (db w) username = None ->
  users_with_email_in (db w) (_clean_owners_str ol) = [] ->
  exists w1,
    register_handler config pulse_management hash_password form w
    = (Returned
         (render_register em
            (Some ("Invalid owners list: " +:+
                   (if String.eqb ol "" then "None" else ol))) None), w1)
    /\ db w1 = db w /\ committed w1 = committed w
    /\ broker w1 = broker w ++ [call_user username].
Proof.
  intros Hform Hs Hnone Hstrong Hshape Hres Hin Hloc Hown.
  rewrite (register_handler_run form w username password password ol em)
    by done.
  pose proof (in_rabbitmq_world username w) as Hw.
  destruct (in_rabbitmq pulse_management username w) as [o w1].
  simpl in Hin, Hw. subst o w1. cbv zeta. simpl db.
  assert (validation_errors config username password password = []) as ->
    by by apply validation_errors_nil.
  rewrite Hloc, Hown. cbn [orb app].
  rewrite bool_decide_eq_false_2 by (by intros [? ?]).
  unfold register, requires_login, session_get. simpl session.
  rewrite Hs. simpl. rewrite Hnone.
  eexists. split; [reflexivity|]. done.
Qed.

End WebMore.

(** * The owners string and the username pattern *)

Section Strings.

Import Web.

Lemma split_on_nonempty sep s : split_on sep s <> [].
Proof.
  destruct s as [|c s]; simpl; [done|].
  destruct (Ascii.eqb c sep); [done|]. by destruct (split_on sep s).
Qed.

Lemma split_on_concat sep a b :
  split_on sep (a +:+ String sep b) = split_on sep a ++ split_on sep b.
Proof.
  induction a as [|c a IH].
  - simpl. by rewrite Ascii.eqb_refl.
  - rewrite append_cons. simpl. rewrite IH.
    destruct (Ascii.eqb c sep); [done|].
    pose proof (split_on_nonempty sep a) as Hne.
    by destruct (split_on sep a).
Qed.

Lemma clean_owners_concat a b :
  _clean_owners_str (a +:+ "," +:+ b)
  = _clean_owners_str a ∪ _clean_owners_str b.
Proof.
  unfold _clean_owners_str.
  change (a +:+ "," +:+ b) with (a +:+ String "," b).
  by rewrite split_on_concat, filter_app, fmap_app, list_to_set_app_L.
Qed.

(** X21: the cleaned owners of two lists joined by a comma are the union
    of the cleaned owners of each, so neither the order of the entries nor
    a repeated entry changes the result, and an entry left empty between
    two commas adds nothing. *)
Theorem clean_owners_is_a_union (a b : string) :
  _clean_owners_str (a +:+ "," +:+ b)
  = _clean_owners_str a ∪ _clean_owners_str b
  /\ _clean_owners_str (a +:+ "," +:+ b) = _clean_owners_str (b +:+ "," +:+ a)
  /\ _clean_owners_str (a +:+ "," +:+ a) = _clean_owners_str a
  /\ _clean_owners_str (a +:+ "," +:+ "" +:+ "," +:+ b)
     = _clean_owners_str (a +:+ "," +:+ b).
Proof.
  rewrite !clean_owners_concat. split_and!; [done|set_solver|set_solver|].
  assert (_clean_owners_str "" = ∅) as -> by done. set_solver.
Qed.

Lemma blank_has_no_comma tok : lstrip tok = "" -> has_char "," tok = false.
Proof.
  unfold has_char. induction tok as [|c tok IH]; simpl; [done|].
  destruct (is_whitespace c) eqn:Hc; [|done].
  intros Hrest. rewrite (IH Hrest), orb_false_r.
  by destruct c as [[] [] [] [] [] [] [] []].
Qed.

(** X22: an entry made of white space only is not dropped like an empty
    one: it is kept, stripped, so the cleaned owners then hold the empty
    email. *)
Theorem blank_owner_entry_is_kept (tok a b : string) :
  tok <> "" -> lstrip tok = "" ->
  _clean_owners_str tok = {[ "" ]}
  /\ "" ∈ _clean_owners_str (a +:+ "," +:+ tok +:+ "," +:+ b).
Proof.
  intros Hne Hblank.
  assert (Hone : _clean_owners_str tok = {[ "" ]}).
  { unfold _clean_owners_str.
    rewrite split_on_whole by by apply blank_has_no_comma.
    rewrite filter_cons_True by done. rewrite filter_nil. simpl.
    unfold strip. rewrite Hblank. set_solver. }
  split; [done|]. rewrite !clean_owners_concat, Hone. set_solver.
Qed.

Lemma username_char_is_safe c :
  username_char c = true -> Urllib.quoter "" c = String c EmptyString.
Proof. destruct c as [[] [] [] [] [] [] [] []]; by intros. Qed.

Lemma username_char_not_newline c :
  username_char c = true -> Ascii.eqb c (ascii_of_nat 10) = false.
Proof. destruct c as [[] [] [] [] [] [] [] []]; by intros. Qed.

Lemma username_tail_quote s :
  username_tail s = true -> has_char (ascii_of_nat 10) s = false ->
  Urllib.quote s "" = s.
Proof.
  unfold has_char. induction s as [|c s IH]; [done|].
  cbn [username_tail string_existsb Urllib.quote].
  destruct (username_char c) eqn:Hc.
  - intros Ht [_ Hs]%orb_false_elim.
    by rewrite (username_char_is_safe c Hc), append_cons, (IH Ht Hs).
  - intros [Hnl _]%andb_true_iff [Hc' _]%orb_false_elim. congruence.
Qed.

Lemma accepted_usernames_need_no_encoding_aux (username : string) :
  username_match username = true ->
  has_char (ascii_of_nat 10) username = false ->
  Urllib.quote username "" = username /\ has_char "/" username = false.
Proof.
  intros Hm Hnl.
  assert (Hq : Urllib.quote username "" = username).
  { destruct username as [|c s]; [done|]. simpl in Hm.
    apply andb_true_iff in Hm as [Hc Ht].
    unfold has_char in Hnl. simpl in Hnl.
    apply orb_false_elim in Hnl as [_ Hs].
    cbn [Urllib.quote]. rewrite (username_tail_quote s Ht Hs).
    assert (username_char c = true) as Hu
      by (unfold username_char; by rewrite Hc).
    by rewrite (username_char_is_safe c Hu). }
  split; [done|]. rewrite <- Hq. apply quote_no_slash.
Qed.

(** X23: a username that passes the pattern of the registration and holds
    no line feed is made of characters that percent-encoding leaves alone:
    the broker client sends it in the path as it is, as one segment, and it
    holds no slash. *)
Theorem accepted_usernames_need_no_encoding (username : string) :
  username_match username = true ->
  has_char (ascii_of_nat 10) username = false ->
  Urllib.quote username "" = username
  /\ has_char "/" username = false
  /\ split_on "/" ("users/" +:+ Urllib.quote username "") = ["users"; username].
Proof.
  intros Hm Hnl.
  destruct (accepted_usernames_need_no_encoding_aux username Hm Hnl) as [Hq Hs].
  split_and!; [done|done|]. rewrite Hq.
  change ("users/" +:+ username) with ("users" +:+ String "/" username).
  rewrite split_on_sep by done. by rewrite split_on_whole.
Qed.

Lemma username_tail_newline s :
  username_tail s = true -> has_char (ascii_of_nat 10) s = false ->
  username_tail (s +:+ newline) = true.
Proof.
  unfold has_char. induction s as [|c s IH]; [done|].
  rewrite append_cons. cbn [username_tail string_existsb].
  destruct (username_char c) eqn:Hc.
  - intros Ht [_ Hs]%orb_false_elim. by apply IH.
  - intros [Hnl _]%andb_true_iff [Hc' _]%orb_false_elim. congruence.
Qed.

(** X24: the pattern of the registration also accepts an accepted username
    followed by one line feed (the [$] of [re.match] matches before a final
    line feed), and the broker client then encodes the line feed as
    [%0A]. *)
Theorem username_pattern_accepts_final_newline (username : string) :
  username_match username = true ->
  has_char (ascii_of_nat 10) username = false ->
  username_match (username +:+ newline) = true
  /\ Urllib.quote (username +:+ newline) "" = username +:+ "%0A".
Proof.
  intros Hm Hnl. split.
  - destruct username as [|c s]; [done|]. simpl in Hm.
    apply andb_true_iff in Hm as [Hc Ht].
    unfold has_char in Hnl. simpl in Hnl.
    apply orb_false_elim in Hnl as [_ Hs].
    rewrite append_cons. cbn [username_match]. rewrite Hc.
    by apply username_tail_newline.
  - assert (Hq : forall s, Urllib.quote (s +:+ newline) ""
                           = Urllib.quote s "" +:+ "%0A").
    { induction s as [|c s IH]; [done|].
      rewrite append_cons. cbn [Urllib.quote]. by rewrite IH, append_assoc. }
    rewrite Hq.
    destruct (accepted_usernames_need_no_encoding_aux username Hm Hnl)
      as [Hsame _].
    by rewrite Hsame.
Qed.

End Strings.

(** * Further properties of the callback *)

Section CallbackMore.

Import Web.

Variable config : Config.
Variable requests_post : string -> string -> outcome http_response.
Variable requests_get : string -> outcome http_response.
Variable json_dumps : pyval -> string.
Variable py_str : pyval -> string.

#[local] Abbreviation callback :=
  (callback_handling config requests_post requests_get json_dumps py_str).
#[local] Abbreviation userinfo_url :=
  (fun access_token : pyval =>
     "https://" +:+ auth0_domain config +:+ "/userinfo?access_token="
       +:+ py_str access_token).

(** The callback, exchange by exchange. *)
Lemma callback_run (code : pyval) (w : world) :
  callback code w
  = match token_request config requests_post json_dumps code with
    | Raised e => (Raised e, w)
    | Returned token_resp =>
        match json token_resp with
        | None => (Raised ValueError, w)
        | Some token_info =>
            match py_getitem token_info "access_token" with
            | Raised e => (Raised e, w)
            | Returned access_token =>
                match requests_get (userinfo_url access_token) with
                | Raised e => (Raised e, w)
                | Returned resp =>
                    if ok resp then
                      match json resp with
                      | None => (Raised ValueError, w)
                      | Some user_info =>
                          match py_getitem user_info "email" with
                          | Raised e => (Raised e, w)
                          | Returned email =>
                              bind (session_set "email" email)
                                (fun _ =>
                                   bind (session_set "logged_in" (PyBool true))
                                     (fun _ =>
                                        bind (query_user email)
                                          (fun found =>
                                             bind
                                               match found with
                                               | Some u => ret u
                                               | None => new_user email
                                               end
                                               (fun user =>
                                                  bind get_world
                                                    (fun w0 =>
                                                       match pulse_users_of (db w0) user with
                                                       | _ :: _ => ret (redirect "/")
                                                       | [] => ret (redirect "/register")
                                                       end))))) w
                          end
                      end
                    else
                      let error_msg :=
                        "Error verifying with Auth0 (" +:+ auth0_domain config
                          +:+ ")" in
                      bind (flash error_msg) (fun _ => ret (redirect "/"))
                        {| db := db w; committed := committed w;
                           session := session w; g_user := g_user w;
                           flashes := flashes w;
                           logs := (logs w ++ [(ERROR, error_msg)])
                                     ++ [(ERROR, text resp)];
                           broker := broker w |}
                end
            end
        end
    end.
Proof.
  unfold callback_handling, token_request.
  unfold bind at 1. unfold lift at 1.
  destruct (requests_post _ _) as [token_resp|e]; [|done].
  unfold bind at 1. unfold response_json at 1.
  destruct (json token_resp) as [token_info|]; [|done]. unfold ret at 1.
  unfold bind at 1. unfold lift at 1.
  destruct (py_getitem token_info "access_token") as [access_token|e]; [|done].
  unfold bind at 1. unfold lift at 1.
  destruct (requests_get _) as [resp|e]; [|done].
  destruct (ok resp); [|done].
  unfold bind at 1. unfold response_json at 1.
  destruct (json resp) as [user_info|]; [|done]. unfold ret at 1.
  unfold bind at 1. unfold lift at 1.
  by destruct (py_getitem user_info "email").
Qed.

(** X25: when both exchanges succeed and the profile's email names a user
    on record, the callback stores the email and the logged-in flag in the
    session, leaves the store alone, and sends the user to the landing page
    when some pulse user lists them as an owner, to the registration
    otherwise. *)
Theorem callback_logs_in_a_known_user
    (code : pyval) (w : world) (token_resp resp : http_response)
    (token_info access_token user_info : pyval) (e : string) (u : User) :
  token_request config requests_post json_dumps code = Returned token_resp ->
  json token_resp = Some token_info ->
  py_getitem token_info "access_token" = Returned access_token ->
  requests_get (userinfo_url access_token) = Returned resp ->
  ok resp = true -> json resp = Some user_info ->
  py_getitem user_info "email" = Returned (PyStr e) ->
  get_user (db w) e = Some u ->
  let w' := (callback code w).2 in
  session w' = <["logged_in" := PyBool true]> (<["email" := PyStr e]> (session w))
  /\ db w' = db w /\ committed w' = committed w
  /\ flashes w' = flashes w /\ logs w' = logs w
  /\ ((exists pn row, tbl_pulse_users (db w) !! pn = Some row /\ e ∈ row.2) ->
      (callback code w).1 = Returned (redirect "/"))
  /\ ((forall pn row, tbl_pulse_users (db w) !! pn = Some row -> e ∉ row.2) ->
      (callback code w).1 = Returned (redirect "/register")).
Proof.
  intros Hpost Hj Ht Hget Hok Hj2 He Hu. cbv zeta.
  rewrite callback_run, Hpost, Hj, Ht, Hget, Hok, Hj2, He.
  unfold bind, session_set, query_user, get_world, ret. simpl. rewrite Hu. simpl.
  assert (Hmail : email u = e).
  { unfold get_user in Hu. destruct (tbl_users (db w) !! e); [|done].
    by injection Hu as <-. }
  destruct (pulse_users_of (db w) u) as [|p ps] eqn:Hp; simpl;
    split_and!; try done.
  - intros (pn & row & Hrow & Hin). exfalso.
    assert (Helem : {| username := pn; password_hash := row.1; owners := row.2 |}
                    ∈ pulse_users_of (db w) u).
    { unfold pulse_users_of. apply list_elem_of_fmap. exists (pn, row).
      split; [done|]. apply elem_of_map_to_list, map_lookup_filter_Some.
      split; [done|]. simpl. by rewrite Hmail. }
    rewrite Hp in Helem. by apply elem_of_nil in Helem.
  - intros Hnone. exfalso.
    assert (Helem : p ∈ pulse_users_of (db w) u) by (rewrite Hp; left).
    unfold pulse_users_of in Helem.
    apply list_elem_of_fmap in Helem as ([pn row] & _ & Hin).
    apply elem_of_map_to_list, map_lookup_filter_Some in Hin as [Hrow Hown].
    simpl in Hown. rewrite Hmail in Hown. by apply (Hnone pn row).
Qed.

(** X26: the callback writes the login into the session only after both
    exchanges with the identity provider have answered: whenever a key of
    the session other than the flashes differs after the callback, it is
    the email or the logged-in flag, the token endpoint gave an answer
    that parsed and held an [access_token], and the profile fetch
    succeeded with a profile that parsed and held an [email]. *)
Theorem callback_session_needs_both_exchanges
    (code : pyval) (w : world) (k : string) :
  k <> "_flashes" ->
  session (callback code w).2 !! k <> session w !! k ->
  (k = "email" \/ k = "logged_in")
  /\ exists token_resp token_info access_token resp user_info email,
       token_request config requests_post json_dumps code = Returned token_resp
       /\ json token_resp = Some token_info
       /\ py_getitem token_info "access_token" = Returned access_token
       /\ requests_get (userinfo_url access_token) = Returned resp
       /\ ok resp = true
       /\ json resp = Some user_info
       /\ py_getitem user_info "email" = Returned email.
Proof.
  intros Hk. rewrite callback_run.
  destruct (token_request config requests_post json_dumps code)
    as [token_resp|e0] eqn:H1; [|by intros []].
  destruct (json token_resp) as [token_info|] eqn:H2; [|by intros []].
  destruct (py_getitem token_info "access_token") as [access_token|e0] eqn:H3;
    [|by intros []].
  destruct (requests_get (userinfo_url access_token)) as [resp|e0] eqn:H4;
    [|by intros []].
  destruct (ok resp) eqn:H5.
  - destruct (json resp) as [user_info|] eqn:H6; [|by intros []].
    destruct (py_getitem user_info "email") as [mail|e0] eqn:H7;
      [|by intros []].
    intros Hdiff. split.
    + destruct (decide (k = "email")) as [|Hne1]; [by left|].
      destruct (decide (k = "logged_in")) as [|Hne2]; [by right|].
      exfalso. apply Hdiff.
      unfold bind, session_set, query_user, new_user, get_world, ret,
        raise, with_db, db_commit.
      destruct mail; simpl; try by rewrite !lookup_insert_ne.
      destruct (get_user (db w) s); simpl;
        destruct (pulse_users_of _ _); simpl; by rewrite !lookup_insert_ne.
    + by exists token_resp, token_info, access_token, resp, user_info, mail.
  - cbv zeta. unfold bind, flash, ret. cbn [session].
    destruct (default (PyList []) (session w !! "_flashes"));
      try by intros [].
    cbn [snd session]. rewrite lookup_insert_ne by done. by intros [].
Qed.

(** X27: when the profile fetch does not succeed, the callback logs the
    notice and the body received as errors, flashes the notice, which
    names the configured domain, and redirects to the landing page.  The
    flash adds the notice to the flashes the session holds (they are a
    list whenever [flash] has put them there); the login in the session
    and the store stay as they were. *)
Theorem callback_falls_back_on_profile_failure
    (code : pyval) (w : world) (token_resp resp : http_response)
    (token_info access_token : pyval) (shown : list pyval) :
  token_request config requests_post json_dumps code = Returned token_resp ->
  json token_resp = Some token_info ->
  py_getitem token_info "access_token" = Returned access_token ->
  requests_get (userinfo_url access_token) = Returned resp ->
  ok resp = false ->
  default (PyList []) (session w !! "_flashes") = PyList shown ->
  let w' := (callback code w).2 in
  exists notice,
    (callback code w).1 = Returned (redirect "/")
    /\ is_infix (auth0_domain config) notice
    /\ flashes w' = flashes w ++ [notice]
    /\ logs w' = logs w ++ [(ERROR, notice); (ERROR, text resp)]
    /\ session w'
       = <["_flashes" := PyList (shown ++ [PyTuple [PyStr "message"; PyStr notice]])]>
           (session w)
    /\ session w' !! "email" = session w !! "email"
    /\ session w' !! "logged_in" = session w !! "logged_in"
    /\ db w' = db w /\ committed w' = committed w.
Proof.
  intros Hpost Hj Ht Hget Hok Hshown. cbv zeta.
  rewrite callback_run, Hpost, Hj, Ht, Hget, Hok. cbv zeta.
  unfold bind, flash, ret. cbn [session]. rewrite Hshown. cbn [fst snd].
  eexists. split_and!; try done.
  - apply is_infix_app_l, is_infix_head.
  - simpl. by rewrite <- app_assoc.
  - simpl. by rewrite lookup_insert_ne.
  - simpl. by rewrite lookup_insert_ne.
Qed.

End CallbackMore.

(** * The further properties at concrete requests *)

Section MoreRuns.

Import Web Examples.

(** A deletion answered by an error object. *)
Lemma writes_succeed_on_any_parsable_body_witness :
  ManagementMisc.accepted
    (refusing_broker []
       (Management.prepare dumps0 Management.default_api
          ("users/" +:+ Urllib.quote "ghost" "") "DELETE" PyNone))
  /\ (Management.delete_user refusing_broker dumps0 str0 Management.default_api
        "ghost" []).1 = Returned tt.
Proof.
  assert (Hacc : ManagementMisc.accepted
                   (refusing_broker []
                      (Management.prepare dumps0 Management.default_api
                         ("users/" +:+ Urllib.quote "ghost" "") "DELETE" PyNone))).
  { right. by eexists. }
  split; [exact Hacc|].
  apply (proj1 (proj1 (proj2 (writes_succeed_on_any_parsable_body
                                refusing_broker dumps0 str0
                                Management.default_api
                                "/" "q" "ghost" "secret" "monitoring" [])))).
  exact Hacc.
Defined.

(** The bulk deletion on a broker with two queues. *)
Lemma delete_all_queues_deletes_a_prefix_witness :
  let run :=
    ManagementMisc.delete_all_queues listing_broker dumps0 str0
      Management.default_api [] in
  exists k,
    k <= 2
    /\ run.2
       = ([] ++ ManagementMisc.listing_request dumps0 Management.default_api
             :: ((fun r : string * string * list (string * pyval) =>
                    ManagementMisc.delete_request dumps0 Management.default_api
                      r.1.1 r.1.2) <$> take k two_queues))%list
    /\ ((run.1 = ManagementMisc.Ok tt /\ k = 2)
        \/ ((exists msg,
               run.1 = ManagementMisc.Err
                         (ManagementMisc.Exn (PulseManagementException msg)))
            /\ 0 < k)).
Proof.
  apply (delete_all_queues_deletes_a_prefix listing_broker dumps0 str0
           Management.default_api two_queues []).
  - discriminate.
  - reflexivity.
Defined.

(** The bulk deletion on a broker that answers nothing. *)
Lemma delete_all_queues_without_queues_witness :
  ManagementMisc.delete_all_queues silent_broker dumps0 str0
    Management.default_api []
  = (ManagementMisc.Err (ManagementMisc.Exn TypeError),
     ([] ++ [ManagementMisc.listing_request dumps0 Management.default_api])%list).
Proof.
  apply (proj1 (delete_all_queues_without_queues silent_broker dumps0 str0
                  Management.default_api [])).
  reflexivity.
Defined.

(** The owner of a queue without consumer. *)
Lemma queue_owner_without_consumers_witness :
  ManagementMisc.queue_owner (owner_broker 0) dumps0 str0 Management.default_api
    (ManagementMisc.queue_record "/" "q/1" []) []
  = (ManagementMisc.Ok PyNone,
     ([] ++ [Management.prepare dumps0 Management.default_api
               ("queues/" +:+ Urllib.quote "/" "" +:+ "/" +:+ Urllib.quote "q/1" "")
               "GET" PyNone])%list).
Proof.
  apply (queue_owner_without_consumers (owner_broker 0) dumps0 str0
           Management.default_api "/" "q/1" [] [] (queue_answer 0) (PyInt 0)).
  - discriminate.
  - vm_compute. reflexivity.
  - reflexivity.
  - reflexivity.
Defined.

(** The owner of a queue with two consumers. *)
Lemma queue_owner_reads_first_consumer_witness :
  (ManagementMisc.queue_owner (owner_broker 2) dumps0 str0
     Management.default_api (ManagementMisc.queue_record "/" "q/1" []) []).1
  = ManagementMisc.Ok (PyStr "alice").
Proof.
  apply (proj1 (proj2 (queue_owner_reads_first_consumer (owner_broker 2) dumps0
                         str0 Management.default_api "/" "q/1" [] []
                         (queue_answer 2) (PyInt 2) (consumer_on "chan/1")
                         (PyDict [("name", PyStr "chan/1")])
                         [consumer_on "chan2"] "chan/1"
                         ltac:(discriminate) ltac:(vm_compute; reflexivity)
                         eq_refl eq_refl eq_refl eq_refl eq_refl))
           channel_answer).
  - discriminate.
  - vm_compute. reflexivity.
Defined.

(** The owner of a queue on a broker that answers nothing. *)
Lemma queue_owner_unreadable_answers_witness :
  ManagementMisc.queue_owner silent_broker dumps0 str0 Management.default_api
    (ManagementMisc.queue_record "/" "q/1" []) []
  = (ManagementMisc.Err (ManagementMisc.Exn TypeError),
     ([] ++ [Management.prepare dumps0 Management.default_api
               ("queues/" +:+ Urllib.quote "/" "" +:+ "/" +:+ Urllib.quote "q/1" "")
               "GET" PyNone])%list).
Proof.
  apply (proj1 (proj2 (queue_owner_unreadable_answers silent_broker dumps0 str0
                         Management.default_api "/" "q/1" [] []))).
  reflexivity.
Defined.

(** A visitor without session asks to delete a queue. *)
Lemma anonymous_requests_are_redirected_witness :
  delete_queue broker_up "q1" anonymous = (Returned (redirect "/"), anonymous).
Proof.
  apply (proj1 (anonymous_requests_are_redirected broker_up hash0 anonymous
                  "q1" (update_form0 "") None None eq_refl)).
Defined.

(** Alice logs out; her next request finds no user. *)
Lemma logout_ends_the_login_witness :
  fake_account config0 = None
  /\ g_user (load_user config0 (logout_handler (world_of alice)).2).2 = None.
Proof.
  split; [reflexivity|].
  apply (proj2 (proj2 (proj2 (proj2 (proj2 (proj2 (proj2
           (logout_ends_the_login config0 (world_of alice)
              (ret (redirect "/profile")))))))))).
  reflexivity.
Defined.

(** The request hook on a session of root. *)
Lemma load_user_follows_the_session_witness :
  let w := (set_g_user None (world_of root)).2 in
  load_user config0 w = (Returned tt, (set_g_user (Some root) w).2).
Proof.
  apply (proj2 (load_user_follows_the_session config0
                  (set_g_user None (world_of root)).2 eq_refl)
           "root@example.com" root).
  - vm_compute. reflexivity.
  - discriminate.
  - vm_compute. reflexivity.
Defined.

(** The request hook with a fake account, on a visitor without session. *)
Lemma fake_account_logs_everyone_in_witness :
  session (load_user config_fake anonymous).2 !! "email"
  = Some (PyStr "alice@example.com")
  /\ is_none (session_get (load_user config_fake anonymous).2 "email") = false.
Proof.
  pose proof (fake_account_logs_everyone_in config_fake anonymous
                "alice@example.com" eq_refl ltac:(discriminate)) as Hfake.
  split; [exact (proj1 Hfake)|exact (proj1 (proj2 (proj2 (proj2 Hfake))))].
Defined.

(** The profile of alice, who is no admin. *)
Lemma profile_lists_for_admins_only_witness :
  exists users queues,
    profile None None (world_of alice)
    = (Returned (render_profile users queues None None), world_of alice)
    /\ (admin alice = false -> users = [] /\ queues = [])
    /\ (admin alice = true ->
        (forall x, x ∈ users
                   <-> tbl_users (db (world_of alice)) !! email x = Some (admin x))
        /\ (forall q, q ∈ queues
                      <-> owner q = None
                          /\ tbl_queues (db (world_of alice)) !! name q
                             = Some None)).
Proof.
  apply (profile_lists_for_admins_only (world_of alice) alice None None).
  - reflexivity.
  - reflexivity.
Defined.

(** Alice, who is no admin, asks for a view of the admins. *)
Lemma admin_views_need_login_and_admin_witness :
  requires_login (requires_admin (ret (redirect "/all_users"))) (world_of alice)
  = (Raised (HTTPException 404), world_of alice).
Proof.
  apply (proj1 (proj2 (admin_views_need_login_and_admin
                         (ret (redirect "/all_users")) (world_of alice)))
           alice eq_refl eq_refl eq_refl).
Defined.

(** Alice deletes her queue, twice. *)
Lemma delete_queue_removes_the_record_witness :
  let w' := (delete_queue broker_up "q1" (world_of alice)).2 in
  delete_queue broker_up "q1" (world_of alice) = (Returned ok_true, w')
  /\ get_queue (db w') "q1" = None
  /\ delete_queue broker_up "q1" w' = (Returned ok_false, w').
Proof.
  assert (Hrun : delete_queue broker_up "q1" (world_of alice)
                 = (Returned ok_true,
                    (delete_queue broker_up "q1" (world_of alice)).2))
    by (vm_compute; reflexivity).
  pose proof (delete_queue_removes_the_record broker_up "q1" (world_of alice)
                _ Hrun) as Hrec.
  split; [exact Hrun|].
  split; [exact (proj1 Hrec)|exact (proj2 (proj2 (proj2 (proj2 Hrec))))].
Defined.

(** Alice deletes her pulse user. *)
Lemma delete_pulse_user_removes_the_record_witness :
  let w' := (delete_pulse_user broker_up "pulse1" (world_of alice)).2 in
  delete_pulse_user broker_up "pulse1" (world_of alice) = (Returned ok_true, w')
  /\ get_pulse_user (db w') "pulse1" = None.
Proof.
  assert (Hrun : delete_pulse_user broker_up "pulse1" (world_of alice)
                 = (Returned ok_true,
                    (delete_pulse_user broker_up "pulse1" (world_of alice)).2))
    by (vm_compute; reflexivity).
  split; [exact Hrun|].
  exact (proj1 (delete_pulse_user_removes_the_record broker_up "pulse1"
                  (world_of alice) _ Hrun)).
Defined.

(** Alice changes the password of her pulse user: a verification that
    differs, and a password of letters only. *)
Lemma update_info_checks_password_first_witness :
  update_info broker_up hash0 (password_form "secret123" "secret124")
    (world_of alice)
  = (Returned
       (render_profile [] []
          (Some "Password verification doesn't match the password.") None),
     world_of alice)
  /\ (update_info broker_up hash0 (password_form "secret" "secret")
        (world_of alice)).2 = world_of alice.
Proof.
  split.
  - apply (proj1 (update_info_checks_password_first broker_up hash0
                    (password_form "secret123" "secret124") (world_of alice)
                    alice pulse1 "pulse1" "secret123" "secret124"
                    "root@example.com" eq_refl eq_refl
                    ltac:(repeat split; reflexivity)
                    ltac:(vm_compute; reflexivity)
                    ltac:(vm_compute; reflexivity) ltac:(discriminate))).
    discriminate.
  - rewrite (proj2 (update_info_checks_password_first broker_up hash0
                      (password_form "secret" "secret") (world_of alice)
                      alice pulse1 "pulse1" "secret" "secret"
                      "root@example.com" eq_refl eq_refl
                      ltac:(repeat split; reflexivity)
                      ltac:(vm_compute; reflexivity)
                      ltac:(vm_compute; reflexivity) ltac:(discriminate))
               eq_refl eq_refl).
    reflexivity.
Defined.

(** Alice sends the form back with the owners as they are. *)
Lemma update_info_without_changes_witness :
  update_info broker_up hash0 (update_form0 " alice@example.com ,")
    (world_of alice)
  = (Returned (render_profile [] [] None (Some ["No info updated."])),
     world_of alice).
Proof.
  apply (update_info_without_changes broker_up hash0
           (update_form0 " alice@example.com ,") (world_of alice) alice pulse1
           "pulse1" "" " alice@example.com ,").
  - reflexivity.
  - reflexivity.
  - repeat split; reflexivity.
  - vm_compute. reflexivity.
  - vm_compute. reflexivity.
  - right. vm_compute. reflexivity.
Defined.

(** Alice registers the pulse user [newuser]. *)
Lemma registration_succeeds_only_when_valid_witness :
  (register_handler config0 broker_no_user hash0 register_form0
     (world_of alice)).1 = Returned (redirect "/profile")
  /\ strong_password "secret123" = true
  /\ username_match "newuser" = true
  /\ get_pulse_user (db (world_of alice)) "newuser" = None.
Proof.
  assert (Hrun : register_handler config0 broker_no_user hash0 register_form0
                   (world_of alice)
                 = (Returned (redirect "/profile"),
                    (register_handler config0 broker_no_user hash0
                       register_form0 (world_of alice)).2))
    by (vm_compute; reflexivity).
  pose proof (registration_succeeds_only_when_valid config0 broker_no_user
                hash0 register_form0 (world_of alice) _ "newuser" "secret123"
                "secret123" "alice@example.com"
                ltac:(repeat split; reflexivity) Hrun) as Hvalid.
  split; [by rewrite Hrun|].
  split; [exact (proj1 (proj2 Hvalid))|].
  split; [exact (proj1 (proj2 (proj2 Hvalid)))|].
  exact (proj1 (proj2 (proj2 (proj2 (proj2 (proj2 Hvalid)))))).
Defined.

(** Alice asks for the username of her own pulse user again. *)
Lemma registration_rejects_taken_username_witness :
  let w := world_of alice in
  exists errors w1,
    register_handler config0 broker_no_user hash0
      (register_form_for "pulse1" "alice@example.com") w
    = (Returned
         (render_register (PyStr "alice@example.com") None (Some errors)), w1)
    /\ username_taken_message ∈ errors
    /\ db w1 = db w /\ committed w1 = committed w
    /\ broker w1 = (broker w ++ [call_user "pulse1"])%list.
Proof.
  apply (registration_rejects_taken_username config0 broker_no_user hash0
           (register_form_for "pulse1" "alice@example.com") (world_of alice)
           "pulse1" "secret123" "secret123" "alice@example.com"
           (PyStr "alice@example.com") false).
  - repeat split; reflexivity.
  - vm_compute. reflexivity.
  - reflexivity.
  - right. vm_compute. by eexists.
Defined.

(** Alice registers a pulse user for an owner the store does not know. *)
Lemma registration_echoes_unknown_owners_witness :
  let w := world_of alice in
  exists w1,
    register_handler config0 broker_no_user hash0
      (register_form_for "newuser" "ghost@example.com") w
    = (Returned
         (render_register (PyStr "alice@example.com")
            (Some ("Invalid owners list: " +:+ "ghost@example.com")) None), w1)
    /\ db w1 = db w /\ committed w1 = committed w
    /\ broker w1 = (broker w ++ [call_user "newuser"])%list.
Proof.
  apply (registration_echoes_unknown_owners config0 broker_no_user hash0
           (register_form_for "newuser" "ghost@example.com") (world_of alice)
           "newuser" "secret123" "ghost@example.com"
           (PyStr "alice@example.com")).
  - repeat split; reflexivity.
  - vm_compute. reflexivity.
  - reflexivity.
  - reflexivity.
  - reflexivity.
  - intros reserved Hreserved. discriminate Hreserved.
  - reflexivity.
  - vm_compute. reflexivity.
  - vm_compute. reflexivity.
Defined.

(** A blank between two commas. *)
Lemma blank_owner_entry_is_kept_witness :
  _clean_owners_str " " = {[ "" ]}
  /\ "" ∈ _clean_owners_str
            ("alice@example.com" +:+ "," +:+ " " +:+ "," +:+ "root@example.com").
Proof.
  apply (blank_owner_entry_is_kept " " "alice@example.com" "root@example.com").
  - discriminate.
  - reflexivity.
Defined.

(** A username with each kind of character the pattern admits. *)
Lemma accepted_usernames_need_no_encoding_witness :
  Urllib.quote "new.user_1-a" "" = "new.user_1-a"
  /\ has_char "/" "new.user_1-a" = false
  /\ split_on "/" ("users/" +:+ Urllib.quote "new.user_1-a" "")
     = ["users"; "new.user_1-a"].
Proof.
  apply (accepted_usernames_need_no_encoding "new.user_1-a").
  - reflexivity.
  - reflexivity.
Defined.

Lemma username_pattern_accepts_final_newline_witness :
  username_match ("newuser" +:+ newline) = true
  /\ Urllib.quote ("newuser" +:+ newline) "" = "newuser" +:+ "%0A".
Proof.
  apply (username_pattern_accepts_final_newline "newuser").
  - reflexivity.
  - reflexivity.
Defined.

(** The callback for alice, who owns a pulse user. *)
Lemma callback_logs_in_a_known_user_witness :
  let run :=
    callback_handling config0 token_granted profile_of_alice dumps0 str0
      (PyStr "code") anonymous in
  session run.2
  = <["logged_in" := PyBool true]>
      (<["email" := PyStr "alice@example.com"]> (session anonymous))
  /\ run.1 = Returned (redirect "/").
Proof.
  pose proof (callback_logs_in_a_known_user config0 token_granted
                profile_of_alice dumps0 str0 (PyStr "code") anonymous
                _ _ _ (PyStr "t0k3n") _ "alice@example.com" alice
                eq_refl eq_refl eq_refl eq_refl eq_refl eq_refl eq_refl
                ltac:(vm_compute; reflexivity)) as Hin.
  split; [exact (proj1 Hin)|].
  apply (proj1 (proj2 (proj2 (proj2 (proj2 (proj2 Hin)))))).
  exists "pulse1", ("hash0", {[ "alice@example.com" ]}).
  split; vm_compute; reflexivity.
Defined.

(** The callback that has changed the email in the session of a visitor. *)
Lemma callback_session_needs_both_exchanges_witness :
  exists token_resp token_info access_token resp user_info email,
    token_request config0 token_granted dumps0 (PyStr "code")
    = Returned token_resp
    /\ json token_resp = Some token_info
    /\ py_getitem token_info "access_token" = Returned access_token
    /\ profile_of_alice
         ("https://" +:+ auth0_domain config0 +:+ "/userinfo?access_token="
            +:+ str0 access_token) = Returned resp
    /\ ok resp = true
    /\ json resp = Some user_info
    /\ py_getitem user_info "email" = Returned email.
Proof.
  apply (proj2 (callback_session_needs_both_exchanges config0 token_granted
                  profile_of_alice dumps0 str0 (PyStr "code") anonymous
                  "email" ltac:(discriminate)
                  ltac:(vm_compute; discriminate))).
Defined.

(** The callback when the profile cannot be fetched. *)
Lemma callback_falls_back_on_profile_failure_witness :
  let run :=
    callback_handling config0 token_granted profile_unavailable dumps0 str0
      (PyStr "code") anonymous in
  exists notice,
    run.1 = Returned (redirect "/")
    /\ is_infix (auth0_domain config0) notice
    /\ flashes run.2 = (flashes anonymous ++ [notice])%list
    /\ logs run.2
       = (logs anonymous ++ [(ERROR, notice); (ERROR, "Service Unavailable")])%list
    /\ session run.2
       = <["_flashes" := PyList ([] ++ [PyTuple [PyStr "message"; PyStr notice]])]>
           (session anonymous)
    /\ session run.2 !! "email" = session anonymous !! "email"
    /\ session run.2 !! "logged_in" = session anonymous !! "logged_in"
    /\ db run.2 = db anonymous
    /\ committed run.2 = committed anonymous.
Proof.
  apply (callback_falls_back_on_profile_failure config0 token_granted
           profile_unavailable dumps0 str0 (PyStr "code") anonymous
           _ _ _ (PyStr "t0k3n") [] eq_refl eq_refl eq_refl eq_refl eq_refl
           eq_refl).
Defined.

End MoreRuns.
